(** * Stock ledger and consistency engine of the Product Management System

    A shallow embedding of the stock-affecting operations of [pms.py]
    ([update_stock], [reconcile_stock], [add_sale], [edit_sale],
    [delete_sale], [add_invoice], [delete_invoice], the operations on
    products and on damage records) and of the product filter
    ([AdvancedProductFilterModel]), followed by the properties the
    specification states about them.

    Modelling conventions.
    - A table is the list of its rows in rowid order. [INTEGER] columns are
      [Z]: Python integers are unbounded, and the 64-bit range of an SQLite
      [INTEGER] is modelled where a number of a form is bound to a statement
      without having passed a comparison with a stored number ([edit_sale],
      [add_product], [update_product]).
    - [REAL] columns and Python floats are binary64 numbers, with the
      arithmetic and the comparisons of IEEE 754 ([SpecFloat] of the
      standard library, rounding to nearest even). A NaN bound to a column is
      stored as [NULL] and a negative zero as zero ([real_column]); a [NULL]
      of a [REAL] column is the NaN of the model.
    - The model follows the single [sqlite3] connection of the application:
      a statement's effect is visible to the statements after it, and
      [conn.commit()] does not change what the connection sees. Of the
      storage failures ([sqlite3.Error]) the model has the violation of a
      [NOT NULL] or [UNIQUE] constraint ([sqlite3.IntegrityError]).
    - Python exceptions are outcomes of a state-and-exception monad in which
      the writes made before a [raise] stay in the state, as they do in the
      open transaction of the connection.
    - Message boxes and the low-stock signal are recorded in a trace.
    - The table model behind a view ([sales_model]) shows the rows of its
      table, with the columns in the order of [CREATE TABLE].
    - [datetime.now()] is an argument of each operation. *)

From Stdlib Require Import ZArith Bool List String Ascii DecimalString Lia.
From Stdlib Require Import SpecFloat.
Import ListNotations.

Local Open Scope string_scope.
Local Open Scope list_scope.
Local Open Scope Z_scope.

(** ** Binary64 numbers *)

Definition float64 : Type := spec_float.

(** [x + y], [x - y], [x * y] and [x / y] on floats. The one divisor of the
    modelled code is the constant [100], so [ZeroDivisionError] does not
    arise. *)
Definition fadd : float64 -> float64 -> float64 := SFadd 53 1024.
Definition fsub : float64 -> float64 -> float64 := SFsub 53 1024.
Definition fmul : float64 -> float64 -> float64 := SFmul 53 1024.
Definition fdiv : float64 -> float64 -> float64 := SFdiv 53 1024.

(** [x < y], [x <= y] and [x == y]: false as soon as one side is NaN. *)
Definition flt : float64 -> float64 -> bool := SFltb.
Definition fle : float64 -> float64 -> bool := SFleb.
Definition feq : float64 -> float64 -> bool := SFeqb.

Definition is_nan (x : float64) : bool :=
  match x with
  | S754_nan => true
  | _ => false
  end.

(** The float nearest to an integer (ties to even); an infinity from
    [2 ^ 1024 - 2 ^ 970] on. *)
Definition float_of_Z (z : Z) : float64 := binary_normalize 53 1024 z 0 false.

(** The integers Python converts to a float; for the others the conversion
    raises [OverflowError]. *)
Definition in_float_range (z : Z) : bool :=
  match float_of_Z z with
  | S754_infinity _ => false
  | _ => true
  end.

Definition zero : float64 := float_of_Z 0.
Definition hundred : float64 := float_of_Z 100.

(** The literal [0.13]. *)
Definition vat_rate : float64 := S754_finite false 4683743612465316 (-55).

(** What a [REAL] column holds once [x] has been bound to it: SQLite stores
    a float with an integer value as that integer and reads it back as a
    float, which turns [-0.0] into [0.0]; a NaN is stored as [NULL]. *)
Definition real_column (x : float64) : float64 :=
  match x with
  | S754_zero _ => S754_zero false
  | _ => x
  end.

(** The 64-bit integers: what the [sqlite3] module binds to a statement;
    for another integer the binding raises [OverflowError]. *)
Definition in_int64 (z : Z) : bool := (- 2 ^ 63 <=? z) && (z <? 2 ^ 63).

(** ** Rows of the tables created by [setup_databases] *)

(** The [reason] column of [stock_history]. The source writes formatted
    text; each constructor stands for one format string and keeps the
    values interpolated into it. *)
Inductive reason : Type :=
| InitialStock                          (* "Initial stock" *)
| StockUpdated                          (* "Stock updated" *)
| ImportedStock                         (* "Imported stock" *)
| StockReconciliation                   (* "Stock reconciliation" *)
| SaleOf (qty : Z) (discount : float64) (* f"Sale of {qty} units with {discount}% discount" *)
| SaleEdit (old_qty qty : Z)            (* f"Sale edit (old: {old_qty}, new: {qty})" *)
| SaleDeletion (qty : Z)                (* f"Sale deletion ({qty} sold)" *)
| InvoiceIssued (invoice_number : string). (* f"Invoice {invoice_number}" *)

Module Product.
(** [products (id, name, type, buy_price, sell_price, last_updated, stock)] *)
Record t : Type := mk {
  id : Z;
  name : string;
  type : string;
  buy_price : float64;
  sell_price : float64;
  last_updated : string;
  stock : Z
}.
End Product.

Module History.
(** [stock_history (product_id, date, quantity_change, reason)]; the
      rowid of an entry is its position, no statement refers to it. *)
Record t : Type := mk {
  product_id : Z;
  date : string;
  quantity_change : Z;
  why : reason
}.
End History.

Module Sale.
(** [daily_accessories_sales
       (id, date, item, quantity, sale_price, discount, total, product_id)] *)
Record t : Type := mk {
  id : Z;
  date : string;
  item : string;
  quantity : Z;
  sale_price : float64;
  discount : float64;
  total : float64;
  product_id : Z
}.
End Sale.

Module Invoice.
(** [invoices (id, invoice_number, date, customer_name, total, vat,
       grand_total, timestamp, sale_id)] *)
Record t : Type := mk {
  id : Z;
  invoice_number : string;
  date : string;
  customer_name : string;
  total : float64;
  vat : float64;
  grand_total : float64;
  timestamp : string;
  sale_id : option Z
}.
End Invoice.

Module InvoiceItem.
(** [invoice_items (invoice_id, product_id, quantity, unit_price,
       discount, total)] *)
Record t : Type := mk {
  invoice_id : Z;
  product_id : Z;
  quantity : Z;
  unit_price : float64;
  discount : float64;
  total : float64
}.
End InvoiceItem.

(** The database as the connection sees it. [sales_seq] and [invoices_seq]
    are the [sqlite_sequence] counters of the two [AUTOINCREMENT] keys that
    the modelled code reads back through [lastrowid] or shows in a table. *)
Record database : Type := mkdb {
  products : list Product.t;
  stock_history : list History.t;
  daily_accessories_sales : list Sale.t;
  invoices : list Invoice.t;
  invoice_items : list InvoiceItem.t;
  sales_seq : Z;
  invoices_seq : Z
}.

(** ** Failures and user-visible effects *)

(** What a message box of kind "Error" reports. The constructor names follow
    the error taxonomy of the specification; the comment gives the text. *)
Inductive error : Type :=
| NoSelection             (* "Select a sale to edit!" / "Select a sale to delete!" / "Please select a sale!" *)
| MissingFields           (* "All fields except discount required!" / "All required fields must be filled!" *)
| BadLiteral              (* ValueError raised by strptime, int() or float() *)
| BadQuantityOrPrice      (* "Quantity must be positive, price non-negative!" / "Quantity must be positive!" *)
| BadDiscount             (* "Discount must be between 0 and 100%!" *)
| InvalidInput            (* "Invalid input values!" *)
| ProductNotFound (item : string)    (* f"Product '{item}' not found!" *)
| SaleNotFound (sale_id : Z)         (* f"Sale ID {sale_id} not found!" *)
| InsufficientStock (available : Z)  (* f"Stock cannot go below 0! Current: {current_stock}" /
                                        f"Insufficient stock: {current_stock} available!" *)
| SaleMismatch            (* "Selected sale does not match product, quantity, or discount!" *)
| InvoiceNumberExists (invoice_number : string) (* f"Invoice number '{invoice_number}' already exists!" *)
| DatabaseError.          (* f"Database error: {e}" *)

Inductive event : Type :=
| MessageBox (e : error)                     (* create_message_box("Error", ...).exec() *)
| LowStockSignal (name : string) (stock : Z). (* low_stock_signal.emit(name, new_stock) *)

(** The application: its connection and what it has shown so far. *)
Record appstate : Type := mkapp {
  conn : database;
  shown : list event
}.

(** Python exceptions that the modelled code raises. *)
Inductive exn : Type :=
| ValueError (e : error)
| TypeError               (* subscripting or unpacking the [None] of an empty [fetchone()];
                             [float(None)] *)
| OverflowError           (* an integer too large for a float or for an [INTEGER] *)
| RecursionError
| IntegrityError.         (* [sqlite3.IntegrityError], a [sqlite3.Error] *)

Inductive outcome (A : Type) : Type :=
| Return (a : A)
| Raise (x : exn).
Arguments Return {A} a.
Arguments Raise {A} x.

(** ** The monad of the application code *)

Definition py (A : Type) : Type := appstate -> outcome A * appstate.

Definition ret {A} (a : A) : py A := fun st => (Return a, st).

Definition bind {A B} (c : py A) (k : A -> py B) : py B :=
  fun st =>
    match c st with
    | (Return a, st') => k a st'
    | (Raise x, st') => (Raise x, st')
    end.

Definition raise {A} (x : exn) : py A := fun st => (Raise x, st).

(** [try: c except ValueError as e: h e] *)
Definition try_except_ValueError {A} (c : py A) (h : error -> py A) : py A :=
  fun st =>
    match c st with
    | (Raise (ValueError e), st') => h e st'
    | r => r
    end.

(** [try: c except sqlite3.Error: h]; [sqlite3.IntegrityError] is the one
    such exception of the model. *)
Definition try_except_sqlite3_Error {A} (c : py A) (h : py A) : py A :=
  fun st =>
    match c st with
    | (Raise IntegrityError, st') => h st'
    | r => r
    end.

Declare Scope py_scope.
Delimit Scope py_scope with py.
Notation "x <- c ;; k" := (bind c (fun x => k))
  (at level 61, c at next level, right associativity) : py_scope.
Notation "c ;; k" := (bind c (fun _ => k))
  (at level 61, right associativity) : py_scope.
Local Open Scope py_scope.

(** A query reads the connection; a statement rewrites it. *)
Definition query {A} (q : database -> A) : py A :=
  fun st => (Return (q (conn st)), st).

Definition execute (w : database -> database) : py unit :=
  fun st => (Return tt, mkapp (w (conn st)) (shown st)).

Definition commit : py unit := ret tt.

Definition show (e : event) : py unit :=
  fun st => (Return tt, mkapp (conn st) (shown st ++ [e])).

(** [if b: c] *)
Definition when (b : bool) (c : py unit) : py unit :=
  if b then c else ret tt.

(** [for x in l: body x] *)
Fixpoint for_each {A} (l : list A) (body : A -> py unit) : py unit :=
  match l with
  | [] => ret tt
  | x :: l' => body x ;; for_each l' body
  end.

(** The state an operation leaves, whatever its outcome. *)
Definition after {A} (c : py A) (st : appstate) : appstate := snd (c st).

(** ** SQL statements used by the stock engine *)

Definition product_by_id (product_id : Z) (db : database) : option Product.t :=
  find (fun p => Product.id p =? product_id) (products db).

Definition product_by_name (item : string) (db : database) : option Product.t :=
  find (fun p => String.eqb (Product.name p) item) (products db).

(** [SELECT stock FROM products WHERE id=?], then [fetchone()] *)
Definition select_stock (product_id : Z) (db : database) : option Z :=
  option_map Product.stock (product_by_id product_id db).

(** [SELECT name FROM products WHERE id=?], then [fetchone()] *)
Definition select_name (product_id : Z) (db : database) : option string :=
  option_map Product.name (product_by_id product_id db).

Definition set_stock (new_stock : Z) (timestamp : string) (p : Product.t) : Product.t :=
  Product.mk (Product.id p) (Product.name p) (Product.type p)
             (Product.buy_price p) (Product.sell_price p) timestamp new_stock.

Definition with_products (ps : list Product.t) (db : database) : database :=
  mkdb ps (stock_history db) (daily_accessories_sales db)
       (invoices db) (invoice_items db) (sales_seq db) (invoices_seq db).

Definition with_stock_history (h : list History.t) (db : database) : database :=
  mkdb (products db) h (daily_accessories_sales db)
       (invoices db) (invoice_items db) (sales_seq db) (invoices_seq db).

(** [UPDATE products SET stock=?, last_updated=? WHERE id=?] *)
Definition update_products_stock (new_stock : Z) (timestamp : string)
    (product_id : Z) (db : database) : database :=
  with_products
    (map (fun p => if Product.id p =? product_id
                   then set_stock new_stock timestamp p else p)
         (products db)) db.

(** [INSERT INTO stock_history (product_id, date, quantity_change, reason)
     VALUES (?, ?, ?, ?)] *)
Definition insert_stock_history (product_id : Z) (timestamp : string)
    (quantity_change : Z) (r : reason) (db : database) : database :=
  with_stock_history
    (stock_history db ++ [History.mk product_id timestamp quantity_change r]) db.

(** [SELECT SUM(quantity_change) FROM stock_history WHERE product_id=?];
    [None] is the SQL [NULL] that [SUM] gives over no rows. *)
Definition sum_changes (product_id : Z) (h : list History.t) : Z :=
  fold_right Z.add 0
    (map History.quantity_change
         (filter (fun e => History.product_id e =? product_id) h)).

Definition select_sum_quantity_change (product_id : Z) (db : database) : option Z :=
  match filter (fun e => History.product_id e =? product_id) (stock_history db) with
  | [] => None
  | _ => Some (sum_changes product_id (stock_history db))
  end.

(** [x or 0] on the result of [SUM] *)
Definition or_zero (x : option Z) : Z :=
  match x with
  | None => 0
  | Some v => v    (* [0 or 0] is [0] as well *)
  end.

(** ** The stock mutation service and reconciliation *)

(** [update_stock(self, product_id, quantity_change, reason)]. The result is
    [None] or the new stock, as in the source. *)
Definition update_stock (now : string) (product_id : Z) (quantity_change : Z)
    (r : reason) : py (option Z) :=
  row <- query (select_stock product_id) ;;
  match row with
  | None => raise TypeError
  | Some current_stock =>
      let new_stock := current_stock + quantity_change in
      if new_stock <? 0 then
        show (MessageBox (InsufficientStock current_stock)) ;;
        ret None
      else
        let timestamp := now in
        execute (update_products_stock new_stock timestamp product_id) ;;
        execute (insert_stock_history product_id timestamp quantity_change r) ;;
        commit ;;
        (if new_stock <=? 5 then
           row <- query (select_name product_id) ;;
           match row with
           | None => raise TypeError
           | Some name => show (LowStockSignal name new_stock)
           end
         else ret tt) ;;
        ret (Some new_stock)
  end.

(** [reconcile_stock(self)]. [now prod_id] is the clock reading taken while
    product [prod_id] is being corrected. *)
Definition reconcile_stock (now : Z -> string) : py unit :=
  rows <- query products ;;
  for_each rows (fun p =>
    let prod_id := Product.id p in
    let stock := Product.stock p in
    sum <- query (select_sum_quantity_change prod_id) ;;
    let total_change := or_zero sum in
    when (negb (total_change =? stock))
      (let discrepancy := stock - total_change in
       execute (insert_stock_history prod_id (now prod_id) discrepancy
                                     StockReconciliation))) ;;
  commit.


(** The difference between the cached stock of a product and the sum of
    its ledger entries ("drift"); [None] when there is no such product. *)
Definition drift_of (product_id : Z) (db : database) : option Z :=
  option_map (fun s => s - sum_changes product_id (stock_history db))
             (select_stock product_id db).




(** The ledger entries of one product. *)
Definition entries_of (product_id : Z) (h : list History.t) : list History.t :=
  filter (fun e => History.product_id e =? product_id) h.

(** ** SQL statements used by the coordinators *)

Definition with_sales (rows : list Sale.t) (seq : Z) (db : database) : database :=
  mkdb (products db) (stock_history db) rows
       (invoices db) (invoice_items db) seq (invoices_seq db).

Definition with_invoices (rows : list Invoice.t) (seq : Z) (db : database) : database :=
  mkdb (products db) (stock_history db) (daily_accessories_sales db)
       rows (invoice_items db) (sales_seq db) seq.

Definition with_invoice_items (rows : list InvoiceItem.t) (db : database) : database :=
  mkdb (products db) (stock_history db) (daily_accessories_sales db)
       (invoices db) rows (sales_seq db) (invoices_seq db).

(** The rowid an [INTEGER PRIMARY KEY AUTOINCREMENT] column gives to a new
    row: one more than the largest rowid the table holds or has ever held. *)
Definition next_rowid (seq : Z) (ids : list Z) : Z :=
  Z.max seq (fold_right Z.max 0 ids) + 1.

Definition sale_by_id (sale_id : Z) (db : database) : option Sale.t :=
  find (fun s => Sale.id s =? sale_id) (daily_accessories_sales db).

(** [SELECT id, stock FROM products WHERE name = ?] *)
Definition select_id_stock (item : string) (db : database) : option (Z * Z) :=
  option_map (fun p => (Product.id p, Product.stock p)) (product_by_name item db).

(** [SELECT id, sell_price, stock FROM products WHERE name = ?] *)
Definition select_id_price_stock (item : string) (db : database) : option (Z * float64 * Z) :=
  option_map (fun p => (Product.id p, Product.sell_price p, Product.stock p))
             (product_by_name item db).

(** [SELECT quantity, product_id FROM daily_accessories_sales WHERE id=?] *)
Definition select_quantity_product (sale_id : Z) (db : database) : option (Z * Z) :=
  option_map (fun s => (Sale.quantity s, Sale.product_id s)) (sale_by_id sale_id db).

(** [SELECT item, quantity, discount FROM daily_accessories_sales WHERE id = ?] *)
Definition select_item_quantity_discount (sale_id : Z) (db : database)
    : option (string * Z * float64) :=
  option_map (fun s => (Sale.item s, Sale.quantity s, Sale.discount s))
             (sale_by_id sale_id db).

(** [SELECT quantity, product_id, discount FROM daily_accessories_sales WHERE id = ?] *)
Definition select_quantity_product_discount (sale_id : Z) (db : database)
    : option (Z * Z * float64) :=
  option_map (fun s => (Sale.quantity s, Sale.product_id s, Sale.discount s))
             (sale_by_id sale_id db).

(** [INSERT INTO daily_accessories_sales (date, item, quantity, sale_price,
     discount, total, product_id) VALUES (?, ?, ?, ?, ?, ?, ?)] *)
Definition insert_sale (date item : string) (qty : Z) (price discount total : float64)
    (prod_id : Z) (db : database) : database :=
  let id := next_rowid (sales_seq db) (map Sale.id (daily_accessories_sales db)) in
  with_sales
    (daily_accessories_sales db
       ++ [Sale.mk id date item qty (real_column price) (real_column discount)
                   (real_column total) prod_id])
    id db.

(** [UPDATE daily_accessories_sales SET date=?, item=?, quantity=?,
     sale_price=?, discount=?, total=?, product_id=? WHERE id=?] *)
Definition update_sale (date item : string) (qty : Z) (price discount total : float64)
    (prod_id sale_id : Z) (db : database) : database :=
  with_sales
    (map (fun s => if Sale.id s =? sale_id
                   then Sale.mk (Sale.id s) date item qty (real_column price)
                                (real_column discount) (real_column total) prod_id
                   else s)
         (daily_accessories_sales db))
    (sales_seq db) db.

(** [DELETE FROM daily_accessories_sales WHERE id=?] *)
Definition delete_sale_row (sale_id : Z) (db : database) : database :=
  with_sales
    (filter (fun s => negb (Sale.id s =? sale_id)) (daily_accessories_sales db))
    (sales_seq db) db.

(** [SELECT COUNT( * ) FROM invoices WHERE invoice_number = ?] *)
Definition count_invoice_number (number : string) (db : database) : Z :=
  Z.of_nat (List.length
    (filter (fun i => String.eqb (Invoice.invoice_number i) number) (invoices db))).

(** [INSERT INTO invoices (invoice_number, date, customer_name, total, vat,
     grand_total, timestamp, sale_id) VALUES ...] with amounts that are not
    NaN and a number no invoice has; [lastrowid] is then the new
    [invoices_seq]. *)
Definition insert_invoice (number date customer : string) (total vat grand_total : float64)
    (timestamp : string) (sale_id : option Z) (db : database) : database :=
  let id := next_rowid (invoices_seq db) (map Invoice.id (invoices db)) in
  with_invoices
    (invoices db
       ++ [Invoice.mk id number date customer (real_column total) (real_column vat)
                      (real_column grand_total) timestamp sale_id])
    id db.

(** [INSERT INTO invoice_items (invoice_id, product_id, quantity, unit_price,
     discount, total) VALUES ...] *)
Definition insert_invoice_item (invoice_id prod_id qty : Z)
    (unit_price discount total : float64) (db : database) : database :=
  with_invoice_items
    (invoice_items db
       ++ [InvoiceItem.mk invoice_id prod_id qty (real_column unit_price)
                          (real_column discount) (real_column total)]) db.

(** ** Python values and text *)

(** Truth value of a [str]. *)
Definition truthy (s : string) : bool := negb (String.eqb s "").

(** [s or d] on text *)
Definition or_text (s d : string) : string := if truthy s then s else d.

(** [all(fields)] on a list of text fields *)
Definition all_filled (fields : list string) : bool := forallb truthy fields.

(** [s.replace(a, b)] for one-character [a] and [b] *)
Fixpoint replace_char (a b : ascii) (s : string) : string :=
  match s with
  | EmptyString => EmptyString
  | String c s' => String (if Ascii.eqb c a then b else c) (replace_char a b s')
  end.

(** [s.replace(a, '')] for a one-character [a] *)
Fixpoint remove_char (a : ascii) (s : string) : string :=
  match s with
  | EmptyString => EmptyString
  | String c s' =>
      if Ascii.eqb c a then remove_char a s' else String c (remove_char a s')
  end.

(** [needle in hay] on text *)
Fixpoint contains (needle hay : string) : bool :=
  String.prefix needle hay
  || match hay with
     | EmptyString => false
     | String _ hay' => contains needle hay'
     end.

(** [f"INV-{timestamp.replace(' ', '-').replace(':', '')}"] *)
Definition invoice_number_of (timestamp : string) : string :=
  ("INV-" ++ remove_char ":" (replace_char " " "-" timestamp))%string.

(** ** Input widgets *)

(** The sales form: [sales_date], [sales_item], [sales_quantity],
    [sales_price], [sales_discount]. *)
Record sales_form : Type := mk_sales_form {
  sales_date : string;
  sales_item : string;
  sales_quantity : string;
  sales_price : string;
  sales_discount : string
}.

(** The two entries of the [invoice_source] combo box. *)
Inductive source : Type :=
| FromStock     (* "From Stock" *)
| FromSale.     (* "From Sale" *)

(** The invoice form. [sale_selector] is [currentData()] of the sale combo
    box: the id of the chosen sale, [None] on the "Select a Sale" entry. *)
Record invoice_form : Type := mk_invoice_form {
  invoice_date : string;
  customer_name : string;
  invoice_source : source;
  sale_selector : option Z;
  product_selector : string;
  invoice_quantity : string;
  invoice_discount : string
}.

(** ** The product filter: state and keyword arguments *)

Module Filters.
(** The dictionary [self.filters]; [regex] is the type of compiled patterns. *)
Record t (regex : Type) : Type := mk {
  name : string;
  type : string;
  min_buy : option float64;
  max_buy : option float64;
  min_sell : option float64;
  max_sell : option float64;
  updated_after : option string;
  name_regex : option regex;
  stock_min : option Z;
  stock_max : option Z
}.
Arguments mk {regex}.
Arguments name {regex}.
Arguments type {regex}.
Arguments min_buy {regex}.
Arguments max_buy {regex}.
Arguments min_sell {regex}.
Arguments max_sell {regex}.
Arguments updated_after {regex}.
Arguments name_regex {regex}.
Arguments stock_min {regex}.
Arguments stock_max {regex}.
End Filters.

(** One [key=value] pair of the keyword arguments of [setFilterCriteria]. *)
Inductive kwarg (regex : Type) : Type :=
| kw_name (value : string)
| kw_type (value : string)
| kw_min_buy (value : option float64)
| kw_max_buy (value : option float64)
| kw_min_sell (value : option float64)
| kw_max_sell (value : option float64)
| kw_updated_after (value : option string)
| kw_name_regex (value : option regex)
| kw_stock_min (value : option Z)
| kw_stock_max (value : option Z)
| kw_unknown (key : string).
Arguments kw_name {regex}.
Arguments kw_type {regex}.
Arguments kw_min_buy {regex}.
Arguments kw_max_buy {regex}.
Arguments kw_min_sell {regex}.
Arguments kw_max_sell {regex}.
Arguments kw_updated_after {regex}.
Arguments kw_name_regex {regex}.
Arguments kw_stock_min {regex}.
Arguments kw_stock_max {regex}.
Arguments kw_unknown {regex}.

(** What [re.compile(pattern, re.IGNORECASE)] does: it returns a compiled
    pattern, raises [re.error], or raises another exception, as
    [OverflowError] for a repetition count that is too large and
    [RecursionError] for nesting that is too deep. *)
Inductive compiled (regex : Type) : Type :=
| Pattern (r : regex)
| re_error
| CompileRaises (x : exn).
Arguments Pattern {regex}.
Arguments re_error {regex}.
Arguments CompileRaises {regex}.

(** The search inputs as [apply_filters] reads them, after [strip],
    [safe_float], [safe_int] and [safe_date]. *)
Record criteria : Type := mk_criteria {
  search_name : string;
  search_type : string;
  search_min_buy : option float64;
  search_max_buy : option float64;
  search_min_sell : option float64;
  search_max_sell : option float64;
  search_updated_after : option string;
  search_stock_min : option Z;
  search_stock_max : option Z
}.

(** A value that a text field or a column hands to [int()] or [float()]. *)
Inductive pyvalue : Type :=
| Text (s : string)
| Int (z : Z)
| Float (x : float64)
| PyNone.

(** What the cursor gives for a cell of a [REAL] column: [None] for
    [NULL]. *)
Definition real_cell (x : float64) : pyvalue :=
  if is_nan x then PyNone else Float x.

(** [int(x)] on a float: truncation towards zero. *)
Definition truncate (x : float64) : option Z :=
  match x with
  | S754_zero _ => Some 0
  | S754_finite s m e =>
      Some (cond_Zopp s (match e with
                         | Zneg k => Z.shiftr (Zpos m) (Zpos k)
                         | _ => Z.shiftl (Zpos m) e
                         end))
  | _ => None
  end.

(** Truth value of the data of the sale combo box ([None] and [0] are false). *)
Definition id_truthy (sale_id : option Z) : bool :=
  match sale_id with
  | Some z => negb (z =? 0)
  | None => false
  end.

(** ** Sample data used to run the model on concrete inputs *)

(** A reader of decimal integer literals, a reader of the same literals
    and of ["nan"], ["inf"] and ["0.1"] as floats, and a check of the shape
    [dddd-dd-dd]. *)
Definition decimal_int (s : string) : option Z :=
  option_map Z.of_int (NilZero.int_of_string s).

Definition decimal_float (s : string) : option float64 :=
  if String.eqb s "nan" then Some S754_nan
  else if String.eqb s "inf" then Some (S754_infinity false)
  else if String.eqb s "0.1" then Some (fdiv (float_of_Z 1) (float_of_Z 10))
  else option_map float_of_Z (decimal_int s).

Definition is_digit (c : ascii) : bool :=
  ((48 <=? nat_of_ascii c) && (nat_of_ascii c <=? 57))%nat.

Definition iso_date (s : string) : bool :=
  match list_ascii_of_string s with
  | [y1; y2; y3; y4; d1; m1; m2; d2; a1; a2] =>
      forallb is_digit [y1; y2; y3; y4; m1; m2; a1; a2]
      && Ascii.eqb d1 "-" && Ascii.eqb d2 "-"
  | _ => false
  end.

Definition cable : Product.t :=
  Product.mk 1 "Cable" "Chargers" (float_of_Z 50) (float_of_Z 100) "2025-01-01 09:00:00" 10.

Definition shop : appstate :=
  mkapp (mkdb [cable] [History.mk 1 "2025-01-01 09:00:00" 10 InitialStock]
              [] [] [] 0 0) [].

(** The same shop after the stock of the product was set to 50 outside the
    ledger. *)
Definition drifted_shop : appstate :=
  mkapp (mkdb [set_stock 50 "2025-01-02 09:00:00" cable]
              [History.mk 1 "2025-01-01 09:00:00" 10 InitialStock]
              [] [] [] 0 0) [].

(** A second product. *)
Definition adapter : Product.t :=
  Product.mk 2 "Adapter" "Chargers" (float_of_Z 200) (float_of_Z 350) "2025-01-01 09:00:00" 4.

(** Both products in stock and no sale yet. *)
Definition stocked_shop : appstate :=
  mkapp (mkdb [cable; adapter]
              [History.mk 1 "2025-01-01 09:00:00" 10 InitialStock;
               History.mk 2 "2025-01-01 09:00:00" 4 InitialStock]
              [] [] [] 0 0) [].

(** A charger that is out of stock. *)
Definition empty_charger : Product.t :=
  Product.mk 3 "Travel charger" "Chargers" (float_of_Z 300) (float_of_Z 450)
             "2025-01-01 09:00:00" 0.

(** The shop after eight cables were sold. *)
Definition cable_sale : Sale.t :=
  Sale.mk 1 "2025-01-02" "Cable" 8 (float_of_Z 100) zero (float_of_Z 800) 1.

Definition shop_after_sale : appstate :=
  mkapp (mkdb [set_stock 2 "2025-01-02 11:00:00" cable; adapter]
              [History.mk 1 "2025-01-01 09:00:00" 10 InitialStock;
               History.mk 2 "2025-01-01 09:00:00" 4 InitialStock;
               History.mk 1 "2025-01-02 11:00:00" (-8) (SaleOf 8 zero)]
              [cable_sale] [] [] 1 0) [].

(** The shop after that sale was edited to five units under the item name
    of the other product. *)
Definition edited_sale : Sale.t :=
  Sale.mk 1 "2025-01-03" "Adapter" 5 (float_of_Z 100) zero (float_of_Z 500) 1.

Definition shop_after_edit : appstate :=
  mkapp (mkdb [set_stock 5 "2025-01-03 10:00:00" cable; adapter]
              [History.mk 1 "2025-01-01 09:00:00" 10 InitialStock;
               History.mk 2 "2025-01-01 09:00:00" 4 InitialStock;
               History.mk 1 "2025-01-02 11:00:00" (-8) (SaleOf 8 zero);
               History.mk 1 "2025-01-03 10:00:00" 3 (SaleEdit 8 5)]
              [edited_sale] [] [] 1 0) [].

(** Stand-ins for [str.lower] and for the pattern engine: lowercasing of the
    letters A to Z, and patterns that are literal text, with an opening
    parenthesis as the one syntax error and the repetition count
    [{99999999999}] as the one that is too large. *)
Definition ascii_lower (c : ascii) : ascii :=
  let n := nat_of_ascii c in
  if ((65 <=? n) && (n <=? 90))%nat then ascii_of_nat (n + 32) else c.

Fixpoint lower_ascii (s : string) : string :=
  match s with
  | EmptyString => EmptyString
  | String c s' => String (ascii_lower c) (lower_ascii s')
  end.

Definition literal_compile (pattern : string) : compiled string :=
  if contains "{99999999999}" pattern then CompileRaises OverflowError
  else if contains "(" pattern then re_error
  else Pattern (lower_ascii pattern).

Definition literal_search (pattern text : string) : bool :=
  contains pattern (lower_ascii text).

(** ** The transaction coordinators *)

(** How SQLite matches [WHERE id = ?] against the cell of a [REAL] column:
    the comparison is numeric, so the row selected is the one whose integer
    id has that value, and no row is selected for a number that is not
    whole, for an infinity or for [NULL]. *)
Definition rowid_of_real (x : float64) : option Z :=
  match x with
  | S754_zero _ => Some 0
  | S754_finite s m (Zneg k) =>
      if Z.land (Zpos m) (Z.ones (Zpos k)) =? 0
      then Some (cond_Zopp s (Z.shiftr (Zpos m) (Zpos k)))
      else None
  | S754_finite s m e => Some (cond_Zopp s (Z.shiftl (Zpos m) e))
  | _ => None
  end.

(** [update_stock] called with the cell of a [REAL] column as
    [product_id]. *)
Definition update_stock_real (now : string) (product_id : float64) (quantity_change : Z)
    (r : reason) : py (option Z) :=
  match rowid_of_real product_id with
  | Some id => update_stock now id quantity_change r
  | None => raise TypeError       (* [fetchone()] is [None] *)
  end.

(** [delete_sale(self)]. [current] is the row of [sales_table.currentIndex()]
    ([None] when the index is not valid) and [reply] tells whether the
    confirmation box was answered with Yes; the sales model shows the rows
    of [daily_accessories_sales], whose columns are, from 0: id, date, item,
    quantity, sale_price, discount, total, product_id. The source reads
    columns 0, 2, 3 and 6. *)
Definition delete_sale (now : string) (current : option nat) (reply : bool) : py unit :=
  rows <- query daily_accessories_sales ;;
  match option_map (nth_error rows) current with
  | Some (Some s) =>
      let sale_id := Sale.id s in        (* column 0 *)
      let qty := Sale.quantity s in      (* column 3 *)
      let prod_id := Sale.total s in     (* column 6 *)
      if reply then
        _ <- update_stock_real now prod_id qty (SaleDeletion qty) ;;
        execute (delete_sale_row sale_id) ;;
        commit
      else ret tt
  | _ => show (MessageBox NoSelection)
  end.

(** ** Further operations on the same database *)

(** The part of the database the stock engine keeps in step: the products
    and the ledger. *)
Definition stock_part (db : database) : list Product.t * list History.t :=
  (products db, stock_history db).

(** No product has a negative stock. *)
Definition stocks_nonneg (db : database) : Prop :=
  forall p, In p (products db) -> 0 <= Product.stock p.

(** What a call of [update_stock] makes of products and ledger: nothing when
    the product is missing or the delta is rejected, the new stock on the
    rows of that id and one more ledger entry otherwise. *)
Definition apply_delta (now : string) (product_id delta : Z) (r : reason)
    (sp : list Product.t * list History.t) : list Product.t * list History.t :=
  match find (fun p => Product.id p =? product_id) (fst sp) with
  | None => sp
  | Some p =>
      if Product.stock p + delta <? 0 then sp
      else (map (fun x => if Product.id x =? product_id
                          then set_stock (Product.stock p + delta) now x else x)
                (fst sp),
            snd sp ++ [History.mk product_id now delta r])
  end.


(** Products and ledger of [st'] are those of [st], or those one call of
    [update_stock] makes of [st]. *)
Definition through_update_stock (now : string) (st st' : appstate) : Prop :=
  stock_part (conn st') = stock_part (conn st) \/
  exists product_id delta r,
    stock_part (conn st')
    = stock_part (conn (after (update_stock now product_id delta r) st)).

(** [DELETE FROM products WHERE id=?] *)
Definition delete_products_row (product_id : Z) (db : database) : database :=
  with_products
    (filter (fun p => negb (Product.id p =? product_id)) (products db)) db.

(** [DELETE FROM stock_history WHERE product_id=?] *)
Definition delete_stock_history_of (product_id : Z) (db : database) : database :=
  with_stock_history
    (filter (fun e => negb (History.product_id e =? product_id)) (stock_history db)) db.

(** [delete_product(self)]. [current] is the row of the products table the
    selection of the view maps to, [reply] the answer to the confirmation
    box. The box "Select a product to delete!" is recorded as
    [NoSelection]. *)
Definition delete_product (current : option nat) (reply : bool) : py unit :=
  rows <- query products ;;
  match option_map (nth_error rows) current with
  | Some (Some p) =>
      let product_id := Product.id p in
      if reply then
        execute (delete_products_row product_id) ;;
        execute (delete_stock_history_of product_id) ;;
        commit
      else ret tt
  | _ => show (MessageBox NoSelection)
  end.



(** [SELECT product_id, quantity FROM invoice_items WHERE invoice_id = ?],
    then [fetchall()] *)
Definition select_items_of_invoice (invoice_id : Z) (db : database) : list (Z * Z) :=
  map (fun it => (InvoiceItem.product_id it, InvoiceItem.quantity it))
      (filter (fun it => InvoiceItem.invoice_id it =? invoice_id) (invoice_items db)).

(** [DELETE FROM invoice_items WHERE invoice_id = ?] *)
Definition delete_invoice_items (invoice_id : Z) (db : database) : database :=
  with_invoice_items
    (filter (fun it => negb (InvoiceItem.invoice_id it =? invoice_id))
            (invoice_items db)) db.

(** [DELETE FROM invoices WHERE id = ?] *)
Definition delete_invoice_row (invoice_id : Z) (db : database) : database :=
  with_invoices
    (filter (fun i => negb (Invoice.id i =? invoice_id)) (invoices db))
    (invoices_seq db) db.

(** [delete_invoice(self)], with [current] and [reply] as in [delete_sale].
    The columns of the invoice model are, from 0: id, invoice_number, date,
    customer_name, total, vat, grand_total, timestamp, sale_id; the source
    reads columns 0, 1 and 7, and tests the truth value of the last one under
    the name [sale_id]. The reason written is
    [f"Invoice {invoice_number} deletion"]; the box "Select an invoice to
    delete!" is recorded as [NoSelection]. *)
Definition delete_invoice (now : string) (current : option nat) (reply : bool)
    : py unit :=
  rows <- query invoices ;;
  match option_map (nth_error rows) current with
  | Some (Some i) =>
      let invoice_id := Invoice.id i in               (* column 0 *)
      let invoice_number := Invoice.invoice_number i in (* column 1 *)
      let sale_id := Invoice.timestamp i in           (* column 7 *)
      if reply then
        items <- query (select_items_of_invoice invoice_id) ;;
        (if negb (truthy sale_id) then
           for_each items (fun '(prod_id, qty) =>
             _ <- update_stock now prod_id qty
                    (InvoiceIssued (invoice_number ++ " deletion")%string) ;;
             ret tt)
         else ret tt) ;;
        execute (delete_invoice_items invoice_id) ;;
        execute (delete_invoice_row invoice_id) ;;
        commit
      else ret tt
  | _ => show (MessageBox NoSelection)
  end.

(** ** Tables outside the stock engine's record, and their monad *)

Module Damage.
(** [damaged_products (id, date, product_name, quantity, product_id,
     replaced)] *)
Record t : Type := mk {
  id : Z;
  date : string;
  product_name : string;
  quantity : Z;
  product_id : Z;
  replaced : Z
}.
End Damage.

(** The application with the damage table and with the [sqlite_sequence]
    counters of [products] and [damaged_products]. *)
Record books : Type := mkbooks {
  core : appstate;
  products_seq : Z;
  damaged_products : list Damage.t;
  damaged_seq : Z
}.

Definition pyx (A : Type) : Type := books -> outcome A * books.

Definition retx {A} (a : A) : pyx A := fun b => (Return a, b).

Definition bindx {A B} (c : pyx A) (k : A -> pyx B) : pyx B :=
  fun b =>
    match c b with
    | (Return a, b') => k a b'
    | (Raise x, b') => (Raise x, b')
    end.

Definition raisex {A} (x : exn) : pyx A := fun b => (Raise x, b).

(** [try: c except ValueError as e: h e] *)
Definition try_except_ValueError_x {A} (c : pyx A) (h : error -> pyx A) : pyx A :=
  fun b =>
    match c b with
    | (Raise (ValueError e), b') => h e b'
    | r => r
    end.

(** A computation on the tables of [appstate], run inside [books]. *)
Definition on_core {A} (c : py A) : pyx A :=
  fun b =>
    let (o, st) := c (core b) in
    (o, mkbooks st (products_seq b) (damaged_products b) (damaged_seq b)).

Definition queryx {A} (q : books -> A) : pyx A := fun b => (Return (q b), b).

Definition executex (w : books -> books) : pyx unit := fun b => (Return tt, w b).

Declare Scope pyx_scope.
Delimit Scope pyx_scope with pyx.
Notation "x <- c ;; k" := (bindx c (fun x => k))
  (at level 61, c at next level, right associativity) : pyx_scope.
Notation "c ;; k" := (bindx c (fun _ => k))
  (at level 61, right associativity) : pyx_scope.

Definition afterx {A} (c : pyx A) (b : books) : books := snd (c b).

(** The database of the books. *)
Definition dbx (b : books) : database := conn (core b).

(** [INSERT INTO products (name, type, buy_price, sell_price, last_updated,
     stock) VALUES (?, ?, ?, ?, ?, ?)] with prices that are not NaN and a
    name no row carries; [lastrowid] is then the new [products_seq]. *)
Definition insert_product (name type_ : string) (buy_price sell_price : float64)
    (timestamp : string) (stock : Z) (b : books) : books :=
  let id := next_rowid (products_seq b) (map Product.id (products (dbx b))) in
  mkbooks
    (mkapp (with_products
              (products (dbx b)
                 ++ [Product.mk id name type_ (real_column buy_price)
                                (real_column sell_price) timestamp stock])
              (dbx b))
           (shown (core b)))
    id (damaged_products b) (damaged_seq b).

(** [INSERT INTO damaged_products (date, product_name, quantity, product_id,
     replaced) VALUES (?, ?, ?, ?, 0)] *)
Definition insert_damage (date product : string) (qty prod_id : Z) (b : books) : books :=
  let id := next_rowid (damaged_seq b) (map Damage.id (damaged_products b)) in
  mkbooks (core b) (products_seq b)
          (damaged_products b ++ [Damage.mk id date product qty prod_id 0])
          id.

(** [UPDATE damaged_products SET replaced=1 WHERE id=?] *)
Definition set_replaced (damage_id : Z) (b : books) : books :=
  mkbooks (core b) (products_seq b)
          (map (fun d => if Damage.id d =? damage_id
                         then Damage.mk (Damage.id d) (Damage.date d)
                                        (Damage.product_name d) (Damage.quantity d)
                                        (Damage.product_id d) 1
                         else d)
               (damaged_products b))
          (damaged_seq b).

(** [DELETE FROM damaged_products WHERE id=?] *)
Definition delete_damage_row (damage_id : Z) (b : books) : books :=
  mkbooks (core b) (products_seq b)
          (filter (fun d => negb (Damage.id d =? damage_id)) (damaged_products b))
          (damaged_seq b).

(** The product form after [strip()]: [name_input], [type_selector],
    [buy_price_input], [sell_price_input], [stock_input]. *)
Record product_form : Type := mk_product_form {
  name_input : string;
  type_selector : string;
  buy_price_input : string;
  sell_price_input : string;
  stock_input : string
}.

(** The damage form: [damage_date], [damage_product], [damage_quantity]. *)
Record damage_form : Type := mk_damage_form {
  damage_date : string;
  damage_product : string;
  damage_quantity : string
}.


(** ** Sample data for the further operations *)

(** Stand-ins for the texts of the damage functions and of the product
    form, which are parameters of the model: the ledger texts carry their
    tag and the quantity. *)
Definition ledger_text (tag : string) (qty : Z) : reason :=
  InvoiceIssued (tag ++ " " ++ NilZero.string_of_int (Z.to_int qty))%string.

Definition sample_damaged_units : Z -> reason := ledger_text "damaged".
Definition sample_replaced_units : Z -> reason := ledger_text "replaced".
Definition sample_deleted_damage_entry : Z -> reason := ledger_text "damage entry deleted".
Definition sample_already_replaced : error := InvalidInput.
Definition sample_already_exists (name : string) : error := ProductNotFound name.
Definition sample_not_negative : error := BadQuantityOrPrice.

(** The shop with its sequence counter for products and no damage entry. *)
Definition shop_books : books := mkbooks shop 1 [] 0.

(** Two damaged cables; an adapter to add; the cable with a new stock. *)
Definition two_damaged_cables : damage_form := mk_damage_form "2025-01-05" "Cable" "2".

Definition adapter_form : product_form :=
  mk_product_form "Adapter" "Chargers" "200" "350" "4".


(** The shop after the sale of eight cables and the deletion of the cable:
    the sale still names product 1. *)
Definition shop_without_cable : appstate :=
  after (delete_product (Some 0%nat) true) shop_after_sale.

(** A search for chargers with at least one unit in stock, and a cleared
    search form. *)
Definition chargers_in_stock : criteria :=
  mk_criteria "" "Chargers" None None None None None (Some 1) None.

Definition cleared_search : criteria :=
  mk_criteria "" "All Types" None None None None (Some "") None None.
Section Host.

(** What the Python runtime contributes: whether [datetime.strptime(text,
    "%Y-%m-%d")] accepts a text, and the values [int(text)] and [float(text)]
    give ([None] when they raise [ValueError]); [float(text)] can be an
    infinity or NaN. *)
Variable strptime_Ymd : string -> bool.
Variable int_literal : string -> option Z.
Variable float_literal : string -> option float64.

(** Compiled patterns, [re.compile(pattern, re.IGNORECASE)],
    [pattern.search(text)] as a truth value, and [str.lower]. *)
Variable regex : Type.
Variable re_compile : string -> compiled regex.
Variable re_search : regex -> string -> bool.
Variable lower : string -> string.

Definition strptime (date : string) : py unit :=
  if strptime_Ymd date then ret tt else raise (ValueError BadLiteral).

(** The outcome of [int(v)] and of [float(v)]. *)
Definition int_value (v : pyvalue) : outcome Z :=
  match v with
  | Text s =>
      match int_literal s with
      | Some z => Return z
      | None => Raise (ValueError BadLiteral)
      end
  | Int z => Return z
  | Float x =>
      match truncate x with
      | Some z => Return z
      | None => if is_nan x then Raise (ValueError BadLiteral) else Raise OverflowError
      end
  | PyNone => Raise TypeError
  end.

Definition float_value (v : pyvalue) : outcome float64 :=
  match v with
  | Text s =>
      match float_literal s with
      | Some x => Return x
      | None => Raise (ValueError BadLiteral)
      end
  | Int z => if in_float_range z then Return (float_of_Z z) else Raise OverflowError
  | Float x => Return x
  | PyNone => Raise TypeError
  end.

Definition int (v : pyvalue) : py Z := fun st => (int_value v, st).

Definition float (v : pyvalue) : py float64 := fun st => (float_value v, st).

(** [z * x] for an integer [z] and a float [x]: the integer is converted
    first. *)
Definition int_times_float (z : Z) (x : float64) : py float64 :=
  if in_float_range z then ret (fmul (float_of_Z z) x) else raise OverflowError.

(** [add_sale(self)] *)
Definition add_sale (now : string) (f : sales_form) : py unit :=
  let date := sales_date f in
  let item := sales_item f in
  let qty := sales_quantity f in
  let price := sales_price f in
  let discount := or_text (sales_discount f) "0" in
  if negb (all_filled [date; item; qty; price]) then
    show (MessageBox MissingFields)
  else
    try_except_ValueError
      (strptime date ;;
       qty <- int (Text qty) ;;
       price <- float (Text price) ;;
       discount <- float (Text discount) ;;
       when ((qty <=? 0) || flt price zero)
         (raise (ValueError BadQuantityOrPrice)) ;;
       when (flt discount zero || flt hundred discount)
         (raise (ValueError BadDiscount)) ;;
       subtotal <- int_times_float qty price ;;
       let discount_amount := fmul subtotal (fdiv discount hundred) in
       let total := fsub subtotal discount_amount in
       result <- query (select_id_stock item) ;;
       match result with
       | None => raise (ValueError (ProductNotFound item))
       | Some (prod_id, current_stock) =>
           when (current_stock <? qty)
             (raise (ValueError (InsufficientStock current_stock))) ;;
           new_stock <- update_stock now prod_id (- qty) (SaleOf qty discount) ;;
           match new_stock with
           | None => ret tt
           | Some _ =>
               execute (insert_sale date item qty price discount total prod_id) ;;
               commit
           end
       end)
      (fun e => show (MessageBox e)).

(** [edit_sale(self)], with [current] as in [delete_sale]. The quantity of
    the form is bound to the [UPDATE] whatever [update_stock] has answered:
    outside the 64-bit integers the binding raises [OverflowError]. *)
Definition edit_sale (now : string) (current : option nat) (f : sales_form) : py unit :=
  rows <- query daily_accessories_sales ;;
  match option_map (nth_error rows) current with
  | Some (Some s) =>
      let sale_id := Sale.id s in
      let date := sales_date f in
      let item := sales_item f in
      let qty := sales_quantity f in
      let price := sales_price f in
      let discount := or_text (sales_discount f) "0" in
      try_except_ValueError
        (strptime date ;;
         qty <- int (Text qty) ;;
         price <- float (Text price) ;;
         discount <- float (Text discount) ;;
         when ((qty <=? 0) || flt price zero
               || flt discount zero || flt hundred discount)
           (raise (ValueError InvalidInput)) ;;
         subtotal <- int_times_float qty price ;;
         let discount_amount := fmul subtotal (fdiv discount hundred) in
         let total := fsub subtotal discount_amount in
         row <- query (select_quantity_product sale_id) ;;
         match row with
         | None => raise TypeError
         | Some (old_qty, prod_id) =>
             let stock_change := old_qty - qty in
             (if negb (stock_change =? 0) then
                _ <- update_stock now prod_id stock_change (SaleEdit old_qty qty) ;;
                ret tt
              else ret tt) ;;
             when (negb (in_int64 qty)) (raise OverflowError) ;;
             execute (update_sale date item qty price discount total prod_id sale_id) ;;
             commit
         end)
        (fun e => show (MessageBox e))
  | _ => show (MessageBox NoSelection)
  end.

(** The [try] block of [add_invoice], entered once the required fields are
    known to be filled. [product_name], [qty] and [discount] are the values
    the first part of the function has collected. The columns [total],
    [vat] and [grand_total] of [invoices] are [NOT NULL]: the [INSERT]
    raises [sqlite3.IntegrityError] when one of the amounts is NaN. The
    [NOT NULL] columns of [invoice_items] hold the same total and the unit
    price, whose NaN makes the total NaN, so the second [INSERT] raises
    nothing the first has not raised. The sale is compared by [!=], which
    holds between [None] and a float as it does between NaN and a float. *)
Definition add_invoice_try (now date customer : string) (src : source)
    (sale_id : option Z) (product_name : string) (qty discount : pyvalue) : py unit :=
  strptime date ;;
  qty <- int qty ;;
  discount <- float discount ;;
  when (qty <=? 0) (raise (ValueError BadQuantityOrPrice)) ;;
  when (flt discount zero || flt hundred discount)
    (raise (ValueError BadDiscount)) ;;
  result <- query (select_id_price_stock product_name) ;;
  match result with
  | None => raise (ValueError (ProductNotFound product_name))
  | Some (prod_id, unit_price, stock) =>
      match src, sale_id with
      | FromSale, Some sid =>
          if id_truthy sale_id then
            sale_data <- query (select_quantity_product_discount sid) ;;
            when (match sale_data with
                  | None => true
                  | Some (sale_qty, sale_prod, sale_discount) =>
                      negb (sale_prod =? prod_id)
                      || negb (sale_qty =? qty)
                      || negb (feq sale_discount discount)
                  end)
              (raise (ValueError SaleMismatch))
          else ret tt
      | FromSale, None => ret tt
      | FromStock, _ =>
          when (stock <? qty) (raise (ValueError (InsufficientStock stock)))
      end ;;
      subtotal <- int_times_float qty unit_price ;;
      let discount_amount := fmul subtotal (fdiv discount hundred) in
      let total := fsub subtotal discount_amount in
      let vat := fmul total vat_rate in
      let grand_total := fadd total vat in
      let timestamp := now in
      let invoice_number := invoice_number_of timestamp in
      n <- query (count_invoice_number invoice_number) ;;
      when (0 <? n) (raise (ValueError (InvoiceNumberExists invoice_number))) ;;
      when (is_nan total || is_nan vat || is_nan grand_total) (raise IntegrityError) ;;
      execute (insert_invoice invoice_number date customer total vat grand_total
                              timestamp sale_id) ;;
      invoice_id <- query invoices_seq ;;
      execute (insert_invoice_item invoice_id prod_id qty unit_price discount total) ;;
      match src with
      | FromStock =>
          _ <- update_stock now prod_id (- qty) (InvoiceIssued invoice_number) ;;
          ret tt
      | FromSale => ret tt
      end ;;
      commit
  end.

(** The part of [add_invoice] from the check of the required fields on. *)
Definition add_invoice_checked (now date customer : string) (src : source)
    (sale_id : option Z) (product_name : string) (qty discount : pyvalue)
    (required_fields : list string) : py unit :=
  if negb (all_filled required_fields) then
    show (MessageBox MissingFields)
  else
    try_except_sqlite3_Error
      (try_except_ValueError
         (add_invoice_try now date customer src sale_id product_name qty discount)
         (fun e => show (MessageBox e)))
      (show (MessageBox DatabaseError)).

(** [add_invoice(self)] up to the question whether to save or print. *)
Definition add_invoice (now : string) (f : invoice_form) : py unit :=
  let date := invoice_date f in
  let customer := customer_name f in
  let src := invoice_source f in
  let sale_id := match src with FromSale => sale_selector f | FromStock => None end in
  match src with
  | FromStock =>
      let product_name := product_selector f in
      let qty := invoice_quantity f in
      let discount := or_text (invoice_discount f) "0" in
      add_invoice_checked now date customer src sale_id product_name
        (Text qty) (Text discount) [date; customer; product_name; qty]
  | FromSale =>
      match sale_id with
      | Some sid =>
          if id_truthy sale_id then
            result <- query (select_item_quantity_discount sid) ;;
            match result with
            | None => show (MessageBox (SaleNotFound sid))
            | Some (product_name, qty, discount) =>
                add_invoice_checked now date customer src sale_id product_name
                  (Int qty) (real_cell discount) [date; customer]
            end
          else show (MessageBox NoSelection)
      | None => show (MessageBox NoSelection)
      end
  end.

(** The statements of [add_invoice_try] that follow the comparison with the
    sale or with the stock, for [qty] units of product [p]. *)
Definition write_invoice (now date customer : string) (src : source)
    (sale_id : option Z) (qty : Z) (discount : float64) (p : Product.t) : py unit :=
  subtotal <- int_times_float qty (Product.sell_price p) ;;
  let discount_amount := fmul subtotal (fdiv discount hundred) in
  let total := fsub subtotal discount_amount in
  let vat := fmul total vat_rate in
  let grand_total := fadd total vat in
  n <- query (count_invoice_number (invoice_number_of now)) ;;
  when (0 <? n) (raise (ValueError (InvoiceNumberExists (invoice_number_of now)))) ;;
  when (is_nan total || is_nan vat || is_nan grand_total) (raise IntegrityError) ;;
  execute (insert_invoice (invoice_number_of now) date customer total vat grand_total
             now sale_id) ;;
  invoice_id <- query invoices_seq ;;
  execute (insert_invoice_item invoice_id (Product.id p) qty
             (Product.sell_price p) discount total) ;;
  match src with
  | FromStock =>
      _ <- update_stock now (Product.id p) (- qty)
             (InvoiceIssued (invoice_number_of now)) ;;
      ret tt
  | FromSale => ret tt
  end ;;
  commit.


(** ** The product filter *)

(** [self.filters] as [__init__] and [resetFilters] leave it. *)
Definition no_filters : Filters.t regex :=
  Filters.mk "" "" None None None None None None None None.

(** The body of the loop of [setFilterCriteria] for one [key, value]: the
    filters it leaves, and whether it returns or raises. For the key
    ['name'] the lowercased text is stored before the pattern is compiled,
    and only [re.error] is handled. *)
Definition set_criterion (filters : Filters.t regex) (kw : kwarg regex)
    : outcome unit * Filters.t regex :=
  let '(Filters.mk name type min_buy max_buy min_sell max_sell
                   updated_after name_regex stock_min stock_max) := filters in
  match kw with
  | kw_name value =>
      let stored := fun pattern =>
        Filters.mk (if truthy value then lower value else "") type
                   min_buy max_buy min_sell max_sell updated_after
                   pattern stock_min stock_max in
      if truthy value then
        match re_compile value with
        | Pattern r => (Return tt, stored (Some r))
        | re_error => (Return tt, stored None)
        | CompileRaises x => (Raise x, stored name_regex)
        end
      else (Return tt, stored None)
  | kw_type value =>
      (Return tt,
       Filters.mk name
                  (if truthy value && negb (String.eqb value "All Types")
                   then value else "")
                  min_buy max_buy min_sell max_sell updated_after name_regex
                  stock_min stock_max)
  | kw_min_buy value =>
      (Return tt,
       Filters.mk name type value max_buy min_sell max_sell updated_after
                  name_regex stock_min stock_max)
  | kw_max_buy value =>
      (Return tt,
       Filters.mk name type min_buy value min_sell max_sell updated_after
                  name_regex stock_min stock_max)
  | kw_min_sell value =>
      (Return tt,
       Filters.mk name type min_buy max_buy value max_sell updated_after
                  name_regex stock_min stock_max)
  | kw_max_sell value =>
      (Return tt,
       Filters.mk name type min_buy max_buy min_sell value updated_after
                  name_regex stock_min stock_max)
  | kw_updated_after value =>
      (Return tt,
       Filters.mk name type min_buy max_buy min_sell max_sell value
                  name_regex stock_min stock_max)
  | kw_name_regex value =>
      (Return tt,
       Filters.mk name type min_buy max_buy min_sell max_sell updated_after
                  value stock_min stock_max)
  | kw_stock_min value =>
      (Return tt,
       Filters.mk name type min_buy max_buy min_sell max_sell updated_after
                  name_regex value stock_max)
  | kw_stock_max value =>
      (Return tt,
       Filters.mk name type min_buy max_buy min_sell max_sell updated_after
                  name_regex stock_min value)
  | kw_unknown _ => (Return tt, filters)
  end.

(** [setFilterCriteria(self, **kwargs)]: the keyword arguments in the order
    of the call, and [self.filters] when the method is left. An exception
    ends the loop; [invalidateFilter()] only makes the view ask
    [filterAcceptsRow] again. *)
Fixpoint setFilterCriteria (filters : Filters.t regex) (kwargs : list (kwarg regex))
    : outcome unit * Filters.t regex :=
  match kwargs with
  | [] => (Return tt, filters)
  | kw :: rest =>
      match set_criterion filters kw with
      | (Return _, filters') => setFilterCriteria filters' rest
      | (Raise x, filters') => (Raise x, filters')
      end
  end.

(** The keyword arguments [apply_filters] builds from the search inputs. *)
Definition apply_filters_kwargs (c : criteria) : list (kwarg regex) :=
  [ kw_name (search_name c);
    kw_type (search_type c);
    kw_min_buy (search_min_buy c);
    kw_max_buy (search_max_buy c);
    kw_min_sell (search_min_sell c);
    kw_max_sell (search_max_sell c);
    kw_updated_after (search_updated_after c);
    kw_stock_min (search_stock_min c);
    kw_stock_max (search_stock_max c) ].

(** [apply_filters(self)] on the filters of the proxy model: the filters it
    leaves, and whether it returns or raises. *)
Definition apply_filters (filters : Filters.t regex) (c : criteria)
    : outcome unit * Filters.t regex :=
  setFilterCriteria filters (apply_filters_kwargs c).

(** [filterAcceptsRow(self, source_row, source_parent)] on a row of the
    products model. The prices of a product are [NOT NULL] and every
    statement of the application binds a name, a type, a date and a stock,
    so the defaults of [row_data] ([x or ""], [x or 0]) replace an empty
    text by the empty text and a zero by zero. *)
Definition filterAcceptsRow (filters : Filters.t regex) (row : Product.t) : bool :=
  let row_name := lower (Product.name row) in
  let row_type := Product.type row in
  let row_buy_price := Product.buy_price row in
  let row_sell_price := Product.sell_price row in
  let row_last_updated := Product.last_updated row in
  let row_stock := Product.stock row in
  let conditions :=
    [ if truthy (Filters.name filters)
      then contains (Filters.name filters) row_name
           || match Filters.name_regex filters with
              | Some pattern => re_search pattern row_name
              | None => false
              end
      else true;
      if truthy (Filters.type filters)
      then String.eqb row_type (Filters.type filters) else true;
      match Filters.min_buy filters with
      | Some bound => fle bound row_buy_price | None => true end;
      match Filters.max_buy filters with
      | Some bound => fle row_buy_price bound | None => true end;
      match Filters.min_sell filters with
      | Some bound => fle bound row_sell_price | None => true end;
      match Filters.max_sell filters with
      | Some bound => fle row_sell_price bound | None => true end;
      match Filters.updated_after filters with
      | Some bound =>
          if truthy bound then String.leb bound row_last_updated else true
      | None => true
      end;
      match Filters.stock_min filters with
      | Some bound => bound <=? row_stock | None => true end;
      match Filters.stock_max filters with
      | Some bound => row_stock <=? bound | None => true end ] in
  forallb (fun b => b) conditions.

(** *** The filter as the specification words it

    Every criterion that is set must hold; a criterion that is not set
    holds vacuously; every bound is inclusive. *)

Definition name_criterion (c : criteria) (row : Product.t) : Prop :=
  search_name c = "" \/
  contains (lower (search_name c)) (lower (Product.name row)) = true \/
  exists pattern,
    re_compile (search_name c) = Pattern pattern /\
    re_search pattern (lower (Product.name row)) = true.

Definition category_criterion (c : criteria) (row : Product.t) : Prop :=
  search_type c = "" \/ search_type c = "All Types" \/
  Product.type row = search_type c.

Definition at_least {A} (le : A -> A -> Prop) (bound : option A) (x : A) : Prop :=
  match bound with
  | Some b => le b x
  | None => True
  end.

Definition at_most {A} (le : A -> A -> Prop) (bound : option A) (x : A) : Prop :=
  match bound with
  | Some b => le x b
  | None => True
  end.

(** [x <= y] on floats, as a proposition. *)
Definition float_le (x y : float64) : Prop := fle x y = true.

Definition updated_after_criterion (c : criteria) (row : Product.t) : Prop :=
  match search_updated_after c with
  | Some d => d = "" \/ String.leb d (Product.last_updated row) = true
  | None => True
  end.

Definition criteria_hold (c : criteria) (row : Product.t) : Prop :=
  name_criterion c row /\
  category_criterion c row /\
  at_least float_le (search_min_buy c) (Product.buy_price row) /\
  at_most float_le (search_max_buy c) (Product.buy_price row) /\
  at_least float_le (search_min_sell c) (Product.sell_price row) /\
  at_most float_le (search_max_sell c) (Product.sell_price row) /\
  updated_after_criterion c row /\
  at_least Z.le (search_stock_min c) (Product.stock row) /\
  at_most Z.le (search_stock_max c) (Product.stock row).

(** The pattern compiler returns on the name of the search, with a pattern
    or with [re.error], or is not called. *)
Definition compiles (c : criteria) : Prop :=
  search_name c = "" \/
  forall x, re_compile (search_name c) <> CompileRaises x.

(** The filters [apply_filters] leaves when the pattern compiler returns. *)
Definition searched (c : criteria) : Filters.t regex :=
  Filters.mk
    (if truthy (search_name c) then lower (search_name c) else "")
    (if truthy (search_type c) && negb (String.eqb (search_type c) "All Types")
     then search_type c else "")
    (search_min_buy c) (search_max_buy c) (search_min_sell c) (search_max_sell c)
    (search_updated_after c)
    (if truthy (search_name c)
     then match re_compile (search_name c) with
          | Pattern r => Some r
          | _ => None
          end
     else None)
    (search_stock_min c) (search_stock_max c).

(** The filters a call of [setFilterCriteria] leaves when the pattern
    compiler raises on the name: the new name beside the old pattern and
    the old criteria. *)
Definition half_set (filters : Filters.t regex) (value : string) : Filters.t regex :=
  Filters.mk (lower value) (Filters.type filters)
             (Filters.min_buy filters) (Filters.max_buy filters)
             (Filters.min_sell filters) (Filters.max_sell filters)
             (Filters.updated_after filters) (Filters.name_regex filters)
             (Filters.stock_min filters) (Filters.stock_max filters).

(** ** Requests that pass validation *)

(** The total of a sale or of an invoice line as the source computes it:
    [subtotal - subtotal * (discount / 100)] with [subtotal = qty * price],
    each operation rounded. *)
Definition line_total (qty : Z) (price discount : float64) : float64 :=
  let subtotal := fmul (float_of_Z qty) price in
  let discount_amount := fmul subtotal (fdiv discount hundred) in
  fsub subtotal discount_amount.

(** A request to record a sale passes the validation of [add_sale], as the
    source makes it: the required fields are filled, date and numbers are
    well-formed, the quantity is positive and converts to a float, the
    price is not below 0, the discount is neither below 0 nor above 100
    (comparisons that are false of NaN), the item names product [p], and
    the stock of [p] covers the quantity. *)
Definition sale_request (f : sales_form) (db : database)
    (qty : Z) (price discount : float64) (p : Product.t) : Prop :=
  all_filled [sales_date f; sales_item f; sales_quantity f; sales_price f] = true /\
  strptime_Ymd (sales_date f) = true /\
  int_literal (sales_quantity f) = Some qty /\
  float_literal (sales_price f) = Some price /\
  float_literal (or_text (sales_discount f) "0") = Some discount /\
  0 < qty /\ flt price zero = false /\
  flt discount zero = false /\ flt hundred discount = false /\
  in_float_range qty = true /\
  product_by_name (sales_item f) db = Some p /\
  qty <= Product.stock p.

(** The validations of a sale as the specification words them: price >= 0
    and 0 <= discount <= 100, which no NaN satisfies. *)
Definition price_and_discount_valid (price discount : float64) : Prop :=
  fle zero price = true /\ fle zero discount = true /\ fle discount hundred = true.

(** The values typed into the sales form pass the validation of
    [edit_sale], as the source makes it, and the quantity converts to a
    float and is a 64-bit integer. *)
Definition edit_request (f : sales_form) (qty : Z) (price discount : float64) : Prop :=
  strptime_Ymd (sales_date f) = true /\
  int_literal (sales_quantity f) = Some qty /\
  float_literal (sales_price f) = Some price /\
  float_literal (or_text (sales_discount f) "0") = Some discount /\
  0 < qty /\ flt price zero = false /\
  flt discount zero = false /\ flt hundred discount = false /\
  in_float_range qty = true /\ in_int64 qty = true.

(** The values collected for an invoice pass the checks of [add_invoice]
    that come before the comparison with the sale or with the stock. *)
Definition invoice_request (date product_name : string) (qty_in discount_in : pyvalue)
    (db : database) (qty : Z) (discount : float64) (p : Product.t) : Prop :=
  strptime_Ymd date = true /\
  int_value qty_in = Return qty /\
  float_value discount_in = Return discount /\
  0 < qty /\ flt discount zero = false /\ flt hundred discount = false /\
  product_by_name product_name db = Some p.

(** The amounts of an invoice for [qty] units at [unit_price]. *)
Definition invoice_total (qty : Z) (unit_price discount : float64) : float64 :=
  line_total qty unit_price discount.

Definition invoice_vat (qty : Z) (unit_price discount : float64) : float64 :=
  fmul (invoice_total qty unit_price discount) vat_rate.

Definition invoice_grand_total (qty : Z) (unit_price discount : float64) : float64 :=
  fadd (invoice_total qty unit_price discount) (invoice_vat qty unit_price discount).

(** The amounts of an invoice are numbers: the quantity converts to a
    float, and total, VAT and grand total are not NaN, so that the
    [NOT NULL] columns of [invoices] take them. A total is NaN when the
    unit price is an infinity or the subtotal overflows to one. *)
Definition amounts_are_numbers (qty : Z) (unit_price discount : float64) : Prop :=
  in_float_range qty = true /\
  is_nan (invoice_total qty unit_price discount)
  || is_nan (invoice_vat qty unit_price discount)
  || is_nan (invoice_grand_total qty unit_price discount) = false.

(** The rows [add_invoice] writes for [qty] units of product [p]. *)
Definition invoice_row (now date customer : string) (sale_id : option Z)
    (qty : Z) (discount : float64) (p : Product.t) (db : database) : Invoice.t :=
  Invoice.mk (next_rowid (invoices_seq db) (map Invoice.id (invoices db)))
             (invoice_number_of now) date customer
             (real_column (invoice_total qty (Product.sell_price p) discount))
             (real_column (invoice_vat qty (Product.sell_price p) discount))
             (real_column (invoice_grand_total qty (Product.sell_price p) discount))
             now sale_id.

Definition invoice_item_row (qty : Z) (discount : float64) (p : Product.t) (db : database)
    : InvoiceItem.t :=
  InvoiceItem.mk (next_rowid (invoices_seq db) (map Invoice.id (invoices db)))
                 (Product.id p) qty (real_column (Product.sell_price p))
                 (real_column discount)
                 (real_column (line_total qty (Product.sell_price p) discount)).

(** ** Product maintenance and damage reports *)

Section Texts.

(** Texts for which the types [reason] and [error] have no constructor:
    the reasons [f"Damaged {qty} units"], [f"Replaced {qty} damaged units"]
    and [f"Deleted damage entry ({qty} units)"], and the messages
    "Already replaced!", [f"Product '{name}' already exists!"] and
    "Numeric fields must be valid non-negative!". *)
Variable damaged_units : Z -> reason.
Variable replaced_units : Z -> reason.
Variable deleted_damage_entry : Z -> reason.
Variable already_replaced : error.
Variable already_exists : string -> error.
Variable not_negative : error.

(** [get_input_data(self)]: the tuple of the form, or [None]. Missing
    fields give [None] without a message. *)
Definition get_input_data (f : product_form)
    : py (option (string * string * float64 * float64 * Z)) :=
  let name := name_input f in
  let type_ := type_selector f in
  let buy_price := buy_price_input f in
  let sell_price := sell_price_input f in
  let stock := or_text (stock_input f) "0" in
  if negb (all_filled [name; type_; buy_price; sell_price]) then ret None
  else
    try_except_ValueError
      (buy_price <- float (Text buy_price) ;;
       sell_price <- float (Text sell_price) ;;
       stock <- int (Text stock) ;;
       when (flt buy_price zero || flt sell_price zero || (stock <? 0))
         (raise (ValueError not_negative)) ;;
       ret (Some (name, type_, buy_price, sell_price, stock)))
      (fun e => show (MessageBox e) ;; ret None).

(** [add_product(self)]. Binding a stock outside the 64-bit integers to
    the [INSERT] raises [OverflowError], which nothing handles. The
    [INSERT] raises [sqlite3.IntegrityError] when a price is NaN, which
    [NOT NULL] refuses as [NULL], or when a row carries the name already;
    the handler shows the same message for both. *)
Definition add_product (now : string) (f : product_form) : pyx unit :=
  (data <- on_core (get_input_data f) ;;
   match data with
   | None => retx tt
   | Some (name, type_, buy_price, sell_price, stock) =>
       let timestamp := now in
       if negb (in_int64 stock) then raisex OverflowError
       else if is_nan buy_price || is_nan sell_price then
         on_core (show (MessageBox (already_exists name)))
       else
         clash <- on_core (query (product_by_name name)) ;;
         match clash with
         | Some _ => on_core (show (MessageBox (already_exists name)))
         | None =>
             executex (insert_product name type_ buy_price sell_price timestamp stock) ;;
             product_id <- queryx products_seq ;;
             (if 0 <? stock then
                on_core (execute (insert_stock_history product_id timestamp stock
                                                       InitialStock))
              else retx tt) ;;
             on_core commit
         end
   end)%pyx.


(** [add_damage(self)]. The box "All fields required!" is recorded as
    [MissingFields]; a rejected delta of [update_stock] ends the function
    before the damage entry is written. *)
Definition add_damage (now : string) (f : damage_form) : pyx unit :=
  let date := damage_date f in
  let product := damage_product f in
  let qty := damage_quantity f in
  if negb (all_filled [date; product; qty]) then
    on_core (show (MessageBox MissingFields))
  else
    try_except_ValueError_x
      (on_core (strptime date) ;;
       qty <- on_core (int (Text qty)) ;;
       on_core (when (qty <=? 0) (raise (ValueError BadQuantityOrPrice))) ;;
       result <- on_core (query (select_id_stock product)) ;;
       match result with
       | None => raisex (ValueError (ProductNotFound product))
       | Some (prod_id, stock) =>
           on_core (when (stock <? qty) (raise (ValueError (InsufficientStock stock)))) ;;
           new_stock <- on_core (update_stock now prod_id (- qty) (damaged_units qty)) ;;
           match new_stock with
           | None => retx tt
           | Some _ =>
               executex (insert_damage date product qty prod_id) ;;
               on_core commit
           end
       end)%pyx
      (fun e => on_core (show (MessageBox e))).

(** [replace_damage(self)]. [current] is the row of
    [damage_table.currentIndex()] and [reply] the answer to the
    confirmation box; the damage model shows the rows of
    [damaged_products], and the source reads columns 0, 2, 3, 4 and 5. The
    box "Select a damage entry!" is recorded as [NoSelection]. *)
Definition replace_damage (now : string) (current : option nat) (reply : bool)
    : pyx unit :=
  (rows <- queryx damaged_products ;;
   match option_map (nth_error rows) current with
   | Some (Some d) =>
       let damage_id := Damage.id d in
       let qty := Damage.quantity d in
       let prod_id := Damage.product_id d in
       let replaced := Damage.replaced d in
       if replaced =? 1 then on_core (show (MessageBox already_replaced))
       else if reply then
         _ <- on_core (update_stock now prod_id qty (replaced_units qty)) ;;
         executex (set_replaced damage_id) ;;
         on_core commit
       else retx tt
   | _ => on_core (show (MessageBox NoSelection))
   end)%pyx.

(** [delete_damage(self)], with [current] and [reply] as in
    [replace_damage]. The units go back to stock only when the entry is not
    marked as replaced ([replaced == 0]). *)
Definition delete_damage (now : string) (current : option nat) (reply : bool)
    : pyx unit :=
  (rows <- queryx damaged_products ;;
   match option_map (nth_error rows) current with
   | Some (Some d) =>
       let damage_id := Damage.id d in
       let qty := Damage.quantity d in
       let prod_id := Damage.product_id d in
       let replaced := Damage.replaced d in
       if reply then
         (if replaced =? 0 then
            _ <- on_core (update_stock now prod_id qty (deleted_damage_entry qty)) ;;
            retx tt
          else retx tt) ;;
         executex (delete_damage_row damage_id) ;;
         on_core commit
       else retx tt
   | _ => on_core (show (MessageBox NoSelection))
   end)%pyx.

End Texts.

(** A report of damage passes the validation of [add_damage]. *)
Definition damage_request (f : damage_form) (db : database) (qty : Z) (p : Product.t)
    : Prop :=
  all_filled [damage_date f; damage_product f; damage_quantity f] = true /\
  strptime_Ymd (damage_date f) = true /\
  int_literal (damage_quantity f) = Some qty /\
  0 < qty /\
  product_by_name (damage_product f) db = Some p /\
  qty <= Product.stock p.

(** The product form passes the checks of [get_input_data], as the source
    makes them: no price is below 0, which is false of NaN as well. *)
Definition product_input (f : product_form) (buy_price sell_price : float64) (stock : Z)
    : Prop :=
  all_filled [name_input f; type_selector f; buy_price_input f; sell_price_input f]
  = true /\
  float_literal (buy_price_input f) = Some buy_price /\
  float_literal (sell_price_input f) = Some sell_price /\
  int_literal (or_text (stock_input f) "0") = Some stock /\
  flt buy_price zero = false /\ flt sell_price zero = false /\ 0 <= stock.

(** The values of the product form can be stored: the stock is a 64-bit
    integer and no price is NaN. *)
Definition storable (buy_price sell_price : float64) (stock : Z) : Prop :=
  in_int64 stock = true /\ is_nan buy_price = false /\ is_nan sell_price = false.

(** The filters after [resetFilters(self)]. *)
Definition resetFilters (filters : Filters.t regex) : Filters.t regex :=
  Filters.mk "" "" None None None None None None None None.

(** One run of [update_stock] or of a coordinator of sales and invoices
    leads from [st] to [st']. *)
Definition coordinator_step (now : string) (st st' : appstate) : Prop :=
  (exists product_id delta r, st' = after (update_stock now product_id delta r) st) \/
  (exists f, st' = after (add_sale now f) st) \/
  (exists current f, st' = after (edit_sale now current f) st) \/
  (exists current reply, st' = after (delete_sale now current reply) st) \/
  (exists f, st' = after (add_invoice now f) st).


(** ** Facts about the statements *)

Lemma find_id_map (f : Product.t -> Product.t) (q : Z) (l : list Product.t) :
  (forall p, Product.id (f p) = Product.id p) ->
  find (fun p => Product.id p =? q) (map f l)
  = option_map f (find (fun p => Product.id p =? q) l).
Proof.
  intros Hid. induction l as [|p l IH]; cbn; [reflexivity|].
  rewrite Hid. destruct (Product.id p =? q); [reflexivity | exact IH].
Qed.

Lemma find_id_sound (q : Z) (l : list Product.t) (p : Product.t) :
  find (fun p => Product.id p =? q) l = Some p -> Product.id p = q.
Proof.
  intros H. apply find_some in H. destruct H as [_ H].
  now apply Z.eqb_eq in H.
Qed.

Lemma product_by_id_update n t pid q db :
  product_by_id q (update_products_stock n t pid db)
  = option_map (fun p => if Product.id p =? pid then set_stock n t p else p)
               (product_by_id q db).
Proof.
  unfold product_by_id, update_products_stock; cbn.
  apply find_id_map. intros p. now destruct (Product.id p =? pid).
Qed.

Lemma product_by_id_insert_history q pid t d r db :
  product_by_id q (insert_stock_history pid t d r db) = product_by_id q db.
Proof. reflexivity. Qed.

Lemma sum_changes_app q h1 h2 :
  sum_changes q (h1 ++ h2) = sum_changes q h1 + sum_changes q h2.
Proof.
  unfold sum_changes. rewrite filter_app, map_app.
  induction (map History.quantity_change
               (filter (fun e => History.product_id e =? q) h1)) as [|x l IH];
    cbn [app fold_right]; lia.
Qed.

Lemma sum_changes_one q e :
  sum_changes q [e]
  = if History.product_id e =? q then History.quantity_change e else 0.
Proof.
  unfold sum_changes; cbn. destruct (History.product_id e =? q); cbn; lia.
Qed.


(** ** What a call of [update_stock] computes *)

Lemma update_stock_missing now pid delta r st :
  product_by_id pid (conn st) = None ->
  update_stock now pid delta r st = (Raise TypeError, st).
Proof.
  intros H. unfold update_stock, bind, query, select_stock.
  now rewrite H.
Qed.

Lemma update_stock_found now pid delta r st p :
  product_by_id pid (conn st) = Some p ->
  update_stock now pid delta r st =
    let new_stock := Product.stock p + delta in
    if new_stock <? 0 then
      (Return None,
       mkapp (conn st) (shown st ++ [MessageBox (InsufficientStock (Product.stock p))]))
    else
      (Return (Some new_stock),
       mkapp (insert_stock_history pid now delta r
                (update_products_stock new_stock now pid (conn st)))
             (if new_stock <=? 5
              then shown st ++ [LowStockSignal (Product.name p) new_stock]
              else shown st)).
Proof.
  intros H. unfold update_stock, bind, query, select_stock.
  rewrite H; cbn [option_map]; cbv zeta.
  destruct (Product.stock p + delta <? 0); [reflexivity|].
  unfold execute, commit, ret, show; cbn [conn shown].
  destruct (Product.stock p + delta <=? 5); [|reflexivity].
  unfold select_name; cbn [conn shown].
  rewrite product_by_id_insert_history, product_by_id_update, H.
  cbn [option_map]. rewrite (find_id_sound _ _ _ H), Z.eqb_refl. reflexivity.
Qed.

Lemma update_stock_drift now pid delta r st q :
  drift_of q (conn (after (update_stock now pid delta r) st))
  = drift_of q (conn st).
Proof.
  unfold after. destruct (product_by_id pid (conn st)) as [p|] eqn:Hp.
  - rewrite (update_stock_found _ _ _ _ _ _ Hp); cbv zeta.
    destruct (Product.stock p + delta <? 0); [reflexivity|].
    cbn [snd conn]. unfold drift_of, select_stock.
    rewrite product_by_id_insert_history, product_by_id_update.
    cbn [stock_history insert_stock_history with_stock_history
         update_products_stock with_products].
    rewrite sum_changes_app, sum_changes_one; cbn [History.product_id History.quantity_change].
    destruct (Z.eqb_spec pid q) as [->|Hne].
    + rewrite Hp; cbn. rewrite (find_id_sound _ _ _ Hp), Z.eqb_refl; cbn.
      f_equal. lia.
    + destruct (product_by_id q (conn st)) as [p'|] eqn:Hq; [|reflexivity].
      cbn. pose proof (find_id_sound _ _ _ Hq) as Hid.
      destruct (Z.eqb_spec (Product.id p') pid); [congruence|].
      f_equal. lia.
  - now rewrite (update_stock_missing _ _ _ _ _ Hp).
Qed.

(** ** What a pass of [reconcile_stock] computes *)




Lemma sum_changes_entries q h :
  sum_changes q h = fold_right Z.add 0 (map History.quantity_change (entries_of q h)).
Proof. reflexivity. Qed.





(** ** Properties of the stock mutation service and of reconciliation *)




(** C4. A call of [update_stock] on product [p] emits the low-stock signal
    exactly when it succeeds ([0 <= new stock]) and the new stock is at most
    5; the signal then carries the product's name and the new stock. A
    rejected call emits no signal. *)
Theorem low_stock_signal_iff now product_id delta r st p :
  product_by_id product_id (conn st) = Some p ->
  let new_stock := Product.stock p + delta in
  exists evs,
    shown (after (update_stock now product_id delta r) st) = shown st ++ evs /\
    forall name q,
      In (LowStockSignal name q) evs <->
      0 <= new_stock <= 5 /\ name = Product.name p /\ q = new_stock.
Proof.
  intros Hp new_stock. unfold after.
  rewrite (update_stock_found _ _ _ _ _ _ Hp); cbv zeta. fold new_stock.
  destruct (Z.ltb_spec new_stock 0) as [Hneg|Hpos].
  - exists [MessageBox (InsufficientStock (Product.stock p))]. split; [reflexivity|].
    intros name q. split.
    + intros [H|[]]. discriminate H.
    + lia.
  - destruct (Z.leb_spec new_stock 5) as [Hlow|Hhigh].
    + exists [LowStockSignal (Product.name p) new_stock]. split; [reflexivity|].
      intros name q. split.
      * intros [H|[]]. injection H as <- <-. repeat split; lia.
      * intros (_ & -> & ->). now left.
    + exists []. split; [cbn; now rewrite app_nil_r|].
      intros name q. split; [intros [] | lia].
Qed.

(** ** Facts used by the coordinators *)

Lemma find_id_unique (l : list Product.t) (p : Product.t) :
  NoDup (map Product.id l) -> In p l ->
  find (fun x => Product.id x =? Product.id p) l = Some p.
Proof.
  induction l as [|x l IH]; intros Hnd Hin; [contradiction|].
  cbn in Hnd. apply NoDup_cons_iff in Hnd. destruct Hnd as [Hx Hnd].
  cbn [find]. destruct Hin as [->|Hin].
  - now rewrite Z.eqb_refl.
  - destruct (Z.eqb_spec (Product.id x) (Product.id p)) as [E|_].
    + exfalso. apply Hx. rewrite E. now apply in_map.
    + now apply IH.
Qed.

Lemma product_by_id_of_name db item p :
  NoDup (map Product.id (products db)) ->
  product_by_name item db = Some p ->
  product_by_id (Product.id p) db = Some p.
Proof.
  intros Hnd Hp. apply find_some in Hp. destruct Hp as [Hin _].
  now apply find_id_unique.
Qed.

Lemma product_by_id_insert_sale q date item qty price discount total prod_id db :
  product_by_id q (insert_sale date item qty price discount total prod_id db)
  = product_by_id q db.
Proof. reflexivity. Qed.

(** *** [add_sale] *)

Lemma add_sale_accepts now f st qty price discount p :
  sale_request f (conn st) qty price discount p ->
  product_by_id (Product.id p) (conn st) = Some p ->
  add_sale now f st
  = (Return tt,
     mkapp (insert_sale (sales_date f) (sales_item f) qty price discount
              (line_total qty price discount) (Product.id p)
              (insert_stock_history (Product.id p) now (- qty) (SaleOf qty discount)
                 (update_products_stock (Product.stock p + - qty) now
                    (Product.id p) (conn st))))
           (if Product.stock p + - qty <=? 5
            then shown st ++ [LowStockSignal (Product.name p) (Product.stock p + - qty)]
            else shown st)).
Proof.
  intros (Hfill & Hdate & Hq & Hpr & Hd & Hq0 & Hp0 & Hd0 & Hd100 & Hrange & Hname
            & Hstock) Hid.
  unfold add_sale. rewrite Hfill. cbn [negb].
  unfold try_except_ValueError, bind, strptime, int, float, int_value, float_value,
    int_times_float.
  rewrite Hdate, Hq, Hpr, Hd, Hrange. unfold ret at 1.
  replace (qty <=? 0) with false by (symmetry; apply Z.leb_gt; lia).
  rewrite Hp0, Hd0, Hd100.
  cbn [orb when]. unfold ret at 1 2 3. unfold query at 1. unfold select_id_stock.
  rewrite Hname. cbn [option_map].
  replace (Product.stock p <? qty) with false by (symmetry; apply Z.ltb_ge; lia).
  cbn [when]. unfold ret at 1.
  rewrite (update_stock_found _ _ _ _ _ _ Hid). cbv zeta.
  replace (Product.stock p + - qty <? 0) with false by (symmetry; apply Z.ltb_ge; lia).
  unfold execute, commit, ret. cbn [conn shown]. reflexivity.
Qed.

Lemma add_sale_rejects now f st :
  ~ (exists qty price discount p, sale_request f (conn st) qty price discount p) ->
  conn (after (add_sale now f) st) = conn st.
Proof.
  intros Hno. unfold after, add_sale.
  destruct (all_filled _) eqn:Hfill; cbn [negb]; [|reflexivity].
  unfold try_except_ValueError, bind, strptime, int, float, int_value, float_value,
    int_times_float.
  destruct (strptime_Ymd (sales_date f)) eqn:Hdate; [|reflexivity].
  unfold ret at 1.
  destruct (int_literal (sales_quantity f)) as [qty|] eqn:Hq; [|reflexivity].
  destruct (float_literal (sales_price f)) as [price|] eqn:Hpr; [|reflexivity].
  destruct (float_literal (or_text (sales_discount f) "0")) as [discount|] eqn:Hd;
    [|reflexivity].
  destruct (Z.leb_spec qty 0) as [|Hq0]; [reflexivity|].
  destruct (flt price zero) eqn:Hp0; [reflexivity|].
  cbn [orb when]. unfold ret at 1.
  destruct (flt discount zero) eqn:Hd0; [reflexivity|].
  destruct (flt hundred discount) eqn:Hd100; [reflexivity|].
  cbn [orb when]. unfold ret at 1.
  destruct (in_float_range qty) eqn:Hrange; [|reflexivity].
  unfold ret at 1. unfold query at 1. unfold select_id_stock.
  destruct (product_by_name (sales_item f) (conn st)) as [p|] eqn:Hname; [|reflexivity].
  cbn [option_map].
  destruct (Z.ltb_spec (Product.stock p) qty) as [|Hstock]; [reflexivity|].
  exfalso. apply Hno. exists qty, price, discount, p.
  unfold sale_request. repeat split; assumption.
Qed.

(** *** [edit_sale] *)







(** *** [add_invoice] *)

Lemma add_invoice_try_prefix now date customer src sale_id product_name vq vd st
    qty discount p :
  invoice_request date product_name vq vd (conn st) qty discount p ->
  add_invoice_try now date customer src sale_id product_name vq vd st
  = (match src, sale_id with
     | FromSale, Some sid =>
         if id_truthy sale_id then
           sale_data <- query (select_quantity_product_discount sid) ;;
           when (match sale_data with
                 | None => true
                 | Some (sale_qty, sale_prod, sale_discount) =>
                     negb (sale_prod =? Product.id p)
                     || negb (sale_qty =? qty)
                     || negb (feq sale_discount discount)
                 end)
             (raise (ValueError SaleMismatch))
         else ret tt
     | FromSale, None => ret tt
     | FromStock, _ =>
         when (Product.stock p <? qty)
           (raise (ValueError (InsufficientStock (Product.stock p))))
     end ;;
     write_invoice now date customer src sale_id qty discount p) st.
Proof.
  intros (Hdate & Hq & Hd & Hq0 & Hd0 & Hd100 & Hname).
  unfold add_invoice_try.
  unfold bind at 1. unfold strptime. rewrite Hdate. unfold ret at 1.
  unfold bind at 1. unfold int. rewrite Hq.
  unfold bind at 1. unfold float. rewrite Hd.
  replace (qty <=? 0) with false by (symmetry; apply Z.leb_gt; lia).
  rewrite Hd0, Hd100.
  cbn [orb when].
  unfold bind at 1. unfold ret at 1. unfold bind at 1. unfold ret at 1.
  unfold bind at 1. unfold query at 1. unfold select_id_price_stock.
  rewrite Hname. cbn [option_map]. reflexivity.
Qed.

Lemma write_invoice_from_sale now date customer sale_id qty discount p st :
  amounts_are_numbers qty (Product.sell_price p) discount ->
  count_invoice_number (invoice_number_of now) (conn st) = 0 ->
  write_invoice now date customer FromSale sale_id qty discount p st
  = (Return tt,
     mkapp (with_invoice_items
              (invoice_items (conn st) ++ [invoice_item_row qty discount p (conn st)])
              (with_invoices
                 (invoices (conn st)
                    ++ [invoice_row now date customer sale_id qty discount p (conn st)])
                 (next_rowid (invoices_seq (conn st)) (map Invoice.id (invoices (conn st))))
                 (conn st)))
           (shown st)).
Proof.
  intros [Hrange Hnum] Hfresh.
  unfold amounts_are_numbers, invoice_grand_total, invoice_vat, invoice_total,
    line_total in Hnum. cbv zeta in Hnum.
  unfold write_invoice, int_times_float. rewrite Hrange.
  unfold bind at 1. unfold ret at 1. cbv zeta.
  unfold bind at 1. unfold query at 1. rewrite Hfresh. cbn [Z.ltb Z.compare when].
  unfold bind at 1. unfold ret at 1.
  rewrite Hnum. cbn [when].
  reflexivity.
Qed.

Lemma write_invoice_nan now date customer src sale_id qty discount p st :
  in_float_range qty = true ->
  is_nan (invoice_total qty (Product.sell_price p) discount)
  || is_nan (invoice_vat qty (Product.sell_price p) discount)
  || is_nan (invoice_grand_total qty (Product.sell_price p) discount) = true ->
  count_invoice_number (invoice_number_of now) (conn st) = 0 ->
  write_invoice now date customer src sale_id qty discount p st
  = (Raise IntegrityError, st).
Proof.
  intros Hrange Hnum Hfresh.
  unfold invoice_grand_total, invoice_vat, invoice_total, line_total in Hnum.
  cbv zeta in Hnum.
  unfold write_invoice, int_times_float. rewrite Hrange.
  unfold bind at 1. unfold ret at 1. cbv zeta.
  unfold bind at 1. unfold query at 1. rewrite Hfresh. cbn [Z.ltb Z.compare when].
  unfold bind at 1. unfold ret at 1.
  rewrite Hnum. cbn [when]. reflexivity.
Qed.

Lemma add_invoice_mismatch now date customer sid product_name vq vd required st
    qty discount p s :
  all_filled required = true ->
  invoice_request date product_name vq vd (conn st) qty discount p ->
  sid <> 0 ->
  sale_by_id sid (conn st) = Some s ->
  Sale.product_id s <> Product.id p \/ Sale.quantity s <> qty
    \/ feq (Sale.discount s) discount = false ->
  add_invoice_checked now date customer FromSale (Some sid) product_name vq vd
    required st
  = (Return tt, mkapp (conn st) (shown st ++ [MessageBox SaleMismatch])).
Proof.
  intros Hfill Hreq Hsid Hs Hdiff.
  unfold add_invoice_checked. rewrite Hfill. cbn [negb].
  unfold try_except_sqlite3_Error, try_except_ValueError.
  rewrite (add_invoice_try_prefix _ _ _ _ _ _ _ _ _ _ _ _ Hreq).
  cbn [id_truthy]. replace (sid =? 0) with false by (symmetry; now apply Z.eqb_neq).
  cbn [negb]. unfold bind at 1. unfold bind at 1. unfold query at 1.
  unfold select_quantity_product_discount. rewrite Hs. cbn [option_map].
  assert (Htest : negb (Sale.product_id s =? Product.id p)
                  || negb (Sale.quantity s =? qty)
                  || negb (feq (Sale.discount s) discount) = true).
  { destruct Hdiff as [H|[H|H]].
    - apply Z.eqb_neq in H. now rewrite H.
    - apply Z.eqb_neq in H. rewrite H. now rewrite orb_true_r.
    - rewrite H. now rewrite !orb_true_r. }
  rewrite Htest. reflexivity.
Qed.

Lemma add_invoice_sale_checks now date customer sid product_name vq vd required st
    qty discount p s :
  all_filled required = true ->
  invoice_request date product_name vq vd (conn st) qty discount p ->
  sid <> 0 ->
  sale_by_id sid (conn st) = Some s ->
  Sale.product_id s = Product.id p -> Sale.quantity s = qty ->
  feq (Sale.discount s) discount = true ->
  add_invoice_checked now date customer FromSale (Some sid) product_name vq vd
    required st
  = try_except_sqlite3_Error
      (try_except_ValueError
         (write_invoice now date customer FromSale (Some sid) qty discount p)
         (fun e => show (MessageBox e)))
      (show (MessageBox DatabaseError)) st.
Proof.
  intros Hfill Hreq Hsid Hs Hprod Hqty Hdisc.
  unfold add_invoice_checked. rewrite Hfill. cbn [negb].
  unfold try_except_sqlite3_Error, try_except_ValueError.
  rewrite (add_invoice_try_prefix _ _ _ _ _ _ _ _ _ _ _ _ Hreq).
  cbn [id_truthy]. replace (sid =? 0) with false by (symmetry; now apply Z.eqb_neq).
  cbn [negb]. unfold bind at 1. unfold bind at 1. unfold query at 1.
  unfold select_quantity_product_discount. rewrite Hs. cbn [option_map].
  apply Z.eqb_eq in Hprod, Hqty.
  rewrite Hprod, Hqty, Hdisc. cbn [negb orb when]. unfold ret at 1.
  reflexivity.
Qed.

Lemma add_invoice_match now date customer sid product_name vq vd required st
    qty discount p s :
  all_filled required = true ->
  invoice_request date product_name vq vd (conn st) qty discount p ->
  sid <> 0 ->
  sale_by_id sid (conn st) = Some s ->
  Sale.product_id s = Product.id p -> Sale.quantity s = qty ->
  feq (Sale.discount s) discount = true ->
  amounts_are_numbers qty (Product.sell_price p) discount ->
  count_invoice_number (invoice_number_of now) (conn st) = 0 ->
  add_invoice_checked now date customer FromSale (Some sid) product_name vq vd
    required st
  = (Return tt,
     mkapp (with_invoice_items
              (invoice_items (conn st) ++ [invoice_item_row qty discount p (conn st)])
              (with_invoices
                 (invoices (conn st)
                    ++ [invoice_row now date customer (Some sid) qty discount p (conn st)])
                 (next_rowid (invoices_seq (conn st)) (map Invoice.id (invoices (conn st))))
                 (conn st)))
           (shown st)).
Proof.
  intros Hfill Hreq Hsid Hs Hprod Hqty Hdisc Hnum Hfresh.
  rewrite (add_invoice_sale_checks _ _ _ _ _ _ _ _ _ qty discount p s
             Hfill Hreq Hsid Hs Hprod Hqty Hdisc).
  unfold try_except_sqlite3_Error, try_except_ValueError.
  now rewrite (write_invoice_from_sale _ _ _ _ _ _ _ _ Hnum Hfresh).
Qed.

Lemma add_invoice_match_nan now date customer sid product_name vq vd required st
    qty discount p s :
  all_filled required = true ->
  invoice_request date product_name vq vd (conn st) qty discount p ->
  sid <> 0 ->
  sale_by_id sid (conn st) = Some s ->
  Sale.product_id s = Product.id p -> Sale.quantity s = qty ->
  feq (Sale.discount s) discount = true ->
  in_float_range qty = true ->
  is_nan (invoice_total qty (Product.sell_price p) discount)
  || is_nan (invoice_vat qty (Product.sell_price p) discount)
  || is_nan (invoice_grand_total qty (Product.sell_price p) discount) = true ->
  count_invoice_number (invoice_number_of now) (conn st) = 0 ->
  add_invoice_checked now date customer FromSale (Some sid) product_name vq vd
    required st
  = (Return tt, mkapp (conn st) (shown st ++ [MessageBox DatabaseError])).
Proof.
  intros Hfill Hreq Hsid Hs Hprod Hqty Hdisc Hrange Hnum Hfresh.
  rewrite (add_invoice_sale_checks _ _ _ _ _ _ _ _ _ qty discount p s
             Hfill Hreq Hsid Hs Hprod Hqty Hdisc).
  unfold try_except_sqlite3_Error, try_except_ValueError.
  now rewrite (write_invoice_nan _ _ _ _ _ _ _ _ _ Hrange Hnum Hfresh).
Qed.

Lemma add_invoice_from_stock_run now date customer product_name vq vd required st
    qty discount p :
  all_filled required = true ->
  invoice_request date product_name vq vd (conn st) qty discount p ->
  qty <= Product.stock p ->
  amounts_are_numbers qty (Product.sell_price p) discount ->
  count_invoice_number (invoice_number_of now) (conn st) = 0 ->
  product_by_id (Product.id p) (conn st) = Some p ->
  add_invoice_checked now date customer FromStock None product_name vq vd
    required st
  = (Return tt,
     mkapp (insert_stock_history (Product.id p) now (- qty)
              (InvoiceIssued (invoice_number_of now))
              (update_products_stock (Product.stock p + - qty) now (Product.id p)
                 (with_invoice_items
                    (invoice_items (conn st) ++ [invoice_item_row qty discount p (conn st)])
                    (with_invoices
                       (invoices (conn st)
                          ++ [invoice_row now date customer None qty discount p (conn st)])
                       (next_rowid (invoices_seq (conn st))
                          (map Invoice.id (invoices (conn st))))
                       (conn st)))))
           (if Product.stock p + - qty <=? 5
            then shown st ++ [LowStockSignal (Product.name p) (Product.stock p + - qty)]
            else shown st)).
Proof.
  intros Hfill Hreq Hstock [Hrange Hnum] Hfresh Hid.
  assert (Hq0 : 0 < qty) by apply Hreq.
  unfold amounts_are_numbers, invoice_grand_total, invoice_vat, invoice_total,
    line_total in Hnum. cbv zeta in Hnum.
  unfold add_invoice_checked. rewrite Hfill. cbn [negb].
  unfold try_except_sqlite3_Error, try_except_ValueError.
  rewrite (add_invoice_try_prefix _ _ _ _ _ _ _ _ _ _ _ _ Hreq).
  replace (Product.stock p <? qty) with false by (symmetry; apply Z.ltb_ge; lia).
  cbn [when]. unfold bind at 1. unfold ret at 1.
  unfold write_invoice, int_times_float. rewrite Hrange.
  unfold bind at 1. unfold ret at 1. cbv zeta.
  unfold bind at 1. unfold query at 1. rewrite Hfresh. cbn [Z.ltb Z.compare when].
  unfold bind at 1. unfold ret at 1.
  rewrite Hnum. cbn [when].
  unfold bind at 1. unfold ret at 1.
  unfold bind at 1. unfold execute at 1.
  unfold bind at 1. unfold query at 1.
  unfold bind at 1. unfold execute at 1.
  unfold bind at 1. unfold bind at 1.
  rewrite (update_stock_found now (Product.id p) (- qty) _ _ p); [|exact Hid].
  cbv zeta.
  replace (Product.stock p + - qty <? 0) with false by (symmetry; apply Z.ltb_ge; lia).
  reflexivity.
Qed.

Lemma add_invoice_collects now f st sid s :
  invoice_source f = FromSale ->
  sale_selector f = Some sid ->
  sid <> 0 ->
  sale_by_id sid (conn st) = Some s ->
  add_invoice now f st
  = add_invoice_checked now (invoice_date f) (customer_name f) FromSale (Some sid)
      (Sale.item s) (Int (Sale.quantity s)) (real_cell (Sale.discount s))
      [invoice_date f; customer_name f] st.
Proof.
  intros Hsrc Hsel Hsid Hs. unfold add_invoice. rewrite Hsrc, Hsel.
  cbn [id_truthy]. replace (sid =? 0) with false by (symmetry; now apply Z.eqb_neq).
  cbn [negb]. unfold bind at 1. unfold query at 1.
  unfold select_item_quantity_discount. rewrite Hs. reflexivity.
Qed.

Lemma add_invoice_collects_from_stock now f st :
  invoice_source f = FromStock ->
  add_invoice now f st
  = add_invoice_checked now (invoice_date f) (customer_name f) FromStock None
      (product_selector f) (Text (invoice_quantity f))
      (Text (or_text (invoice_discount f) "0"))
      [invoice_date f; customer_name f; product_selector f; invoice_quantity f] st.
Proof. intros Hsrc. unfold add_invoice. now rewrite Hsrc. Qed.

(** ** Facts about the product filter *)

Lemma truthy_false s : truthy s = false <-> s = "".
Proof.
  unfold truthy. destruct (String.eqb_spec s ""); cbn; split; congruence.
Qed.

Lemma truthy_true s : truthy s = true <-> s <> "".
Proof.
  unfold truthy. destruct (String.eqb_spec s ""); cbn; split; congruence.
Qed.

Lemma contains_empty s : contains "" s = true.
Proof. now destruct s. Qed.

Lemma setFilterCriteria_apply_filters filters c :
  compiles c ->
  setFilterCriteria filters (apply_filters_kwargs c) = (Return tt, searched c).
Proof.
  intros Hc. destruct filters. unfold apply_filters_kwargs, searched.
  cbn [setFilterCriteria set_criterion].
  destruct (truthy (search_name c)) eqn:Hn; [|reflexivity].
  destruct Hc as [Hc|Hc]; [apply truthy_true in Hn; contradiction|].
  destruct (re_compile (search_name c)) as [r| |x] eqn:Hr; try reflexivity.
  now destruct (Hc x).
Qed.

Lemma setFilterCriteria_raises filters c x :
  search_name c <> "" ->
  re_compile (search_name c) = CompileRaises x ->
  setFilterCriteria filters (apply_filters_kwargs c)
  = (Raise x, half_set filters (search_name c)).
Proof.
  intros Hn Hr. apply truthy_true in Hn. destruct filters.
  unfold apply_filters_kwargs, half_set.
  cbn [setFilterCriteria set_criterion]. rewrite Hn, Hr. reflexivity.
Qed.

Lemma name_condition c row :
  (if truthy (Filters.name (searched c))
   then contains (Filters.name (searched c)) (lower (Product.name row))
        || match Filters.name_regex (searched c) with
           | Some pattern => re_search pattern (lower (Product.name row))
           | None => false
           end
   else true) = true
  <-> name_criterion c row.
Proof.
  unfold name_criterion, searched. cbn [Filters.name Filters.name_regex].
  destruct (truthy (search_name c)) eqn:Hn.
  - apply truthy_true in Hn.
    destruct (truthy (lower (search_name c))) eqn:Hl.
    + rewrite orb_true_iff. split.
      * intros [H|H]; [now right; left|].
        destruct (re_compile (search_name c)) as [pattern| |x]; try discriminate.
        right; right. now exists pattern.
      * intros [H|[H|(pattern & Hc & Hm)]]; [contradiction | now left |].
        right. now rewrite Hc.
    + apply truthy_false in Hl. split; [|reflexivity].
      intros _. right; left. rewrite Hl. apply contains_empty.
  - apply truthy_false in Hn. cbn. split; [now left | reflexivity].
Qed.

Lemma type_condition c row :
  (if truthy (Filters.type (searched c))
   then String.eqb (Product.type row) (Filters.type (searched c))
   else true) = true
  <-> category_criterion c row.
Proof.
  unfold category_criterion, searched. cbn [Filters.type].
  destruct (truthy (search_type c)) eqn:Ht; cbn [andb].
  - apply truthy_true in Ht.
    destruct (String.eqb_spec (search_type c) "All Types") as [E|Hne]; cbn [negb].
    + cbn. split; [now right; left | reflexivity].
    + apply truthy_true in Ht. rewrite Ht. apply truthy_true in Ht.
      rewrite String.eqb_eq. split; [now right; right|].
      intros [H|[H|H]]; [contradiction | contradiction | exact H].
  - apply truthy_false in Ht. cbn. split; [now left | reflexivity].
Qed.

Lemma updated_after_condition c row :
  match search_updated_after c with
  | Some bound =>
      if truthy bound then String.leb bound (Product.last_updated row) else true
  | None => true
  end = true
  <-> updated_after_criterion c row.
Proof.
  unfold updated_after_criterion.
  destruct (search_updated_after c) as [d|]; [|tauto].
  destruct (truthy d) eqn:Hd.
  - apply truthy_true in Hd. split; [now right|]. now intros [H|H].
  - apply truthy_false in Hd. split; [now left | reflexivity].
Qed.

Lemma filter_accepts_searched c row :
  filterAcceptsRow (searched c) row = true <-> criteria_hold c row.
Proof.
  unfold filterAcceptsRow, criteria_hold. cbv zeta.
  cbn [forallb]. rewrite !andb_true_iff.
  rewrite name_condition, type_condition.
  unfold searched at 1 2 3 4 5 6 7.
  cbn [Filters.min_buy Filters.max_buy Filters.min_sell Filters.max_sell
       Filters.updated_after Filters.stock_min Filters.stock_max].
  rewrite updated_after_condition.
  unfold at_least, at_most, float_le.
  destruct (search_min_buy c), (search_max_buy c), (search_min_sell c),
    (search_max_sell c), (search_stock_min c), (search_stock_max c);
    rewrite ?Z.leb_le; tauto.
Qed.

(** ** Properties of the transaction coordinators *)

(** X20. What [add_sale] validates. With unique product ids: a request that
    passes the validation of the source (fields filled, valid date,
    quantity > 0, price not below 0, discount not below 0 and not above 100,
    an existing named product, stock >= quantity) succeeds, appends one
    sale whose total is [subtotal - subtotal * (discount / 100)] with
    [subtotal = quantity * price], computed in binary64, and lowers the
    stock of that product by exactly the quantity. A request that fails
    this validation changes nothing in the database, so no sale is
    inserted. The comparisons of the source are false of NaN, so a price or
    a discount that is NaN passes. *)
Theorem add_sale_validated now f st :
  NoDup (map Product.id (products (conn st))) ->
  (forall qty price discount p,
     sale_request f (conn st) qty price discount p ->
     let st' := after (add_sale now f) st in
     fst (add_sale now f st) = Return tt /\
     (exists s,
        daily_accessories_sales (conn st')
        = daily_accessories_sales (conn st) ++ [s] /\
        Sale.item s = sales_item f /\ Sale.quantity s = qty /\
        Sale.sale_price s = real_column price /\
        Sale.discount s = real_column discount /\
        Sale.product_id s = Product.id p /\
        Sale.total s
        = real_column (fsub (fmul (float_of_Z qty) price)
                            (fmul (fmul (float_of_Z qty) price)
                                  (fdiv discount hundred)))) /\
     select_stock (Product.id p) (conn st') = Some (Product.stock p - qty))
  /\
  ((~ exists qty price discount p, sale_request f (conn st) qty price discount p) ->
   conn (after (add_sale now f) st) = conn st).
Proof.
  intros Hnd. split; [|apply add_sale_rejects].
  intros qty price discount p Hreq.
  assert (Hid : product_by_id (Product.id p) (conn st) = Some p).
  { apply (product_by_id_of_name _ (sales_item f)); [exact Hnd|]. apply Hreq. }
  unfold after. rewrite (add_sale_accepts now f st qty price discount p Hreq Hid).
  cbn [fst snd conn]. split; [reflexivity|]. split.
  - eexists. split; [reflexivity|]. cbn. repeat split; reflexivity.
  - unfold select_stock.
    rewrite product_by_id_insert_sale, product_by_id_insert_history,
      product_by_id_update, Hid.
    cbn [option_map]. rewrite Z.eqb_refl. reflexivity.
Qed.


(** C8. [add_invoice] collects the item, quantity and discount of the sale
    chosen in the form, or the product, quantity and discount typed into
    the form for an invoice from stock, and goes on with them. For the
    values collected, once the required fields are filled, date, quantity
    and discount are valid and the product name resolves to product [p]:
    - from a sale whose product, quantity or discount differs from these
      values, the operation reports the sale mismatch and leaves the database
      as it was;
    - from a sale that matches them, with an unused invoice number and
      amounts that are numbers, one invoice and one invoice item are
      appended and neither the products nor the ledger change; with an
      amount that is NaN the [NOT NULL] columns refuse the invoice, a
      database error is reported and nothing is written;
    - from stock, with enough stock, an unused invoice number, amounts that
      are numbers and unique product ids, the invoice and its item are
      appended, the stock of [p] drops by the quantity and the ledger
      receives one entry with delta [- quantity]. *)
Theorem add_invoice_from_sale now date customer product_name qty_in discount_in
    required st qty discount p :
  all_filled required = true ->
  invoice_request date product_name qty_in discount_in (conn st) qty discount p ->
  (forall sid s,
     sid <> 0 ->
     sale_by_id sid (conn st) = Some s ->
     let run := add_invoice_checked now date customer FromSale (Some sid)
                  product_name qty_in discount_in required st in
     (Sale.product_id s <> Product.id p \/ Sale.quantity s <> qty
        \/ feq (Sale.discount s) discount = false ->
      run = (Return tt, mkapp (conn st) (shown st ++ [MessageBox SaleMismatch])))
     /\
     (Sale.product_id s = Product.id p -> Sale.quantity s = qty ->
      feq (Sale.discount s) discount = true ->
      count_invoice_number (invoice_number_of now) (conn st) = 0 ->
      (amounts_are_numbers qty (Product.sell_price p) discount ->
       fst run = Return tt /\
       products (conn (snd run)) = products (conn st) /\
       stock_history (conn (snd run)) = stock_history (conn st) /\
       invoices (conn (snd run))
       = invoices (conn st)
           ++ [invoice_row now date customer (Some sid) qty discount p (conn st)] /\
       invoice_items (conn (snd run))
       = invoice_items (conn st) ++ [invoice_item_row qty discount p (conn st)])
      /\
      (in_float_range qty = true ->
       is_nan (invoice_total qty (Product.sell_price p) discount)
       || is_nan (invoice_vat qty (Product.sell_price p) discount)
       || is_nan (invoice_grand_total qty (Product.sell_price p) discount) = true ->
       run = (Return tt, mkapp (conn st) (shown st ++ [MessageBox DatabaseError])))))
  /\
  (qty <= Product.stock p ->
   count_invoice_number (invoice_number_of now) (conn st) = 0 ->
   amounts_are_numbers qty (Product.sell_price p) discount ->
   NoDup (map Product.id (products (conn st))) ->
   let run := add_invoice_checked now date customer FromStock None
                product_name qty_in discount_in required st in
   fst run = Return tt /\
   select_stock (Product.id p) (conn (snd run)) = Some (Product.stock p - qty) /\
   stock_history (conn (snd run))
   = stock_history (conn st)
       ++ [History.mk (Product.id p) now (- qty)
                      (InvoiceIssued (invoice_number_of now))] /\
   invoices (conn (snd run))
   = invoices (conn st)
       ++ [invoice_row now date customer None qty discount p (conn st)] /\
   invoice_items (conn (snd run))
   = invoice_items (conn st) ++ [invoice_item_row qty discount p (conn st)])
  /\
  (forall f sid s,
     invoice_source f = FromSale ->
     sale_selector f = Some sid ->
     sid <> 0 ->
     sale_by_id sid (conn st) = Some s ->
     add_invoice now f st
     = add_invoice_checked now (invoice_date f) (customer_name f) FromSale (Some sid)
         (Sale.item s) (Int (Sale.quantity s)) (real_cell (Sale.discount s))
         [invoice_date f; customer_name f] st)
  /\
  (forall f,
     invoice_source f = FromStock ->
     add_invoice now f st
     = add_invoice_checked now (invoice_date f) (customer_name f) FromStock None
         (product_selector f) (Text (invoice_quantity f))
         (Text (or_text (invoice_discount f) "0"))
         [invoice_date f; customer_name f; product_selector f; invoice_quantity f] st).
Proof.
  intros Hfill Hreq. split; [|split; [|split]].
  - intros sid s Hsid Hs run. split.
    + intros Hdiff. unfold run.
      now apply (add_invoice_mismatch _ _ _ _ _ _ _ _ _ qty discount p s).
    + intros Hprod Hqty Hdisc Hfresh. split.
      * intros Hnum. unfold run.
        rewrite (add_invoice_match _ _ _ _ _ _ _ _ _ qty discount p s
                   Hfill Hreq Hsid Hs Hprod Hqty Hdisc Hnum Hfresh).
        repeat split.
      * intros Hrange Hnan. unfold run.
        now apply (add_invoice_match_nan _ _ _ _ _ _ _ _ _ qty discount p s).
  - intros Hstock Hfresh Hnum Hnd run.
    assert (Hid : product_by_id (Product.id p) (conn st) = Some p).
    { apply (product_by_id_of_name _ product_name); [exact Hnd | apply Hreq]. }
    unfold run.
    rewrite (add_invoice_from_stock_run _ _ _ _ _ _ _ _ qty discount p
               Hfill Hreq Hstock Hnum Hfresh Hid).
    cbn [fst snd conn]. split; [reflexivity|]. split; [|repeat split].
    unfold select_stock.
    rewrite product_by_id_insert_history, product_by_id_update.
    change (product_by_id (Product.id p) (with_invoice_items ?a (with_invoices ?b ?c ?db)))
      with (product_by_id (Product.id p) db).
    rewrite Hid. cbn [option_map]. now rewrite Z.eqb_refl.
  - intros f sid s. apply add_invoice_collects.
  - intros f. apply add_invoice_collects_from_stock.
Qed.

(** ** The product filter *)

(** X21. When the pattern compiler returns on the name of the search (with
    a pattern or with [re.error]) or the name is empty, [apply_filters]
    returns, and with the filters it leaves a row is accepted exactly when
    every criterion that is set holds: a criterion that is not set holds
    vacuously and all bounds on prices, stock and date are inclusive. The
    name criterion holds when the lowercased name contains the lowercased
    query, or when the query compiles as a case-insensitive pattern that
    matches the lowercased name. For a query on which the compiler raises
    [re.error] no pattern is kept, and the name criterion is the substring
    test alone. *)
Theorem filter_accepts_iff filters c row :
  compiles c ->
  fst (apply_filters filters c) = Return tt /\
  (filterAcceptsRow (snd (apply_filters filters c)) row = true
   <-> criteria_hold c row)
  /\
  (search_name c <> "" ->
   re_compile (search_name c) = re_error ->
   Filters.name_regex (snd (apply_filters filters c)) = None /\
   (name_criterion c row
    <-> contains (lower (search_name c)) (lower (Product.name row)) = true)).
Proof.
  intros Hc. unfold apply_filters.
  rewrite (setFilterCriteria_apply_filters filters c Hc). cbn [fst snd].
  split; [reflexivity|]. split; [apply filter_accepts_searched|].
  intros Hn Hr. split.
  - unfold searched. cbn [Filters.name_regex]. rewrite Hr. now destruct (truthy _).
  - unfold name_criterion. split.
    + intros [H|[H|(pattern & Hp & _)]]; [contradiction | exact H | congruence].
    + intros H. now right; left.
Qed.

(** ** Products and ledger under the coordinators *)

Lemma update_stock_stock_part now pid delta r st :
  stock_part (conn (snd (update_stock now pid delta r st)))
  = apply_delta now pid delta r (stock_part (conn st)).
Proof.
  unfold apply_delta, stock_part. cbn [fst snd].
  fold (product_by_id pid (conn st)).
  destruct (product_by_id pid (conn st)) as [p|] eqn:Hp.
  - rewrite (update_stock_found _ _ _ _ _ _ Hp). cbv zeta.
    now destruct (Product.stock p + delta <? 0).
  - now rewrite (update_stock_missing _ _ _ _ _ Hp).
Qed.

Lemma update_stock_same_part now pid delta r st1 st :
  stock_part (conn st1) = stock_part (conn st) ->
  stock_part (conn (snd (update_stock now pid delta r st1)))
  = stock_part (conn (after (update_stock now pid delta r) st)).
Proof.
  intros H. unfold after. rewrite !update_stock_stock_part. now rewrite H.
Qed.

Lemma drift_of_stock_part q db db' :
  stock_part db = stock_part db' -> drift_of q db = drift_of q db'.
Proof.
  unfold stock_part, drift_of, select_stock, product_by_id.
  intros [= Hp Hh]. now rewrite Hp, Hh.
Qed.

Lemma apply_delta_nonneg now pid delta r ps h :
  (forall p, In p ps -> 0 <= Product.stock p) ->
  forall p, In p (fst (apply_delta now pid delta r (ps, h))) -> 0 <= Product.stock p.
Proof.
  intros Hnn p. unfold apply_delta. cbn [fst snd].
  destruct (find _ ps) as [p0|]; [|apply Hnn].
  destruct (Z.ltb_spec (Product.stock p0 + delta) 0) as [|Hok]; [apply Hnn|].
  cbn [fst]. intros Hin. apply in_map_iff in Hin. destruct Hin as (x & <- & Hx).
  destruct (Product.id x =? pid); [exact Hok | now apply Hnn].
Qed.

Lemma apply_delta_appends now pid delta r ps h :
  exists suffix,
    snd (apply_delta now pid delta r (ps, h)) = h ++ suffix /\
    (List.length suffix <= 1)%nat.
Proof.
  unfold apply_delta. cbn [fst snd].
  destruct (find _ ps) as [p0|]; [|exists []; now rewrite app_nil_r; split; [|cbn; lia]].
  destruct (Product.stock p0 + delta <? 0).
  - exists []. rewrite app_nil_r. split; [reflexivity | cbn; lia].
  - eexists. split; [reflexivity | cbn; lia].
Qed.

Lemma through_update_stock_refl now st st' :
  conn st' = conn st -> through_update_stock now st st'.
Proof. intros H. left. now rewrite H. Qed.

Lemma add_sale_through now f st :
  through_update_stock now st (after (add_sale now f) st).
Proof.
  unfold after, add_sale.
  destruct (all_filled _); cbn [negb]; [|now apply through_update_stock_refl].
  unfold try_except_ValueError, bind, strptime, int, float, int_value, float_value,
    int_times_float.
  destruct (strptime_Ymd (sales_date f)); [|now apply through_update_stock_refl].
  unfold ret at 1.
  destruct (int_literal (sales_quantity f)) as [qty|];
    [|now apply through_update_stock_refl].
  destruct (float_literal (sales_price f)) as [price|];
    [|now apply through_update_stock_refl].
  destruct (float_literal (or_text (sales_discount f) "0")) as [discount|];
    [|now apply through_update_stock_refl].
  destruct ((qty <=? 0) || flt price zero); [now apply through_update_stock_refl|].
  cbn [when]. unfold ret at 1.
  destruct (flt discount zero || flt hundred discount);
    [now apply through_update_stock_refl|].
  cbn [when]. unfold ret at 1.
  destruct (in_float_range qty); [|now apply through_update_stock_refl].
  unfold ret at 1. unfold query at 1. unfold select_id_stock.
  destruct (product_by_name (sales_item f) (conn st)) as [p|];
    [|now apply through_update_stock_refl].
  cbn [option_map].
  destruct (Product.stock p <? qty); [now apply through_update_stock_refl|].
  cbn [when]. unfold ret at 1.
  right. exists (Product.id p), (- qty), (SaleOf qty discount). unfold after.
  destruct (update_stock now (Product.id p) (- qty) (SaleOf qty discount) st)
    as [[[new_stock|]|e] st1]; try reflexivity.
  destruct e; reflexivity.
Qed.

Lemma edit_sale_through now current f st :
  through_update_stock now st (after (edit_sale now current f) st).
Proof.
  unfold after, edit_sale.
  unfold bind at 1. unfold query at 1.
  destruct current as [i|]; cbn [option_map]; [|now apply through_update_stock_refl].
  destruct (nth_error (daily_accessories_sales (conn st)) i) as [s|];
    [|now apply through_update_stock_refl].
  unfold try_except_ValueError, bind, strptime, int, float, int_value, float_value,
    int_times_float.
  destruct (strptime_Ymd (sales_date f)); [|now apply through_update_stock_refl].
  unfold ret at 1.
  destruct (int_literal (sales_quantity f)) as [qty|];
    [|now apply through_update_stock_refl].
  destruct (float_literal (sales_price f)) as [price|];
    [|now apply through_update_stock_refl].
  destruct (float_literal (or_text (sales_discount f) "0")) as [discount|];
    [|now apply through_update_stock_refl].
  destruct ((qty <=? 0) || flt price zero || flt discount zero
            || flt hundred discount); [now apply through_update_stock_refl|].
  cbn [when]. unfold ret at 1.
  destruct (in_float_range qty); [|now apply through_update_stock_refl].
  unfold ret at 1. unfold query at 1. unfold select_quantity_product.
  destruct (sale_by_id (Sale.id s) (conn st)) as [s0|];
    [|now apply through_update_stock_refl].
  cbn [option_map].
  destruct (Sale.quantity s0 - qty =? 0); cbn [negb].
  - left. now destruct (in_int64 qty).
  - right. exists (Sale.product_id s0), (Sale.quantity s0 - qty),
      (SaleEdit (Sale.quantity s0) qty). unfold after.
    destruct (update_stock now (Sale.product_id s0) (Sale.quantity s0 - qty)
                (SaleEdit (Sale.quantity s0) qty) st) as [[o|e] st1];
      [now destruct (in_int64 qty)|].
    destruct e; reflexivity.
Qed.

Lemma delete_sale_through now current reply st :
  through_update_stock now st (after (delete_sale now current reply) st).
Proof.
  unfold after, delete_sale.
  unfold bind at 1. unfold query at 1.
  destruct current as [i|]; cbn [option_map]; [|now apply through_update_stock_refl].
  destruct (nth_error (daily_accessories_sales (conn st)) i) as [s|];
    [|now apply through_update_stock_refl].
  destruct reply; [|now apply through_update_stock_refl].
  unfold bind at 1. unfold update_stock_real.
  destruct (rowid_of_real (Sale.total s)) as [pid|];
    [|now apply through_update_stock_refl].
  right. exists pid, (Sale.quantity s), (SaleDeletion (Sale.quantity s)). unfold after.
  now destruct (update_stock now pid (Sale.quantity s) (SaleDeletion (Sale.quantity s)) st)
    as [[o|e] st1].
Qed.

Lemma write_invoice_through now date customer src sale_id qty discount p st :
  through_update_stock now st
    (snd (write_invoice now date customer src sale_id qty discount p st)).
Proof.
  unfold write_invoice, int_times_float.
  destruct (in_float_range qty); [|left; reflexivity].
  unfold bind at 1. unfold ret at 1. cbv zeta.
  unfold bind at 1. unfold query at 1.
  destruct (0 <? count_invoice_number (invoice_number_of now) (conn st));
    cbn [when]; unfold bind at 1; [left; reflexivity | unfold ret at 1].
  destruct (is_nan _ || is_nan _ || is_nan _); cbn [when];
    unfold bind at 1; [left; reflexivity | unfold ret at 1].
  unfold bind at 1. unfold execute at 1.
  unfold bind at 1. unfold query at 1.
  unfold bind at 1. unfold execute at 1.
  cbn [conn shown]. unfold bind at 1.
  destruct src.
  - right. exists (Product.id p), (- qty), (InvoiceIssued (invoice_number_of now)).
    unfold bind at 1.
    match goal with
    | |- context [update_stock ?a ?b ?c ?d ?s] =>
        pose proof (update_stock_same_part a b c d s st eq_refl) as Hsame;
        destruct (update_stock a b c d s) as [[o|e] st1]
    end; exact Hsame.
  - left. reflexivity.
Qed.

Lemma add_invoice_try_through now date customer src sale_id product_name vq vd st :
  through_update_stock now st
    (snd (add_invoice_try now date customer src sale_id product_name vq vd st)).
Proof.
  unfold add_invoice_try.
  unfold bind at 1. unfold strptime.
  destruct (strptime_Ymd date); [unfold ret at 1 | left; reflexivity].
  unfold bind at 1. unfold int.
  destruct (int_value vq) as [qty|]; [|left; reflexivity].
  unfold bind at 1. unfold float.
  destruct (float_value vd) as [discount|]; [|left; reflexivity].
  unfold bind at 1.
  destruct (qty <=? 0); cbn [when]; [left; reflexivity | unfold ret at 1].
  unfold bind at 1.
  destruct (flt discount zero || flt hundred discount); cbn [when];
    [left; reflexivity | unfold ret at 1].
  unfold bind at 1. unfold query at 1. unfold select_id_price_stock.
  destruct (product_by_name product_name (conn st)) as [p|]; cbn [option_map];
    [|left; reflexivity].
  pose proof (write_invoice_through now date customer src sale_id qty discount p st)
    as Hrest.
  unfold bind at 1.
  destruct src.
  - destruct (Product.stock p <? qty); cbn [when];
      [left; reflexivity | unfold ret at 1; exact Hrest].
  - destruct sale_id as [sid|]; [|unfold ret at 1; exact Hrest].
    destruct (id_truthy (Some sid)); [|unfold ret at 1; exact Hrest].
    unfold bind at 1. unfold query at 1.
    destruct (select_quantity_product_discount sid (conn st)) as [[[sq sp] sd]|];
      [|left; reflexivity].
    destruct (negb (sp =? Product.id p) || negb (sq =? qty)
              || negb (feq sd discount)); cbn [when];
      [left; reflexivity | unfold ret at 1; exact Hrest].
Qed.

Lemma add_invoice_checked_through now date customer src sale_id product_name vq vd
    required st :
  through_update_stock now st
    (snd (add_invoice_checked now date customer src sale_id product_name vq vd
            required st)).
Proof.
  unfold add_invoice_checked.
  destruct (all_filled required); cbn [negb]; [|left; reflexivity].
  unfold try_except_sqlite3_Error, try_except_ValueError.
  pose proof (add_invoice_try_through now date customer src sale_id product_name
                vq vd st) as H.
  destruct (add_invoice_try now date customer src sale_id product_name vq vd st)
    as [[o|e] st1]; [exact H|].
  destruct e; exact H.
Qed.

Lemma add_invoice_through now f st :
  through_update_stock now st (after (add_invoice now f) st).
Proof.
  unfold after, add_invoice.
  destruct (invoice_source f).
  - apply add_invoice_checked_through.
  - destruct (sale_selector f) as [sid|]; [|left; reflexivity].
    destruct (id_truthy (Some sid)); [|left; reflexivity].
    unfold bind at 1. unfold query at 1.
    destruct (select_item_quantity_discount sid (conn st)) as [[[item q] d]|];
      [|left; reflexivity].
    apply add_invoice_checked_through.
Qed.

Lemma coordinator_step_through now st st' :
  coordinator_step now st st' -> through_update_stock now st st'.
Proof.
  intros [(pid & delta & r & ->) | [(f & ->) | [(current & f & ->)
          | [(current & reply & ->) | (f & ->)]]]].
  - right. now exists pid, delta, r.
  - apply add_sale_through.
  - apply edit_sale_through.
  - apply delete_sale_through.
  - apply add_invoice_through.
Qed.

(** X1. [update_stock], [add_sale], [edit_sale], [delete_sale] and
    [add_invoice] change products and ledger through at most one call of
    [update_stock]: after any of them, whatever its input and outcome,
    products and ledger are as before or as one call of [update_stock]
    leaves them. *)
Theorem coordinators_mutate_through_update_stock now st st' :
  coordinator_step now st st' ->
  stock_part (conn st') = stock_part (conn st) \/
  exists product_id delta r,
    stock_part (conn st')
    = stock_part (conn (after (update_stock now product_id delta r) st)).
Proof. apply coordinator_step_through. Qed.

(** X2. These operations keep stock and ledger in step: for every product
    the difference between stock and ledger sum is the same after as
    before, so if every stock equals its ledger sum before, it does after. *)
Theorem coordinators_keep_drift now st st' :
  coordinator_step now st st' ->
  (forall q, drift_of q (conn st') = drift_of q (conn st)) /\
  ((forall q s, select_stock q (conn st) = Some s ->
                s = sum_changes q (stock_history (conn st))) ->
   forall q s, select_stock q (conn st') = Some s ->
               s = sum_changes q (stock_history (conn st'))).
Proof.
  intros Hstep.
  assert (Hd : forall q, drift_of q (conn st') = drift_of q (conn st)).
  { intros q. destruct (coordinator_step_through _ _ _ Hstep)
      as [H | (pid & delta & r & H)].
    - now apply drift_of_stock_part.
    - rewrite (drift_of_stock_part q _ _ H). apply update_stock_drift. }
  split; [exact Hd|].
  intros Hc q s Hs. specialize (Hd q). unfold drift_of in Hd. rewrite Hs in Hd.
  destruct (select_stock q (conn st)) as [s0|] eqn:Hs0; [|discriminate].
  cbn in Hd. injection Hd as Hd. specialize (Hc q s0 Hs0). lia.
Qed.

(** X3. These operations never make a stock negative: if no product has a
    negative stock before, none has after. *)
Theorem coordinators_keep_stock_nonneg now st st' :
  coordinator_step now st st' ->
  stocks_nonneg (conn st) -> stocks_nonneg (conn st').
Proof.
  intros Hstep Hnn p Hp.
  assert (Hparts : forall pid delta r,
            products (conn (after (update_stock now pid delta r) st))
            = fst (apply_delta now pid delta r (stock_part (conn st)))).
  { intros. unfold after.
    change (products (conn (snd (update_stock now pid delta r st))))
      with (fst (stock_part (conn (snd (update_stock now pid delta r st))))).
    now rewrite update_stock_stock_part. }
  destruct (coordinator_step_through _ _ _ Hstep) as [H | (pid & delta & r & H)].
  - apply Hnn. injection H as H _. now rewrite <- H.
  - injection H as H _. rewrite H, Hparts in Hp.
    exact (apply_delta_nonneg now pid delta r _ _ Hnn p Hp).
Qed.

(** X4. These operations only append to the ledger, and at most one entry:
    the entries written before stay, in their order, at the front. *)
Theorem coordinators_append_to_ledger now st st' :
  coordinator_step now st st' ->
  exists suffix,
    stock_history (conn st') = stock_history (conn st) ++ suffix /\
    (List.length suffix <= 1)%nat.
Proof.
  intros Hstep.
  destruct (coordinator_step_through _ _ _ Hstep) as [H | (pid & delta & r & H)].
  - exists []. injection H as _ H. rewrite H, app_nil_r. split; [reflexivity | cbn; lia].
  - injection H as _ H. rewrite H. unfold after.
    change (stock_history (conn (snd (update_stock now pid delta r st))))
      with (snd (stock_part (conn (snd (update_stock now pid delta r st))))).
    rewrite update_stock_stock_part. apply apply_delta_appends.
Qed.

(** ** Edits, deletions and duplicates *)

(** X5. An edit that keeps the quantity of the sale calls no stock
    mutation: with valid values in the form, [edit_sale] rewrites the row of
    the sale and leaves products, ledger and messages untouched, whether or
    not the product of the sale still exists. *)
Theorem edit_sale_same_quantity now i f st s s0 price discount :
  nth_error (daily_accessories_sales (conn st)) i = Some s ->
  sale_by_id (Sale.id s) (conn st) = Some s0 ->
  edit_request f (Sale.quantity s0) price discount ->
  edit_sale now (Some i) f st
  = (Return tt,
     mkapp (update_sale (sales_date f) (sales_item f) (Sale.quantity s0) price
              discount (line_total (Sale.quantity s0) price discount)
              (Sale.product_id s0) (Sale.id s) (conn st))
           (shown st)).
Proof.
  intros Hs Hsid (Hdate & Hq & Hpr & Hd & Hq0 & Hp0 & Hd0 & Hd100 & Hrange & Hint).
  unfold edit_sale.
  unfold bind at 1. unfold query at 1. cbn [option_map]. rewrite Hs.
  unfold try_except_ValueError, bind, strptime, int, float, int_value, float_value,
    int_times_float.
  rewrite Hdate, Hq, Hpr, Hd, Hrange. unfold ret at 1.
  replace (Sale.quantity s0 <=? 0) with false by (symmetry; apply Z.leb_gt; lia).
  rewrite Hp0, Hd0, Hd100.
  cbn [orb when]. unfold ret at 1 2. unfold query at 1. unfold select_quantity_product.
  rewrite Hsid. cbn [option_map]. rewrite Z.sub_diag, Hint. reflexivity.
Qed.

(** X6. When the product of a sale is gone, an edit that changes the
    quantity fails before it writes: [update_stock] finds no row, the
    [TypeError] leaves [edit_sale], and the state is as before. *)
Theorem edit_sale_of_missing_product now i f st s s0 qty price discount :
  nth_error (daily_accessories_sales (conn st)) i = Some s ->
  sale_by_id (Sale.id s) (conn st) = Some s0 ->
  edit_request f qty price discount ->
  qty <> Sale.quantity s0 ->
  product_by_id (Sale.product_id s0) (conn st) = None ->
  edit_sale now (Some i) f st = (Raise TypeError, st).
Proof.
  intros Hs Hsid (Hdate & Hq & Hpr & Hd & Hq0 & Hp0 & Hd0 & Hd100 & Hrange & Hint) Hne
    Hgone.
  unfold edit_sale.
  unfold bind at 1. unfold query at 1. cbn [option_map]. rewrite Hs.
  unfold try_except_ValueError, bind, strptime, int, float, int_value, float_value,
    int_times_float.
  rewrite Hdate, Hq, Hpr, Hd, Hrange. unfold ret at 1.
  replace (qty <=? 0) with false by (symmetry; apply Z.leb_gt; lia).
  rewrite Hp0, Hd0, Hd100.
  cbn [orb when]. unfold ret at 1 2. unfold query at 1. unfold select_quantity_product.
  rewrite Hsid. cbn [option_map].
  replace (Sale.quantity s0 - qty =? 0) with false by (symmetry; apply Z.eqb_neq; lia).
  cbn [negb]. now rewrite (update_stock_missing _ _ _ _ _ Hgone).
Qed.

Lemma find_id_filter_other (pid q : Z) (l : list Product.t) :
  q <> pid ->
  find (fun p => Product.id p =? q)
       (filter (fun p => negb (Product.id p =? pid)) l)
  = find (fun p => Product.id p =? q) l.
Proof.
  intros Hne. induction l as [|x l IH]; [reflexivity|].
  cbn [filter find].
  destruct (Z.eqb_spec (Product.id x) pid) as [E|_]; cbn [negb].
  - destruct (Z.eqb_spec (Product.id x) q); [congruence | exact IH].
  - cbn [find]. now rewrite IH.
Qed.

Lemma find_id_filter_same (pid : Z) (l : list Product.t) :
  find (fun p => Product.id p =? pid)
       (filter (fun p => negb (Product.id p =? pid)) l) = None.
Proof.
  induction l as [|x l IH]; [reflexivity|].
  cbn [filter]. destruct (Product.id x =? pid) eqn:E; cbn [negb]; [exact IH|].
  cbn [find]. now rewrite E.
Qed.

Lemma entries_of_filter_other (pid q : Z) (h : list History.t) :
  q <> pid ->
  entries_of q (filter (fun e => negb (History.product_id e =? pid)) h)
  = entries_of q h.
Proof.
  intros Hne. unfold entries_of. induction h as [|e h IH]; [reflexivity|].
  cbn [filter].
  destruct (Z.eqb_spec (History.product_id e) pid) as [E|_]; cbn [negb].
  - destruct (Z.eqb_spec (History.product_id e) q); [congruence | exact IH].
  - cbn [filter]. now rewrite IH.
Qed.

Lemma entries_of_filter_same (pid : Z) (h : list History.t) :
  entries_of pid (filter (fun e => negb (History.product_id e =? pid)) h) = [].
Proof.
  unfold entries_of. induction h as [|e h IH]; [reflexivity|].
  cbn [filter]. destruct (History.product_id e =? pid) eqn:E; cbn [negb]; [exact IH|].
  cbn [filter]. now rewrite E.
Qed.

(** X7. A confirmed [delete_product] removes the product and every ledger
    entry of its id, and nothing else: the other products keep their stock
    and their ledger entries, and sales, invoices and invoice items stay,
    also those that refer to the deleted product. *)
Theorem delete_product_cascades i p st :
  nth_error (products (conn st)) i = Some p ->
  let st' := after (delete_product (Some i) true) st in
  select_stock (Product.id p) (conn st') = None /\
  entries_of (Product.id p) (stock_history (conn st')) = [] /\
  (forall q, q <> Product.id p ->
     select_stock q (conn st') = select_stock q (conn st) /\
     entries_of q (stock_history (conn st')) = entries_of q (stock_history (conn st))) /\
  daily_accessories_sales (conn st') = daily_accessories_sales (conn st) /\
  invoices (conn st') = invoices (conn st) /\
  invoice_items (conn st') = invoice_items (conn st).
Proof.
  intros Hp st'.
  assert (E : conn st' = delete_stock_history_of (Product.id p)
                           (delete_products_row (Product.id p) (conn st))).
  { unfold st', after, delete_product.
    unfold bind at 1. unfold query at 1. cbn [option_map]. now rewrite Hp. }
  rewrite E. unfold select_stock, product_by_id.
  cbn [products stock_history delete_stock_history_of delete_products_row
       with_products with_stock_history daily_accessories_sales invoices invoice_items].
  split; [now rewrite find_id_filter_same|].
  split; [apply entries_of_filter_same|].
  split; [|repeat split].
  intros q Hq. split.
  - now rewrite find_id_filter_other.
  - now apply entries_of_filter_other.
Qed.

Lemma add_invoice_number_exists now date customer product_name vq vd required st
    qty discount p :
  all_filled required = true ->
  invoice_request date product_name vq vd (conn st) qty discount p ->
  qty <= Product.stock p ->
  in_float_range qty = true ->
  0 < count_invoice_number (invoice_number_of now) (conn st) ->
  add_invoice_checked now date customer FromStock None product_name vq vd required st
  = (Return tt,
     mkapp (conn st)
           (shown st ++ [MessageBox (InvoiceNumberExists (invoice_number_of now))])).
Proof.
  intros Hfill Hreq Hstock Hrange Hexists.
  unfold add_invoice_checked. rewrite Hfill. cbn [negb].
  unfold try_except_sqlite3_Error, try_except_ValueError.
  rewrite (add_invoice_try_prefix _ _ _ _ _ _ _ _ _ _ _ _ Hreq).
  replace (Product.stock p <? qty) with false by (symmetry; apply Z.ltb_ge; lia).
  cbn [when]. unfold bind at 1. unfold ret at 1.
  unfold write_invoice, int_times_float. rewrite Hrange.
  unfold bind at 1. unfold ret at 1. cbv zeta.
  unfold bind at 1. unfold query at 1.
  apply Z.ltb_lt in Hexists. rewrite Hexists. reflexivity.
Qed.

(** X8. Invoice numbers come from the clock reading, to the second. After
    an invoice from stock has been written, a further valid request from
    stock at the same clock reading is rejected because the invoice number
    exists, and it writes nothing. The amounts of the first invoice are
    numbers, and the quantity of the second converts to a float. *)
Theorem second_invoice_in_same_second now date customer product_name vq vd required
    date2 customer2 product_name2 vq2 vd2 required2 st qty discount p
    qty2 discount2 p2 :
  all_filled required = true ->
  invoice_request date product_name vq vd (conn st) qty discount p ->
  qty <= Product.stock p ->
  amounts_are_numbers qty (Product.sell_price p) discount ->
  count_invoice_number (invoice_number_of now) (conn st) = 0 ->
  NoDup (map Product.id (products (conn st))) ->
  let st1 := snd (add_invoice_checked now date customer FromStock None
                    product_name vq vd required st) in
  all_filled required2 = true ->
  invoice_request date2 product_name2 vq2 vd2 (conn st1) qty2 discount2 p2 ->
  qty2 <= Product.stock p2 ->
  in_float_range qty2 = true ->
  count_invoice_number (invoice_number_of now) (conn st1) = 1 /\
  add_invoice_checked now date2 customer2 FromStock None product_name2 vq2 vd2
    required2 st1
  = (Return tt,
     mkapp (conn st1)
           (shown st1 ++ [MessageBox (InvoiceNumberExists (invoice_number_of now))])).
Proof.
  intros Hfill Hreq Hstock Hnum Hfresh Hnd st1 Hfill2 Hreq2 Hstock2 Hrange2.
  assert (Hid : product_by_id (Product.id p) (conn st) = Some p).
  { apply (product_by_id_of_name _ product_name); [exact Hnd | apply Hreq]. }
  assert (Hcount : count_invoice_number (invoice_number_of now) (conn st1) = 1).
  { unfold st1.
    rewrite (add_invoice_from_stock_run _ _ _ _ _ _ _ _ qty discount p
               Hfill Hreq Hstock Hnum Hfresh Hid).
    cbn [snd conn]. unfold count_invoice_number in *.
    cbn [invoices insert_stock_history with_stock_history update_products_stock
         with_products with_invoice_items with_invoices].
    rewrite filter_app, length_app, Nat2Z.inj_add, Hfresh.
    cbn [filter invoice_row Invoice.invoice_number].
    now rewrite String.eqb_refl. }
  split; [exact Hcount|].
  apply (add_invoice_number_exists _ _ _ _ _ _ _ _ qty2 discount2 p2); try assumption.
  rewrite Hcount. lia.
Qed.

(** *** [delete_invoice] *)

Lemma delete_invoice_run now i inv st :
  nth_error (invoices (conn st)) i = Some inv ->
  Invoice.timestamp inv <> "" ->
  delete_invoice now (Some i) true st
  = (Return tt,
     mkapp (delete_invoice_row (Invoice.id inv)
              (delete_invoice_items (Invoice.id inv) (conn st)))
           (shown st)).
Proof.
  intros Hinv Hts. unfold delete_invoice.
  unfold bind at 1. unfold query at 1. cbn [option_map]. rewrite Hinv.
  unfold bind at 1. unfold query at 1.
  apply truthy_true in Hts. rewrite Hts. reflexivity.
Qed.

Lemma delete_invoice_keeps_stock_aux now i inv st :
  nth_error (invoices (conn st)) i = Some inv ->
  Invoice.timestamp inv <> "" ->
  products (conn (after (delete_invoice now (Some i) true) st)) = products (conn st) /\
  stock_history (conn (after (delete_invoice now (Some i) true) st))
  = stock_history (conn st) /\
  invoices (conn (after (delete_invoice now (Some i) true) st))
  = filter (fun x => negb (Invoice.id x =? Invoice.id inv)) (invoices (conn st)).
Proof.
  intros Hinv Hts. unfold after.
  rewrite (delete_invoice_run now i inv st Hinv Hts). repeat split.
Qed.

(** X9. [delete_invoice] decides whether to give the stock back by the
    truth value of column 7 of the invoice model, which holds the timestamp
    of the invoice. For an invoice with a timestamp, as [add_invoice] writes
    them, a confirmed deletion removes the invoice and its items and leaves
    products, ledger and sales as they are, also when the invoice was made
    from stock. *)
Theorem delete_invoice_keeps_stock now i inv st :
  nth_error (invoices (conn st)) i = Some inv ->
  Invoice.timestamp inv <> "" ->
  let st' := after (delete_invoice now (Some i) true) st in
  products (conn st') = products (conn st) /\
  stock_history (conn st') = stock_history (conn st) /\
  daily_accessories_sales (conn st') = daily_accessories_sales (conn st) /\
  invoices (conn st')
  = filter (fun x => negb (Invoice.id x =? Invoice.id inv)) (invoices (conn st)) /\
  invoice_items (conn st')
  = filter (fun it => negb (InvoiceItem.invoice_id it =? Invoice.id inv))
           (invoice_items (conn st)) /\
  shown st' = shown st.
Proof.
  intros Hinv Hts st'. unfold st', after.
  rewrite (delete_invoice_run now i inv st Hinv Hts). repeat split.
Qed.

Lemma delete_absent_invoice new (l : list Invoice.t) :
  (forall x, In x l -> Invoice.id x < new) ->
  filter (fun x => negb (Invoice.id x =? new)) l = l.
Proof.
  induction l as [|x l IH]; intros H; [reflexivity|].
  cbn [filter]. destruct (Z.eqb_spec (Invoice.id x) new) as [E|_].
  - specialize (H x (or_introl eq_refl)). lia.
  - cbn [negb]. f_equal. apply IH. intros y Hy. apply H. now right.
Qed.

Lemma next_rowid_above seq ids x : In x ids -> x < next_rowid seq ids.
Proof.
  unfold next_rowid. induction ids as [|y ids IH]; intros Hin; [contradiction|].
  cbn [fold_right]. destruct Hin as [->|Hin]; [lia|].
  specialize (IH Hin). lia.
Qed.

(** X10. An invoice from stock, with amounts that are numbers, followed
    by the deletion of that invoice does not give the stock back: the
    invoice is gone, the stock of the product stays lowered by the
    quantity, and its ledger keeps the entry of the invoice and gets no
    entry for the deletion. *)
Theorem invoice_from_stock_then_delete now now' date customer product_name vq vd
    required st qty discount p :
  all_filled required = true ->
  invoice_request date product_name vq vd (conn st) qty discount p ->
  qty <= Product.stock p ->
  amounts_are_numbers qty (Product.sell_price p) discount ->
  count_invoice_number (invoice_number_of now) (conn st) = 0 ->
  NoDup (map Product.id (products (conn st))) ->
  now <> "" ->
  let st1 := snd (add_invoice_checked now date customer FromStock None
                    product_name vq vd required st) in
  let created := List.length (invoices (conn st)) in
  let st2 := after (delete_invoice now' (Some created) true) st1 in
  invoices (conn st2) = invoices (conn st) /\
  select_stock (Product.id p) (conn st2) = Some (Product.stock p - qty) /\
  stock_history (conn st2)
  = stock_history (conn st)
      ++ [History.mk (Product.id p) now (- qty) (InvoiceIssued (invoice_number_of now))].
Proof.
  intros Hfill Hreq Hstock Hnum Hfresh Hnd Hnow st1 created st2.
  assert (Hid : product_by_id (Product.id p) (conn st) = Some p).
  { apply (product_by_id_of_name _ product_name); [exact Hnd | apply Hreq]. }
  pose proof (f_equal snd (add_invoice_from_stock_run now date customer product_name
                             vq vd required st qty discount p
                             Hfill Hreq Hstock Hnum Hfresh Hid)) as E1.
  fold st1 in E1. cbn [snd] in E1.
  set (inv := invoice_row now date customer None qty discount p (conn st)).
  assert (Hinv : nth_error (invoices (conn st1)) created = Some inv).
  { rewrite E1. cbn [snd conn invoices insert_stock_history with_stock_history
                     update_products_stock with_products with_invoice_items
                     with_invoices].
    unfold created.
    rewrite nth_error_app2, Nat.sub_diag; [reflexivity | apply Nat.le_refl]. }
  pose proof (delete_invoice_keeps_stock_aux now' created inv st1 Hinv Hnow) as Hdel.
  fold st2 in Hdel. destruct Hdel as (Hp & Hh & Hi).
  split; [|split].
  - rewrite Hi, E1.
    cbn [snd conn invoices insert_stock_history with_stock_history
         update_products_stock with_products with_invoice_items with_invoices].
    rewrite filter_app. cbn [filter inv invoice_row Invoice.id].
    rewrite Z.eqb_refl. cbn [negb]. rewrite app_nil_r.
    apply delete_absent_invoice. intros x Hx. apply next_rowid_above. now apply in_map.
  - unfold select_stock, product_by_id. rewrite Hp, E1.
    cbn [conn products insert_stock_history with_stock_history
         update_products_stock with_products with_invoice_items with_invoices].
    rewrite find_id_map by (intros x; now destruct (Product.id x =? Product.id p)).
    unfold product_by_id in Hid. rewrite Hid. cbn [option_map].
    now rewrite Z.eqb_refl.
  - rewrite Hh, E1. reflexivity.
Qed.

(** ** Product maintenance *)

Lemma get_input_data_accepts not_negative f st buy_price sell_price stock :
  product_input f buy_price sell_price stock ->
  get_input_data not_negative f st
  = (Return (Some (name_input f, type_selector f, buy_price, sell_price, stock)), st).
Proof.
  intros (Hfill & Hb & Hs & Hk & Hb0 & Hs0 & Hk0).
  unfold get_input_data. rewrite Hfill. cbn [negb].
  unfold try_except_ValueError, bind, float, int, float_value, int_value.
  rewrite Hb, Hs, Hk, Hb0, Hs0.
  replace (stock <? 0) with false by (symmetry; apply Z.ltb_ge; lia).
  reflexivity.
Qed.

Lemma get_input_data_cases not_negative f st :
  (exists buy_price sell_price stock,
     product_input f buy_price sell_price stock /\
     get_input_data not_negative f st
     = (Return (Some (name_input f, type_selector f, buy_price, sell_price, stock)), st))
  \/
  ((~ exists buy_price sell_price stock, product_input f buy_price sell_price stock) /\
   exists st', get_input_data not_negative f st = (Return None, st') /\
               conn st' = conn st).
Proof.
  destruct (all_filled [name_input f; type_selector f; buy_price_input f;
                        sell_price_input f]) eqn:Hfill.
  2:{ right. split.
      - intros (b & s & k & H). destruct H as (H & _). congruence.
      - exists st. unfold get_input_data. now rewrite Hfill. }
  destruct (float_literal (buy_price_input f)) as [b|] eqn:Hb.
  2:{ right. split.
      - intros (b & s & k & H). destruct H as (_ & H & _). congruence.
      - eexists. unfold get_input_data. rewrite Hfill. cbn [negb].
        unfold try_except_ValueError, bind, float, float_value. rewrite Hb.
        split; reflexivity. }
  destruct (float_literal (sell_price_input f)) as [s|] eqn:Hs.
  2:{ right. split.
      - intros (b' & s & k & H). destruct H as (_ & _ & H & _). congruence.
      - eexists. unfold get_input_data. rewrite Hfill. cbn [negb].
        unfold try_except_ValueError, bind, float, float_value. rewrite Hb, Hs.
        split; reflexivity. }
  destruct (int_literal (or_text (stock_input f) "0")) as [k|] eqn:Hk.
  2:{ right. split.
      - intros (b' & s' & k & H). destruct H as (_ & _ & _ & H & _). congruence.
      - eexists. unfold get_input_data. rewrite Hfill. cbn [negb].
        unfold try_except_ValueError, bind, float, int, float_value, int_value.
        rewrite Hb, Hs, Hk. split; reflexivity. }
  destruct (flt b zero || flt s zero || (k <? 0)) eqn:Hneg.
  - right. split.
    + intros (b' & s' & k' & H).
      destruct H as (_ & Hb' & Hs' & Hk' & Hb0 & Hs0 & Hk0).
      rewrite Hb in Hb'. rewrite Hs in Hs'. rewrite Hk in Hk'.
      injection Hb' as <-. injection Hs' as <-. injection Hk' as <-.
      rewrite Hb0, Hs0 in Hneg.
      cbn [orb] in Hneg. apply Z.ltb_lt in Hneg. lia.
    + eexists. unfold get_input_data. rewrite Hfill. cbn [negb].
      unfold try_except_ValueError, bind, float, int, float_value, int_value.
      rewrite Hb, Hs, Hk, Hneg.
      split; reflexivity.
  - left. exists b, s, k.
    apply orb_false_iff in Hneg. destruct Hneg as [Hneg Hk0].
    apply orb_false_iff in Hneg. destruct Hneg as [Hb0 Hs0].
    apply Z.ltb_ge in Hk0.
    assert (Hin : product_input f b s k) by (unfold product_input; repeat split; assumption).
    split; [exact Hin | now apply get_input_data_accepts].
Qed.

Lemma product_input_unique f b s k b' s' k' :
  product_input f b s k -> product_input f b' s' k' -> b' = b /\ s' = s /\ k' = k.
Proof.
  intros (_ & Hb & Hs & Hk & _) (_ & Hb' & Hs' & Hk' & _).
  rewrite Hb in Hb'. rewrite Hs in Hs'. rewrite Hk in Hk'.
  injection Hb' as <-. injection Hs' as <-. injection Hk' as <-. now repeat split.
Qed.






Lemma find_id_app_absent (q : Z) (l1 l2 : list Product.t) :
  find (fun p => Product.id p =? q) l1 = None ->
  find (fun p => Product.id p =? q) (l1 ++ l2) = find (fun p => Product.id p =? q) l2.
Proof.
  induction l1 as [|x l1 IH]; [reflexivity|].
  cbn [find app]. destruct (Product.id x =? q); [discriminate | exact IH].
Qed.

Lemma find_id_app_present (q : Z) (l1 l2 : list Product.t) (p : Product.t) :
  find (fun p => Product.id p =? q) l1 = Some p ->
  find (fun p => Product.id p =? q) (l1 ++ l2) = Some p.
Proof.
  induction l1 as [|x l1 IH]; [discriminate|].
  cbn [find app]. destruct (Product.id x =? q); [trivial | exact IH].
Qed.

Lemma find_id_above (new : Z) (l : list Product.t) :
  (forall p, In p l -> Product.id p < new) ->
  find (fun p => Product.id p =? new) l = None.
Proof.
  intros H. destruct (find _ l) as [p|] eqn:E; [|reflexivity].
  pose proof (find_id_sound _ _ _ E) as Hid. apply find_some in E.
  destruct E as [Hin _]. specialize (H p Hin). lia.
Qed.

Lemma add_product_accepts already_exists not_negative now f b buy_price sell_price stock :
  product_input f buy_price sell_price stock ->
  storable buy_price sell_price stock ->
  product_by_name (name_input f) (dbx b) = None ->
  let id := next_rowid (products_seq b) (map Product.id (products (dbx b))) in
  let row := Product.mk id (name_input f) (type_selector f) (real_column buy_price)
                        (real_column sell_price) now stock in
  add_product already_exists not_negative now f b
  = (Return tt,
     mkbooks
       (mkapp
          (with_stock_history
             (stock_history (dbx b)
                ++ (if 0 <? stock then [History.mk id now stock InitialStock] else []))
             (with_products (products (dbx b) ++ [row]) (dbx b)))
          (shown (core b)))
       id (damaged_products b) (damaged_seq b)).
Proof.
  intros Hin (Hint & Hnb & Hns) Hfree id row. subst id row.
  destruct b as [st ps dp ds]. unfold dbx in *. cbn [core products_seq damaged_products
                                                      damaged_seq] in *.
  unfold add_product.
  unfold bindx at 1. unfold on_core at 1. cbn [core].
  rewrite (get_input_data_accepts not_negative f st _ _ _ Hin).
  cbn [products_seq damaged_products damaged_seq].
  rewrite Hint, Hnb, Hns. cbn [negb orb].
  unfold bindx at 1. unfold on_core at 1. unfold query at 1. cbn [core].
  rewrite Hfree. cbn [products_seq damaged_products damaged_seq].
  unfold bindx at 1. unfold executex at 1.
  unfold bindx at 1. unfold queryx at 1.
  unfold bindx at 1. unfold insert_product, dbx.
  cbn [core products_seq damaged_products damaged_seq conn shown].
  destruct (0 <? stock).
  - reflexivity.
  - unfold retx at 1. unfold on_core, commit, ret.
    cbn [core products_seq damaged_products damaged_seq conn shown].
    rewrite app_nil_r. now destruct st as [[ps0 h0 s0 i0 ii0 sq0 iq0] sh].
Qed.

Lemma add_product_overflow already_exists not_negative now f b buy_price sell_price stock :
  product_input f buy_price sell_price stock ->
  in_int64 stock = false ->
  add_product already_exists not_negative now f b = (Raise OverflowError, b).
Proof.
  intros Hin Hint.
  destruct b as [st ps dp ds].
  unfold add_product.
  unfold bindx at 1. unfold on_core at 1. cbn [core].
  rewrite (get_input_data_accepts not_negative f st _ _ _ Hin).
  cbn [products_seq damaged_products damaged_seq].
  rewrite Hint. reflexivity.
Qed.

Lemma add_product_rejects already_exists not_negative now f b :
  (~ exists buy_price sell_price stock, product_input f buy_price sell_price stock)
  \/ product_by_name (name_input f) (dbx b) <> None
  \/ (exists buy_price sell_price stock,
        product_input f buy_price sell_price stock /\
        ~ storable buy_price sell_price stock) ->
  dbx (afterx (add_product already_exists not_negative now f) b) = dbx b /\
  products_seq (afterx (add_product already_exists not_negative now f) b)
  = products_seq b /\
  damaged_products (afterx (add_product already_exists not_negative now f) b)
  = damaged_products b.
Proof.
  intros Hbad.
  remember (afterx (add_product already_exists not_negative now f) b) as b' eqn:Hb.
  destruct b as [st ps dp ds]. unfold dbx in *.
  cbn [core products_seq damaged_products damaged_seq] in *.
  unfold afterx, add_product in Hb.
  unfold bindx at 1 in Hb. unfold on_core at 1 in Hb. cbn [core] in Hb.
  destruct (get_input_data_cases not_negative f st)
    as [(bp & sp & k & Hin & E) | (_ & st' & E & Hconn)]; rewrite E in Hb.
  - cbn [products_seq damaged_products damaged_seq] in Hb.
    destruct (in_int64 k) eqn:Hint; cbn [negb] in Hb; [|subst b'; now repeat split].
    destruct (is_nan bp) eqn:Hnb; cbn [orb] in Hb; [subst b'; now repeat split|].
    destruct (is_nan sp) eqn:Hns; cbn [orb] in Hb; [subst b'; now repeat split|].
    unfold bindx at 1 in Hb. unfold on_core at 1 in Hb. unfold query at 1 in Hb.
    cbn [core products_seq damaged_products damaged_seq] in Hb.
    destruct (product_by_name (name_input f) (conn st)) eqn:Hname;
      [subst b'; now repeat split|].
    exfalso. destruct Hbad as [Hno | [Htaken | (b1 & s1 & k1 & Hin1 & Hst)]].
    + apply Hno. now exists bp, sp, k.
    + now apply Htaken.
    + destruct (product_input_unique _ _ _ _ _ _ _ Hin Hin1) as (-> & -> & ->).
      apply Hst. now repeat split.
  - subst b'. cbn [snd core conn products_seq damaged_products]. now repeat split.
Qed.

(** X12. [add_product] with input that passes the checks of the form, can
    be stored (the stock is a 64-bit integer, no price is NaN) and carries
    a name no product has appends the product under an id above every id in
    the table, and writes an "Initial stock" entry exactly when the stock
    is positive; if the ledger holds no entry of that id, the stock of the
    new product equals its ledger sum, and stock and ledger of the other
    products are as before. With input that fails the checks of the form,
    with a name that exists, or with values that cannot be stored, nothing
    is written; a stock outside the 64-bit integers leaves [add_product]
    with [OverflowError]. *)
Theorem add_product_initial_stock already_exists not_negative now f b :
  let b' := afterx (add_product already_exists not_negative now f) b in
  let id := next_rowid (products_seq b) (map Product.id (products (dbx b))) in
  (forall buy_price sell_price stock,
     product_input f buy_price sell_price stock ->
     storable buy_price sell_price stock ->
     product_by_name (name_input f) (dbx b) = None ->
     products (dbx b')
     = products (dbx b)
         ++ [Product.mk id (name_input f) (type_selector f) (real_column buy_price)
                        (real_column sell_price) now stock] /\
     stock_history (dbx b')
     = stock_history (dbx b)
         ++ (if 0 <? stock then [History.mk id now stock InitialStock] else []) /\
     (forall p, In p (products (dbx b)) -> Product.id p < id) /\
     (entries_of id (stock_history (dbx b)) = [] -> drift_of id (dbx b') = Some 0) /\
     (forall q, q <> id -> drift_of q (dbx b') = drift_of q (dbx b)))
  /\
  ((~ exists buy_price sell_price stock, product_input f buy_price sell_price stock)
   \/ product_by_name (name_input f) (dbx b) <> None
   \/ (exists buy_price sell_price stock,
         product_input f buy_price sell_price stock /\
         ~ storable buy_price sell_price stock) ->
   dbx b' = dbx b /\ products_seq b' = products_seq b)
  /\
  (forall buy_price sell_price stock,
     product_input f buy_price sell_price stock ->
     in_int64 stock = false ->
     add_product already_exists not_negative now f b = (Raise OverflowError, b)).
Proof.
  intros b' id. split; [|split].
  - intros bp sp k Hin Hst Hfree.
    assert (Hk0 : 0 <= k) by apply Hin.
    assert (E : dbx b' = _)
      by (unfold b', afterx;
          rewrite (add_product_accepts already_exists not_negative now f b bp sp k
                     Hin Hst Hfree); reflexivity).
    fold id in E. rewrite E.
    assert (Habove : forall p, In p (products (dbx b)) -> Product.id p < id).
    { intros p Hp. apply next_rowid_above. now apply in_map. }
    unfold dbx in *.
    cbn [snd core conn products stock_history with_stock_history with_products].
    split; [reflexivity|]. split; [reflexivity|]. split; [exact Habove|].
    split.
    + intros Hnone. unfold drift_of, select_stock, product_by_id.
      cbn [snd core conn products stock_history with_stock_history with_products].
      rewrite find_id_app_absent by now apply find_id_above.
      cbn [find Product.id]. rewrite Z.eqb_refl. cbn [option_map Product.stock].
      rewrite sum_changes_app.
      replace (sum_changes id (stock_history (conn (core b)))) with 0
        by (rewrite sum_changes_entries, Hnone; reflexivity).
      destruct (Z.ltb_spec 0 k).
      * rewrite sum_changes_one. simpl. rewrite Z.eqb_refl. f_equal. lia.
      * cbn. f_equal. lia.
    + intros q Hq. unfold drift_of, select_stock, product_by_id.
      cbn [snd core conn products stock_history with_stock_history with_products].
      rewrite sum_changes_app.
      replace (sum_changes q (if 0 <? k then [History.mk id now k InitialStock] else []))
        with 0.
      2:{ destruct (0 <? k); [|reflexivity]. rewrite sum_changes_one. simpl.
          destruct (Z.eqb_spec id q); [congruence | reflexivity]. }
      rewrite Z.add_0_r.
      destruct (find (fun p => Product.id p =? q) (products (conn (core b))))
        as [p|] eqn:Hf.
      * now rewrite (find_id_app_present _ _ _ _ Hf).
      * rewrite (find_id_app_absent _ _ _ Hf). simpl.
        destruct (Z.eqb_spec id q); [congruence | reflexivity].
  - intros Hbad.
    destruct (add_product_rejects already_exists not_negative now f b Hbad)
      as (H1 & H2 & _).
    now split.
  - intros bp sp k. apply add_product_overflow.
Qed.

(** ** Damage reports *)

Lemma add_damage_accepts damaged_units now f b qty p :
  damage_request f (dbx b) qty p ->
  product_by_id (Product.id p) (dbx b) = Some p ->
  add_damage damaged_units now f b
  = (Return tt,
     mkbooks
       (mkapp (insert_stock_history (Product.id p) now (- qty) (damaged_units qty)
                 (update_products_stock (Product.stock p + - qty) now (Product.id p)
                    (dbx b)))
              (if Product.stock p + - qty <=? 5
               then shown (core b)
                      ++ [LowStockSignal (Product.name p) (Product.stock p + - qty)]
               else shown (core b)))
       (products_seq b)
       (damaged_products b
          ++ [Damage.mk (next_rowid (damaged_seq b) (map Damage.id (damaged_products b)))
                        (damage_date f) (damage_product f) qty (Product.id p) 0])
       (next_rowid (damaged_seq b) (map Damage.id (damaged_products b)))).
Proof.
  intros (Hfill & Hdate & Hq & Hq0 & Hname & Hstock) Hid.
  destruct b as [st ps dp ds]. unfold dbx in *.
  cbn [core products_seq damaged_products damaged_seq] in *.
  unfold add_damage. rewrite Hfill. cbn [negb].
  unfold try_except_ValueError_x.
  unfold bindx at 1. unfold on_core at 1. cbn [core]. unfold strptime. rewrite Hdate.
  unfold ret at 1. cbn [products_seq damaged_products damaged_seq].
  unfold bindx at 1. unfold on_core at 1. cbn [core]. unfold int, int_value. rewrite Hq.
  cbn [products_seq damaged_products damaged_seq].
  unfold bindx at 1. unfold on_core at 1. cbn [core].
  replace (qty <=? 0) with false by (symmetry; apply Z.leb_gt; lia).
  cbn [when]. unfold ret at 1. cbn [products_seq damaged_products damaged_seq].
  unfold bindx at 1. unfold on_core at 1. cbn [core]. unfold query at 1.
  unfold select_id_stock. rewrite Hname.
  cbn [option_map products_seq damaged_products damaged_seq].
  unfold bindx at 1. unfold on_core at 1. cbn [core].
  replace (Product.stock p <? qty) with false by (symmetry; apply Z.ltb_ge; lia).
  cbn [when]. unfold ret at 1. cbn [products_seq damaged_products damaged_seq].
  unfold bindx at 1. unfold on_core at 1. cbn [core].
  rewrite (update_stock_found _ _ _ _ _ _ Hid). cbv zeta.
  replace (Product.stock p + - qty <? 0) with false by (symmetry; apply Z.ltb_ge; lia).
  cbn [products_seq damaged_products damaged_seq].
  unfold bindx at 1. unfold executex at 1. unfold insert_damage.
  cbn [core products_seq damaged_products damaged_seq].
  reflexivity.
Qed.

Lemma add_damage_rejects damaged_units now f b :
  (~ exists qty p, damage_request f (dbx b) qty p) ->
  dbx (afterx (add_damage damaged_units now f) b) = dbx b /\
  damaged_products (afterx (add_damage damaged_units now f) b) = damaged_products b.
Proof.
  intros Hno.
  remember (afterx (add_damage damaged_units now f) b) as b' eqn:Hb.
  destruct b as [st ps dp ds]. unfold dbx in *.
  cbn [core products_seq damaged_products damaged_seq] in *.
  unfold afterx, add_damage in Hb.
  destruct (all_filled _) eqn:Hfill; cbn [negb] in Hb; [|subst b'; now split].
  unfold try_except_ValueError_x in Hb.
  unfold bindx at 1 in Hb. unfold on_core at 1 in Hb. cbn [core] in Hb.
  unfold strptime in Hb.
  destruct (strptime_Ymd (damage_date f)) eqn:Hdate; [|subst b'; now split].
  unfold ret at 1 in Hb. cbn [products_seq damaged_products damaged_seq] in Hb.
  unfold bindx at 1 in Hb. unfold on_core at 1 in Hb. cbn [core] in Hb.
  unfold int, int_value in Hb.
  destruct (int_literal (damage_quantity f)) as [qty|] eqn:Hq; [|subst b'; now split].
  cbn [products_seq damaged_products damaged_seq] in Hb.
  unfold bindx at 1 in Hb. unfold on_core at 1 in Hb. cbn [core] in Hb.
  destruct (Z.leb_spec qty 0) as [|Hq0]; cbn [when] in Hb; [subst b'; now split|].
  unfold ret at 1 in Hb. cbn [products_seq damaged_products damaged_seq] in Hb.
  unfold bindx at 1 in Hb. unfold on_core at 1 in Hb. cbn [core] in Hb.
  unfold query at 1 in Hb. unfold select_id_stock in Hb.
  destruct (product_by_name (damage_product f) (conn st)) as [p|] eqn:Hname;
    cbn [option_map products_seq damaged_products damaged_seq] in Hb;
    [|subst b'; now split].
  unfold bindx at 1 in Hb. unfold on_core at 1 in Hb. cbn [core] in Hb.
  destruct (Z.ltb_spec (Product.stock p) qty) as [|Hstock]; cbn [when] in Hb;
    [subst b'; now split|].
  exfalso. apply Hno. exists qty, p. unfold damage_request. repeat split; assumption.
Qed.

(** X13. A report of damage that passes validation (fields filled, valid
    date, quantity > 0, an existing named product, stock >= quantity) lowers
    the stock of that product by the quantity, writes one ledger entry of
    [- quantity] and appends one damage record that is not replaced. A
    report that fails validation changes neither the database nor the damage
    table. Product ids are unique. *)
Theorem add_damage_validated damaged_units now f b :
  NoDup (map Product.id (products (dbx b))) ->
  let b' := afterx (add_damage damaged_units now f) b in
  (forall qty p,
     damage_request f (dbx b) qty p ->
     select_stock (Product.id p) (dbx b') = Some (Product.stock p - qty) /\
     stock_history (dbx b')
     = stock_history (dbx b)
         ++ [History.mk (Product.id p) now (- qty) (damaged_units qty)] /\
     exists d,
       damaged_products b' = damaged_products b ++ [d] /\
       Damage.quantity d = qty /\ Damage.product_id d = Product.id p /\
       Damage.product_name d = damage_product f /\ Damage.replaced d = 0)
  /\
  ((~ exists qty p, damage_request f (dbx b) qty p) ->
   dbx b' = dbx b /\ damaged_products b' = damaged_products b).
Proof.
  intros Hnd b'. split; [|apply add_damage_rejects].
  intros qty p Hreq.
  assert (Hid : product_by_id (Product.id p) (dbx b) = Some p).
  { apply (product_by_id_of_name _ (damage_product f)); [exact Hnd | apply Hreq]. }
  unfold b', afterx. rewrite (add_damage_accepts damaged_units now f b qty p Hreq Hid).
  cbn [snd]. unfold dbx in *. cbn [core conn damaged_products].
  split; [|split].
  - unfold select_stock.
    rewrite product_by_id_insert_history, product_by_id_update, Hid.
    cbn [option_map]. now rewrite Z.eqb_refl.
  - reflexivity.
  - eexists. split; [reflexivity|]. repeat split.
Qed.


Lemma replace_damage_run already_replaced replaced_units now i b d p :
  nth_error (damaged_products b) i = Some d ->
  Damage.replaced d <> 1 ->
  product_by_id (Damage.product_id d) (dbx b) = Some p ->
  0 <= Product.stock p + Damage.quantity d ->
  replace_damage replaced_units already_replaced now (Some i) true b
  = (Return tt,
     mkbooks
       (mkapp (insert_stock_history (Damage.product_id d) now (Damage.quantity d)
                 (replaced_units (Damage.quantity d))
                 (update_products_stock (Product.stock p + Damage.quantity d) now
                    (Damage.product_id d) (dbx b)))
              (if Product.stock p + Damage.quantity d <=? 5
               then shown (core b)
                      ++ [LowStockSignal (Product.name p)
                                         (Product.stock p + Damage.quantity d)]
               else shown (core b)))
       (products_seq b)
       (damaged_products (set_replaced (Damage.id d) b))
       (damaged_seq b)).
Proof.
  intros Hd Hrep Hp Hnn. destruct b as [st ps dp ds]. unfold dbx in *.
  cbn [core products_seq damaged_products damaged_seq] in *.
  unfold replace_damage. unfold bindx at 1. unfold queryx at 1.
  cbn [option_map damaged_products]. rewrite Hd.
  replace (Damage.replaced d =? 1) with false by (symmetry; now apply Z.eqb_neq).
  unfold bindx at 1. unfold on_core at 1. cbn [core].
  rewrite (update_stock_found _ _ _ _ _ _ Hp). cbv zeta.
  replace (Product.stock p + Damage.quantity d <? 0) with false
    by (symmetry; apply Z.ltb_ge; lia).
  reflexivity.
Qed.

Lemma delete_damage_unreplaced deleted_damage_entry now i b d p :
  nth_error (damaged_products b) i = Some d ->
  Damage.replaced d = 0 ->
  product_by_id (Damage.product_id d) (dbx b) = Some p ->
  0 <= Product.stock p + Damage.quantity d ->
  delete_damage deleted_damage_entry now (Some i) true b
  = (Return tt,
     mkbooks
       (mkapp (insert_stock_history (Damage.product_id d) now (Damage.quantity d)
                 (deleted_damage_entry (Damage.quantity d))
                 (update_products_stock (Product.stock p + Damage.quantity d) now
                    (Damage.product_id d) (dbx b)))
              (if Product.stock p + Damage.quantity d <=? 5
               then shown (core b)
                      ++ [LowStockSignal (Product.name p)
                                         (Product.stock p + Damage.quantity d)]
               else shown (core b)))
       (products_seq b)
       (damaged_products (delete_damage_row (Damage.id d) b))
       (damaged_seq b)).
Proof.
  intros Hd Hrep Hp Hnn. destruct b as [st ps dp ds]. unfold dbx in *.
  cbn [core products_seq damaged_products damaged_seq] in *.
  unfold delete_damage. unfold bindx at 1. unfold queryx at 1.
  cbn [option_map damaged_products]. rewrite Hd, Hrep. cbn [Z.eqb].
  unfold bindx at 1. unfold bindx at 1. unfold on_core at 1. cbn [core].
  rewrite (update_stock_found _ _ _ _ _ _ Hp). cbv zeta.
  replace (Product.stock p + Damage.quantity d <? 0) with false
    by (symmetry; apply Z.ltb_ge; lia).
  reflexivity.
Qed.

Lemma delete_damage_replaced deleted_damage_entry now i b d :
  nth_error (damaged_products b) i = Some d ->
  Damage.replaced d <> 0 ->
  delete_damage deleted_damage_entry now (Some i) true b
  = (Return tt,
     mkbooks (mkapp (dbx b) (shown (core b))) (products_seq b)
             (damaged_products (delete_damage_row (Damage.id d) b))
             (damaged_seq b)).
Proof.
  intros Hd Hrep. destruct b as [st ps dp ds]. unfold dbx in *.
  cbn [core products_seq damaged_products damaged_seq] in *.
  unfold delete_damage. unfold bindx at 1. unfold queryx at 1.
  cbn [option_map damaged_products]. rewrite Hd.
  replace (Damage.replaced d =? 0) with false by (symmetry; now apply Z.eqb_neq).
  now destruct st.
Qed.

Lemma nth_error_flagged damage_id (l : list Damage.t) i d :
  nth_error l i = Some d -> Damage.id d = damage_id ->
  nth_error (map (fun x => if Damage.id x =? damage_id
                           then Damage.mk (Damage.id x) (Damage.date x)
                                          (Damage.product_name x) (Damage.quantity x)
                                          (Damage.product_id x) 1
                           else x) l) i
  = Some (Damage.mk (Damage.id d) (Damage.date d) (Damage.product_name d)
                    (Damage.quantity d) (Damage.product_id d) 1).
Proof.
  intros Hd Hid. rewrite nth_error_map, Hd. cbn [option_map].
  now rewrite Hid, Z.eqb_refl.
Qed.


Lemma delete_absent_damage new (l : list Damage.t) :
  (forall x, In x l -> Damage.id x < new) ->
  filter (fun x => negb (Damage.id x =? new)) l = l.
Proof.
  induction l as [|x l IH]; intros H; [reflexivity|].
  cbn [filter]. destruct (Z.eqb_spec (Damage.id x) new) as [E|_].
  - specialize (H x (or_introl eq_refl)). lia.
  - cbn [negb]. f_equal. apply IH. intros y Hy. apply H. now right.
Qed.

Lemma delete_appended_damage (l : list Damage.t) seq date product qty prod_id flag :
  filter (fun x => negb (Damage.id x =? next_rowid seq (map Damage.id l)))
         (l ++ [Damage.mk (next_rowid seq (map Damage.id l)) date product qty
                          prod_id flag])
  = l.
Proof.
  rewrite filter_app. cbn [filter Damage.id]. rewrite Z.eqb_refl. cbn [negb].
  rewrite app_nil_r. apply delete_absent_damage.
  intros x Hx. apply next_rowid_above. now apply in_map.
Qed.

Lemma flag_absent_damage new (l : list Damage.t) :
  (forall x, In x l -> Damage.id x < new) ->
  map (fun x => if Damage.id x =? new
                then Damage.mk (Damage.id x) (Damage.date x) (Damage.product_name x)
                               (Damage.quantity x) (Damage.product_id x) 1
                else x) l
  = l.
Proof.
  induction l as [|x l IH]; intros H; [reflexivity|].
  cbn [map]. destruct (Z.eqb_spec (Damage.id x) new) as [E|_].
  - specialize (H x (or_introl eq_refl)). lia.
  - f_equal. apply IH. intros y Hy. apply H. now right.
Qed.

Lemma select_stock_twice q pid n1 t1 n2 t2 db p :
  product_by_id pid db = Some p ->
  option_map Product.stock
    (product_by_id q
       (update_products_stock n2 t2 pid (update_products_stock n1 t1 pid db)))
  = option_map (fun x => if Product.id x =? pid then n2 else Product.stock x)
               (product_by_id q db).
Proof.
  intros Hp. rewrite !product_by_id_update.
  destruct (product_by_id q db) as [x|]; [|reflexivity].
  cbn [option_map]. f_equal.
  destruct (Product.id x =? pid) eqn:E; cbn [Product.id set_stock]; rewrite E;
    reflexivity.
Qed.

(** X15. A report of damage followed by the deletion of that record gives
    the stock back: with unique product ids, after a valid [add_damage] and
    the confirmed [delete_damage] of the record just appended, every product
    has the stock and the ledger sum it had before, and the damage table is
    as before. *)
Theorem damage_create_delete_roundtrip damaged_units deleted_damage_entry
    now now' f b qty p :
  NoDup (map Product.id (products (dbx b))) ->
  damage_request f (dbx b) qty p ->
  let b1 := afterx (add_damage damaged_units now f) b in
  let created := List.length (damaged_products b) in
  let b2 := afterx (delete_damage deleted_damage_entry now' (Some created) true) b1 in
  (forall q, select_stock q (dbx b2) = select_stock q (dbx b)) /\
  (forall q, sum_changes q (stock_history (dbx b2))
             = sum_changes q (stock_history (dbx b))) /\
  damaged_products b2 = damaged_products b.
Proof.
  intros Hnd Hreq b1 created b2.
  assert (Hid : product_by_id (Product.id p) (dbx b) = Some p).
  { apply (product_by_id_of_name _ (damage_product f)); [exact Hnd | apply Hreq]. }
  assert (Hpos : 0 < qty /\ qty <= Product.stock p).
  { destruct Hreq as (_ & _ & _ & H1 & _ & H2). now split. }
  pose proof (f_equal snd (add_damage_accepts damaged_units now f b qty p Hreq Hid))
    as E1. fold (afterx (add_damage damaged_units now f) b) in E1. fold b1 in E1.
  cbn [snd] in E1.
  set (d := Damage.mk (next_rowid (damaged_seq b) (map Damage.id (damaged_products b)))
                      (damage_date f) (damage_product f) qty (Product.id p) 0) in *.
  assert (Hd : nth_error (damaged_products b1) created = Some d).
  { rewrite E1. cbn [damaged_products]. unfold created.
    rewrite nth_error_app2, Nat.sub_diag; [reflexivity | apply Nat.le_refl]. }
  assert (Hp1 : product_by_id (Damage.product_id d) (dbx b1)
                = Some (set_stock (Product.stock p + - qty) now p)).
  { rewrite E1. unfold dbx in *. cbn [core conn Damage.product_id d].
    rewrite product_by_id_insert_history, product_by_id_update, Hid.
    cbn [option_map]. now rewrite Z.eqb_refl. }
  pose proof (f_equal snd
                (delete_damage_unreplaced deleted_damage_entry now' created b1 d _
                   Hd eq_refl Hp1
                   ltac:(cbn [Product.stock set_stock Damage.quantity d]; lia))) as E2.
  fold (afterx (delete_damage deleted_damage_entry now' (Some created) true) b1) in E2.
  fold b2 in E2. cbn [snd Product.stock set_stock Damage.quantity Damage.product_id
                       Damage.id d] in E2.
  rewrite E2, E1. unfold dbx in *.
  cbn [core conn damaged_products delete_damage_row products_seq damaged_seq].
  split; [|split].
  - intros q. unfold select_stock.
    rewrite product_by_id_insert_history.
    change (product_by_id q
              (update_products_stock ?n2 ?t2 ?pid
                 (insert_stock_history ?a ?b0 ?c ?e
                    (update_products_stock ?n1 ?t1 ?pid ?db))))
      with (product_by_id q
              (update_products_stock n2 t2 pid (update_products_stock n1 t1 pid db))).
    rewrite (select_stock_twice q _ _ _ _ _ _ p Hid).
    destruct (product_by_id q (conn (core b))) as [x|] eqn:Hq; [|reflexivity].
    cbn [option_map]. f_equal.
    destruct (Z.eqb_spec (Product.id x) (Product.id p)) as [E|_]; [|reflexivity].
    pose proof (find_id_sound _ _ _ Hq) as Hq'.
    assert (x = p) by (rewrite <- Hq', E in Hq; congruence). subst x. lia.
  - intros q.
    cbn [stock_history insert_stock_history with_stock_history update_products_stock
         with_products].
    rewrite !sum_changes_app, !sum_changes_one.
    cbn [History.product_id History.quantity_change].
    destruct (Product.id p =? q); lia.
  - apply delete_appended_damage.
Qed.

(** X16. A replaced record gives nothing back when it is deleted: with
    unique product ids, after a valid [add_damage], the confirmed
    [replace_damage] of that record and its confirmed [delete_damage],
    every product has the stock it had before the report, the ledger has
    grown by the entry of the damage and the entry of the replacement and by
    nothing else, and the damage table is as before. *)
Theorem damage_replace_then_delete damaged_units replaced_units deleted_damage_entry
    already_replaced now now' now'' f b qty p :
  NoDup (map Product.id (products (dbx b))) ->
  damage_request f (dbx b) qty p ->
  let b1 := afterx (add_damage damaged_units now f) b in
  let created := List.length (damaged_products b) in
  let b2 := afterx (replace_damage replaced_units already_replaced now'
                      (Some created) true) b1 in
  let b3 := afterx (delete_damage deleted_damage_entry now'' (Some created) true) b2 in
  (forall q, select_stock q (dbx b3) = select_stock q (dbx b)) /\
  stock_history (dbx b3)
  = stock_history (dbx b)
      ++ [History.mk (Product.id p) now (- qty) (damaged_units qty);
          History.mk (Product.id p) now' qty (replaced_units qty)] /\
  damaged_products b3 = damaged_products b.
Proof.
  intros Hnd Hreq b1 created b2 b3.
  assert (Hid : product_by_id (Product.id p) (dbx b) = Some p).
  { apply (product_by_id_of_name _ (damage_product f)); [exact Hnd | apply Hreq]. }
  assert (Hpos : 0 < qty /\ qty <= Product.stock p).
  { destruct Hreq as (_ & _ & _ & H1 & _ & H2). now split. }
  pose proof (f_equal snd (add_damage_accepts damaged_units now f b qty p Hreq Hid))
    as E1. fold (afterx (add_damage damaged_units now f) b) in E1. fold b1 in E1.
  cbn [snd] in E1.
  set (new := next_rowid (damaged_seq b) (map Damage.id (damaged_products b))) in *.
  set (d := Damage.mk new (damage_date f) (damage_product f) qty (Product.id p) 0) in *.
  assert (Hd : nth_error (damaged_products b1) created = Some d).
  { rewrite E1. cbn [damaged_products]. unfold created.
    rewrite nth_error_app2, Nat.sub_diag; [reflexivity | apply Nat.le_refl]. }
  assert (Hp1 : product_by_id (Damage.product_id d) (dbx b1)
                = Some (set_stock (Product.stock p + - qty) now p)).
  { rewrite E1. unfold dbx in *. cbn [core conn Damage.product_id d].
    rewrite product_by_id_insert_history, product_by_id_update, Hid.
    cbn [option_map]. now rewrite Z.eqb_refl. }
  pose proof (f_equal snd
                (replace_damage_run already_replaced replaced_units now' created b1 d _
                   Hd ltac:(discriminate) Hp1
                   ltac:(cbn [Product.stock set_stock Damage.quantity d]; lia))) as E2.
  fold (afterx (replace_damage replaced_units already_replaced now' (Some created) true)
          b1) in E2.
  fold b2 in E2. cbn [snd Product.stock set_stock Damage.quantity Damage.product_id
                       Damage.id d] in E2.
  assert (Hd2 : nth_error (damaged_products b2) created
                = Some (Damage.mk new (damage_date f) (damage_product f) qty
                                  (Product.id p) 1)).
  { rewrite E2. cbn [damaged_products set_replaced].
    now rewrite (nth_error_flagged new _ created d Hd eq_refl). }
  pose proof (f_equal snd
                (delete_damage_replaced deleted_damage_entry now'' created b2 _
                   Hd2 ltac:(discriminate))) as E3.
  fold (afterx (delete_damage deleted_damage_entry now'' (Some created) true) b2) in E3.
  fold b3 in E3. cbn [snd Damage.id] in E3.
  rewrite E3. unfold dbx in *. cbn [core conn damaged_products delete_damage_row].
  rewrite E2. cbn [core conn damaged_products set_replaced].
  rewrite E1. cbn [core conn damaged_products].
  split; [|split].
  - intros q. unfold select_stock.
    rewrite product_by_id_insert_history.
    change (product_by_id q
              (update_products_stock ?n2 ?t2 ?pid
                 (insert_stock_history ?a ?b0 ?c ?e
                    (update_products_stock ?n1 ?t1 ?pid ?db))))
      with (product_by_id q
              (update_products_stock n2 t2 pid (update_products_stock n1 t1 pid db))).
    rewrite (select_stock_twice q _ _ _ _ _ _ p Hid).
    destruct (product_by_id q (conn (core b))) as [x|] eqn:Hq; [|reflexivity].
    cbn [option_map]. f_equal.
    destruct (Z.eqb_spec (Product.id x) (Product.id p)) as [E|_]; [|reflexivity].
    pose proof (find_id_sound _ _ _ Hq) as Hq'.
    assert (x = p) by (rewrite <- Hq', E in Hq; congruence). subst x. lia.
  - cbn [stock_history insert_stock_history with_stock_history update_products_stock
         with_products].
    now rewrite <- app_assoc.
  - rewrite map_app. cbn [map Damage.id]. rewrite Z.eqb_refl.
    rewrite flag_absent_damage
      by (intros x Hx; apply next_rowid_above; now apply in_map).
    apply delete_appended_damage.
Qed.

(** ** Stock and ledger along a session *)








(** ** The filter between searches *)

(** X18. When the pattern compiler returns on the name of the search, or
    the name is empty, [apply_filters] leaves nothing of the previous search
    in force: every criterion is overwritten and the name sets the pattern,
    so the filters after the call, and with them the rows accepted, do not
    depend on the filters before it. When the compiler raises an exception
    other than [re.error], [apply_filters] raises it and leaves the new
    name beside the pattern and the criteria of the previous search. *)
Theorem apply_filters_overwrites_filters filters filters' c :
  (compiles c ->
   apply_filters filters c = apply_filters filters' c /\
   forall row,
     filterAcceptsRow (snd (apply_filters filters c)) row
     = filterAcceptsRow (snd (apply_filters filters' c)) row)
  /\
  (forall x,
     search_name c <> "" ->
     re_compile (search_name c) = CompileRaises x ->
     apply_filters filters c = (Raise x, half_set filters (search_name c))).
Proof.
  split.
  - intros Hc.
    assert (E : apply_filters filters c = apply_filters filters' c)
      by (unfold apply_filters; now rewrite !setFilterCriteria_apply_filters).
    split; [exact E|]. intros row. now rewrite E.
  - intros x Hn Hr. now apply setFilterCriteria_raises.
Qed.

(** X19. A cleared search shows every product: with an empty name, the
    category empty or "All Types", no price or stock bound and no date or
    an empty one, [apply_filters] returns and leaves filters that accept
    every row, whatever the filters were before; with no date they are the
    filters [resetFilters] leaves. *)
Theorem cleared_search_accepts_every_row filters c row :
  search_name c = "" ->
  search_type c = "" \/ search_type c = "All Types" ->
  search_min_buy c = None -> search_max_buy c = None ->
  search_min_sell c = None -> search_max_sell c = None ->
  search_updated_after c = None \/ search_updated_after c = Some "" ->
  search_stock_min c = None -> search_stock_max c = None ->
  fst (apply_filters filters c) = Return tt /\
  filterAcceptsRow (snd (apply_filters filters c)) row = true /\
  (search_updated_after c = None ->
   snd (apply_filters filters c) = resetFilters filters).
Proof.
  intros Hn Ht Hb1 Hb2 Hs1 Hs2 Hd Hm1 Hm2.
  unfold apply_filters.
  rewrite (setFilterCriteria_apply_filters filters c (or_introl Hn)).
  cbn [fst snd]. split; [reflexivity|].
  unfold searched. rewrite Hn, Hb1, Hb2, Hs1, Hs2, Hm1, Hm2.
  assert (Hty : (if truthy (search_type c) && negb (String.eqb (search_type c) "All Types")
                 then search_type c else "") = "")
    by (destruct Ht as [-> | ->]; reflexivity).
  rewrite Hty. cbn [truthy negb].
  split.
  - unfold filterAcceptsRow.
    cbn [Filters.name Filters.type Filters.min_buy Filters.max_buy Filters.min_sell
         Filters.max_sell Filters.updated_after Filters.name_regex Filters.stock_min
         Filters.stock_max truthy negb forallb andb].
    destruct Hd as [-> | ->]; reflexivity.
  - intros ->. reflexivity.
Qed.

End Host.

(** ** The properties at concrete inputs *)


Lemma unique_id_of_one_product (p : Product.t) : NoDup (map Product.id [p]).
Proof. constructor; [intros [] | constructor]. Defined.




Lemma low_stock_signal_iff_witness :
  product_by_id 1 (conn shop) = Some cable /\
  exists evs,
    shown (after (update_stock "2025-01-03 10:00:00" 1 (-5) (SaleOf 5 zero)) shop)
    = shown shop ++ evs /\
    forall name q,
      In (LowStockSignal name q) evs <->
      0 <= 10 + -5 <= 5 /\ name = "Cable" /\ q = 10 + -5.
Proof.
  split; [reflexivity|].
  exact (low_stock_signal_iff "2025-01-03 10:00:00" 1 (-5) (SaleOf 5 zero) shop cable eq_refl).
Defined.
Lemma unique_ids_of_two_products :
  NoDup (map Product.id [set_stock 2 "2025-01-02 11:00:00" cable; adapter]).
Proof.
  constructor; [intros [H|[]]; discriminate H|].
  constructor; [intros [] | constructor].
Defined.

Lemma sale_of_three_cables :
  sale_request iso_date decimal_int decimal_float
    (mk_sales_form "2025-01-03" "Cable" "3" "100" "10") (conn shop)
    3 (float_of_Z 100) (float_of_Z 10) cable.
Proof.
  unfold sale_request. repeat split; try reflexivity; try discriminate.
Defined.

Lemma add_sale_validated_witness :
  NoDup (map Product.id (products (conn shop))) /\
  sale_request iso_date decimal_int decimal_float
    (mk_sales_form "2025-01-03" "Cable" "3" "100" "10") (conn shop)
    3 (float_of_Z 100) (float_of_Z 10) cable /\
  select_stock 1
    (conn (after (add_sale iso_date decimal_int decimal_float "2025-01-03 10:00:00"
                    (mk_sales_form "2025-01-03" "Cable" "3" "100" "10")) shop))
  = Some (10 - 3).
Proof.
  split; [apply unique_id_of_one_product|]. split; [exact sale_of_three_cables|].
  exact (proj2 (proj2 (proj1 (add_sale_validated iso_date decimal_int decimal_float
                                "2025-01-03 10:00:00"
                                (mk_sales_form "2025-01-03" "Cable" "3" "100" "10") shop
                                (unique_id_of_one_product _))
                         3 (float_of_Z 100) (float_of_Z 10) cable
                         sale_of_three_cables))).
Defined.

(** C5. A price that is NaN passes the validation of [add_sale]. The form
    asks for three cables at the price "nan", which [float] reads as NaN.
    The source rejects a price with [price < 0], which is false of NaN, as
    [price >= 0] is: the sale is recorded, with a price and a total that
    are NaN and that the table stores as [NULL]; the stock falls from 10 to
    7 and the ledger receives the entry of the sale. *)
Theorem add_sale_accepts_nan_price :
  let now := "2025-01-03 10:00:00" in
  let f := mk_sales_form "2025-01-03" "Cable" "3" "nan" "" in
  let run := add_sale iso_date decimal_int decimal_float now f shop in
  decimal_float (sales_price f) = Some S754_nan /\
  flt S754_nan zero = false /\
  fle zero S754_nan = false /\
  ~ price_and_discount_valid S754_nan zero /\
  fst run = Return tt /\
  shown (snd run) = [] /\
  select_stock 1 (conn shop) = Some 10 /\
  daily_accessories_sales (conn shop) = [] /\
  daily_accessories_sales (conn (snd run))
  = [Sale.mk 1 "2025-01-03" "Cable" 3 S754_nan zero S754_nan 1] /\
  select_stock 1 (conn (snd run)) = Some 7 /\
  stock_history (conn (snd run))
  = stock_history (conn shop) ++ [History.mk 1 now (- 3) (SaleOf 3 zero)].
Proof.
  repeat split. intros (H & _). discriminate H.
Qed.

(** The total of a sale is rounded at each step: for one unit at 0.1 with a
    discount of 10, [subtotal - subtotal * (discount / 100)] is the float
    0.09, while [quantity * price * (1 - discount / 100)] computed in
    floats is 0.09000000000000001. *)
Example sale_total_is_rounded :
  let price := fdiv (float_of_Z 1) (float_of_Z 10) in
  let discount := float_of_Z 10 in
  line_total 1 price discount = S754_finite false 6485183463413514 (-56) /\
  fmul (fmul (float_of_Z 1) price) (fsub (float_of_Z 1) (fdiv discount hundred))
  = S754_finite false 6485183463413515 (-56).
Proof. split; reflexivity. Qed.

(** C7. Three cables are sold at 100 each without discount, and that sale
    is deleted right away. [delete_sale] takes the product id from column 6
    of the sales model, which holds the total (300), not from column 7:
    [update_stock] finds no product 300 and raises, the sale stays in the
    table, and the stock of the cable stays at 7 instead of going back to
    10; the ledger sum stays at 7 as well. *)
Theorem delete_sale_reads_total_as_product :
  let f := mk_sales_form "2025-01-03" "Cable" "3" "100" "" in
  let st1 := after (add_sale iso_date decimal_int decimal_float
                      "2025-01-03 10:00:00" f) shop in
  let run := delete_sale "2025-01-03 10:05:00" (Some 0%nat) true st1 in
  select_stock 1 (conn shop) = Some 10 /\
  sum_changes 1 (stock_history (conn shop)) = 10 /\
  option_map Sale.product_id (nth_error (daily_accessories_sales (conn st1)) 0) = Some 1 /\
  option_map (fun s => rowid_of_real (Sale.total s))
             (nth_error (daily_accessories_sales (conn st1)) 0) = Some (Some 300) /\
  fst run = Raise TypeError /\
  snd run = st1 /\
  select_stock 1 (conn (snd run)) = Some 7 /\
  sum_changes 1 (stock_history (conn (snd run))) = 7 /\
  List.length (daily_accessories_sales (conn (snd run))) = 1%nat.
Proof. repeat split. Qed.

(** C6. The sale of eight cables is edited to twelve while two cables are in
    stock. [update_stock] rejects the compensating delta [8 - 12] and
    changes neither stock nor ledger, yet [edit_sale] goes on and rewrites
    the sale with quantity 12 and total 1200. *)
Theorem edit_sale_commits_after_rejected_delta :
  let f := mk_sales_form "2025-01-03" "Cable" "12" "100" "" in
  let st' := after (edit_sale iso_date decimal_int decimal_float
                      "2025-01-03 10:00:00" (Some 0%nat) f) shop_after_sale in
  shown st' = [MessageBox (InsufficientStock 2)] /\
  products (conn st') = products (conn shop_after_sale) /\
  stock_history (conn st') = stock_history (conn shop_after_sale) /\
  option_map Sale.quantity (sale_by_id 1 (conn shop_after_sale)) = Some 8 /\
  option_map Sale.quantity (sale_by_id 1 (conn st')) = Some 12 /\
  option_map Sale.total (sale_by_id 1 (conn shop_after_sale)) = Some (float_of_Z 800) /\
  option_map Sale.total (sale_by_id 1 (conn st')) = Some (float_of_Z 1200).
Proof. repeat split. Qed.



Lemma invoice_of_edited_sale :
  invoice_request iso_date decimal_int decimal_float "2025-01-04" "Adapter"
    (Int 5) (Float zero) (conn shop_after_edit) 5 zero adapter.
Proof.
  unfold invoice_request. repeat split; try reflexivity; try discriminate.
Defined.

Lemma invoice_of_two_cables_typed :
  invoice_request iso_date decimal_int decimal_float "2025-01-04" "Cable"
    (Text "2") (Text "0") (conn shop) 2 zero cable.
Proof.
  unfold invoice_request. repeat split; try reflexivity; try discriminate.
Defined.

Lemma add_invoice_from_sale_witness :
  all_filled ["2025-01-04"; "Asha"] = true /\
  invoice_request iso_date decimal_int decimal_float "2025-01-04" "Adapter"
    (Int 5) (Float zero) (conn shop_after_edit) 5 zero adapter /\
  add_invoice iso_date decimal_int decimal_float "2025-01-04 12:00:00"
    (mk_invoice_form "2025-01-04" "Asha" FromSale (Some 1) "" "" "") shop_after_edit
  = (Return tt, mkapp (conn shop_after_edit) [MessageBox SaleMismatch]) /\
  select_stock 1
    (conn (after (add_invoice iso_date decimal_int decimal_float "2025-01-04 12:00:00"
                    (mk_invoice_form "2025-01-04" "Asha" FromStock None "Cable" "2" ""))
                 shop))
  = Some (10 - 2).
Proof.
  split; [reflexivity|]. split; [exact invoice_of_edited_sale|]. split.
  - pose proof (add_invoice_from_sale iso_date decimal_int decimal_float
                  "2025-01-04 12:00:00" "2025-01-04" "Asha" "Adapter" (Int 5) (Float zero)
                  ["2025-01-04"; "Asha"] shop_after_edit 5 zero adapter
                  eq_refl invoice_of_edited_sale) as (Hsale & _ & Hform & _).
    rewrite (Hform (mk_invoice_form "2025-01-04" "Asha" FromSale (Some 1) "" "" "")
               1 edited_sale eq_refl eq_refl ltac:(discriminate) eq_refl).
    apply (proj1 (Hsale 1 edited_sale ltac:(discriminate) eq_refl)).
    left. discriminate.
  - pose proof (add_invoice_from_sale iso_date decimal_int decimal_float
                  "2025-01-04 12:00:00" "2025-01-04" "Asha" "Cable" (Text "2") (Text "0")
                  ["2025-01-04"; "Asha"; "Cable"; "2"] shop 2 zero cable
                  eq_refl invoice_of_two_cables_typed) as (_ & Hstock & _ & Hform).
    unfold after.
    rewrite (Hform (mk_invoice_form "2025-01-04" "Asha" FromStock None "Cable" "2" "")
               eq_refl).
    refine (proj1 (proj2 (Hstock _ eq_refl _ (unique_id_of_one_product _)))).
    + discriminate.
    + split; reflexivity.
Defined.

(** C9. A pattern on which the compiler raises an exception other than
    [re.error] leaves the filter half set. After a search for "cab", which
    compiles, and with a minimum stock of 1, the search for
    "a{99999999999}" makes [re.compile] raise [OverflowError]:
    [setFilterCriteria] has stored the new name and is left by the
    exception, with the pattern of "cab" and the minimum stock of the
    previous search still in the filters. The row "Cable" is then accepted,
    through the old pattern, although its lowercased name does not contain
    the query and the query does not compile; the criteria of the search do
    not hold of it. *)
Theorem stale_pattern_after_failed_compile :
  let earlier := mk_criteria "cab" "" None None None None None (Some 1) None in
  let previous := snd (apply_filters string literal_compile lower_ascii
                         (no_filters string) earlier) in
  let c := mk_criteria "a{99999999999}" "" None None None None None None None in
  let run := apply_filters string literal_compile lower_ascii previous c in
  literal_compile (search_name earlier) = Pattern "cab" /\
  literal_compile (search_name c) = CompileRaises OverflowError /\
  fst run = Raise OverflowError /\
  Filters.name (snd run) = "a{99999999999}" /\
  Filters.name_regex (snd run) = Some "cab" /\
  Filters.stock_min (snd run) = Some 1 /\
  contains (lower_ascii (search_name c)) (lower_ascii (Product.name cable)) = false /\
  filterAcceptsRow string literal_search lower_ascii (snd run) cable = true /\
  ~ criteria_hold string literal_compile literal_search lower_ascii c cable.
Proof.
  repeat split.
  intros ([H | [H | (pattern & H & _)]] & _); discriminate H.
Qed.

Lemma filter_accepts_iff_witness :
  let c := mk_criteria "Ca(" "Chargers" None None None None None (Some 1) None in
  search_name c <> "" /\
  literal_compile (search_name c) = re_error /\
  (name_criterion string literal_compile literal_search lower_ascii c cable
   <-> contains (lower_ascii "Ca(") (lower_ascii "Cable") = true).
Proof.
  intros c. split; [discriminate|]. split; [reflexivity|].
  refine (proj2 (proj2 (proj2 (filter_accepts_iff string literal_compile literal_search
                                 lower_ascii (no_filters string) c cable _))
                  ltac:(discriminate) eq_refl)).
  right. intros x. discriminate.
Defined.

(** ** Scenarios of the specification, run on the model *)

(** A product at stock 10; selling 3 at 100 with 10 percent discount gives a
    total of 270 and leaves stock 7. *)
Example sale_scenario :
  let st' := after (add_sale iso_date decimal_int decimal_float "2025-01-03 10:00:00"
                      (mk_sales_form "2025-01-03" "Cable" "3" "100" "10")) shop in
  select_stock 1 (conn st') = Some 7 /\
  map Sale.total (daily_accessories_sales (conn st')) = [float_of_Z 270].
Proof. split; reflexivity. Qed.

(** Stock set to 50 outside the ledger: one pass of [reconcile_stock] writes
    one entry with delta 50 - 10, a second pass writes none. *)
Example reconcile_scenario :
  let st1 := after (reconcile_stock (fun _ => "2025-01-03 10:00:00")) drifted_shop in
  let st2 := after (reconcile_stock (fun _ => "2025-01-04 08:00:00")) st1 in
  stock_history (conn st1)
  = stock_history (conn drifted_shop)
      ++ [History.mk 1 "2025-01-03 10:00:00" 40 StockReconciliation] /\
  st2 = st1.
Proof. split; reflexivity. Qed.

(** Category "Chargers" with a minimum stock of 1 keeps the charger in stock
    and drops the one that is out of stock. *)
Example filter_scenario :
  let c := mk_criteria "" "Chargers" None None None None None (Some 1) None in
  filter (filterAcceptsRow string literal_search lower_ascii
            (snd (apply_filters string literal_compile lower_ascii (no_filters string)
                    c)))
         [empty_charger; adapter]
  = [adapter].
Proof. reflexivity. Qed.

(** When the total of a sale happens to be the id of a product, deleting the
    sale credits that product: two cables sold at 1 each give a total of 2,
    and the deletion adds the two units to product 2. *)
Example delete_sale_credits_product_numbered_by_total :
  let f := mk_sales_form "2025-01-03" "Cable" "2" "1" "" in
  let st1 := after (add_sale iso_date decimal_int decimal_float
                      "2025-01-03 10:00:00" f) stocked_shop in
  let st2 := after (delete_sale "2025-01-03 10:05:00" (Some 0%nat) true) st1 in
  select_stock 1 (conn st1) = Some 8 /\
  select_stock 1 (conn st2) = Some 8 /\
  select_stock 2 (conn st2) = Some 6 /\
  daily_accessories_sales (conn st2) = [].
Proof. repeat split. Qed.

(** A product with an infinite price, which [add_product] accepts, cannot
    be invoiced: the total of the invoice is NaN, the [NOT NULL] column
    refuses it, and [add_invoice] reports a database error and writes
    nothing. *)
Example invoice_of_infinitely_priced_product :
  let gold := Product.mk 1 "Gold" "Chargers" (S754_infinity false) (S754_infinity false)
                         "2025-01-01 09:00:00" 10 in
  let st := mkapp (mkdb [gold] [History.mk 1 "2025-01-01 09:00:00" 10 InitialStock]
                        [] [] [] 0 0) [] in
  is_nan (invoice_total 2 (Product.sell_price gold) zero) = true /\
  add_invoice iso_date decimal_int decimal_float "2025-01-04 12:00:00"
    (mk_invoice_form "2025-01-04" "Asha" FromStock None "Gold" "2" "") st
  = (Return tt, mkapp (conn st) [MessageBox DatabaseError]).
Proof. split; reflexivity. Qed.

(** ** The further properties at concrete inputs *)

Lemma coordinators_mutate_through_update_stock_witness :
  let now := "2025-01-03 10:00:00" in
  let st' := after (add_sale iso_date decimal_int decimal_float now
                      (mk_sales_form "2025-01-03" "Cable" "3" "100" "10")) shop in
  stock_part (conn st') = stock_part (conn shop) \/
  exists product_id delta r,
    stock_part (conn st')
    = stock_part (conn (after (update_stock now product_id delta r) shop)).
Proof.
  intros now st'.
  apply (coordinators_mutate_through_update_stock iso_date decimal_int decimal_float
           now shop st').
  right. left. eexists. reflexivity.
Defined.

Lemma coordinators_keep_drift_witness :
  let st' := after (edit_sale iso_date decimal_int decimal_float "2025-01-03 10:00:00"
                      (Some 0%nat) (mk_sales_form "2025-01-03" "Cable" "12" "100" ""))
                   shop_after_sale in
  shown st' = [MessageBox (InsufficientStock 2)] /\
  drift_of 1 (conn st') = drift_of 1 (conn shop_after_sale) /\
  drift_of 2 (conn st') = drift_of 2 (conn shop_after_sale).
Proof.
  intros st'. split; [reflexivity|].
  assert (Hstep : coordinator_step iso_date decimal_int decimal_float
                    "2025-01-03 10:00:00" shop_after_sale st').
  { right. right. left. eexists. eexists. reflexivity. }
  pose proof (coordinators_keep_drift iso_date decimal_int decimal_float
                "2025-01-03 10:00:00" shop_after_sale st' Hstep) as [Hd _].
  split; apply Hd.
Defined.

Lemma no_negative_stock_in_shop : stocks_nonneg (conn shop_after_sale).
Proof.
  intros p [<- | [<- | []]]; discriminate.
Defined.

Lemma coordinators_keep_stock_nonneg_witness :
  stocks_nonneg (conn shop_after_sale) /\
  stocks_nonneg (conn (after (delete_sale "2025-01-03 10:05:00" (Some 0%nat) true)
                         shop_after_sale)).
Proof.
  split; [exact no_negative_stock_in_shop|].
  apply (coordinators_keep_stock_nonneg iso_date decimal_int decimal_float
           "2025-01-03 10:05:00" shop_after_sale).
  - right. right. right. left. eexists. eexists. reflexivity.
  - exact no_negative_stock_in_shop.
Defined.

Lemma coordinators_append_to_ledger_witness :
  let st' := after (add_invoice iso_date decimal_int decimal_float "2025-01-04 12:00:00"
                      (mk_invoice_form "2025-01-04" "Asha" FromStock None "Cable" "2" "0"))
                   shop in
  exists suffix,
    stock_history (conn st') = stock_history (conn shop) ++ suffix /\
    (List.length suffix <= 1)%nat.
Proof.
  intros st'.
  apply (coordinators_append_to_ledger iso_date decimal_int decimal_float
           "2025-01-04 12:00:00" shop st').
  right. right. right. right. eexists. reflexivity.
Defined.

Lemma edit_price_of_eight_cables :
  edit_request iso_date decimal_int decimal_float
    (mk_sales_form "2025-01-03" "Cable" "8" "90" "") 8 (float_of_Z 90) zero.
Proof.
  unfold edit_request. repeat split; try reflexivity; try discriminate.
Defined.

Lemma edit_sale_same_quantity_witness :
  edit_request iso_date decimal_int decimal_float
    (mk_sales_form "2025-01-03" "Cable" "8" "90" "") 8 (float_of_Z 90) zero /\
  edit_sale iso_date decimal_int decimal_float "2025-01-03 10:00:00" (Some 0%nat)
    (mk_sales_form "2025-01-03" "Cable" "8" "90" "") shop_after_sale
  = (Return tt,
     mkapp (update_sale "2025-01-03" "Cable" 8 (float_of_Z 90) zero
              (line_total 8 (float_of_Z 90) zero) 1 1
              (conn shop_after_sale))
           []).
Proof.
  split; [exact edit_price_of_eight_cables|].
  exact (edit_sale_same_quantity iso_date decimal_int decimal_float "2025-01-03 10:00:00"
           0%nat (mk_sales_form "2025-01-03" "Cable" "8" "90" "") shop_after_sale
           cable_sale cable_sale (float_of_Z 90) zero eq_refl eq_refl edit_price_of_eight_cables).
Defined.

Lemma edit_to_five_cables :
  edit_request iso_date decimal_int decimal_float
    (mk_sales_form "2025-01-03" "Cable" "5" "100" "") 5 (float_of_Z 100) zero.
Proof.
  unfold edit_request. repeat split; try reflexivity; try discriminate.
Defined.

Lemma edit_sale_of_missing_product_witness :
  product_by_id 1 (conn shop_without_cable) = None /\
  edit_sale iso_date decimal_int decimal_float "2025-01-03 10:00:00" (Some 0%nat)
    (mk_sales_form "2025-01-03" "Cable" "5" "100" "") shop_without_cable
  = (Raise TypeError, shop_without_cable).
Proof.
  split; [reflexivity|].
  refine (edit_sale_of_missing_product iso_date decimal_int decimal_float
            "2025-01-03 10:00:00" 0%nat (mk_sales_form "2025-01-03" "Cable" "5" "100" "")
            shop_without_cable cable_sale cable_sale 5 (float_of_Z 100) zero
            eq_refl eq_refl edit_to_five_cables _ eq_refl).
  discriminate.
Defined.

Lemma delete_product_cascades_witness :
  let st' := after (delete_product (Some 0%nat) true) shop_after_sale in
  select_stock 1 (conn st') = None /\
  entries_of 1 (stock_history (conn st')) = [] /\
  daily_accessories_sales (conn st') = [cable_sale].
Proof.
  intros st'.
  pose proof (delete_product_cascades 0%nat (set_stock 2 "2025-01-02 11:00:00" cable)
                shop_after_sale eq_refl) as (H1 & H2 & _ & H3 & _).
  split; [exact H1|]. split; [exact H2 | exact H3].
Defined.

Lemma invoice_of_two_cables :
  invoice_request iso_date decimal_int decimal_float "2025-01-04" "Cable"
    (Text "2") (Text "0") (conn shop) 2 zero cable.
Proof.
  unfold invoice_request. repeat split; try reflexivity; try discriminate.
Defined.

Lemma invoice_of_one_more_cable :
  invoice_request iso_date decimal_int decimal_float "2025-01-04" "Cable"
    (Text "1") (Text "0")
    (conn (snd (add_invoice_checked iso_date decimal_int decimal_float
                  "2025-01-04 12:00:00" "2025-01-04" "Asha" FromStock None "Cable"
                  (Text "2") (Text "0") ["2025-01-04"; "Asha"; "Cable"; "2"] shop)))
    1 zero (set_stock 8 "2025-01-04 12:00:00" cable).
Proof.
  unfold invoice_request. repeat split; try reflexivity; try discriminate.
Defined.

Lemma two_cables_amount :
  amounts_are_numbers 2 (Product.sell_price cable) zero.
Proof. split; reflexivity. Defined.

Lemma second_invoice_in_same_second_witness :
  let now := "2025-01-04 12:00:00" in
  let st1 := snd (add_invoice_checked iso_date decimal_int decimal_float now
                    "2025-01-04" "Asha" FromStock None "Cable" (Text "2") (Text "0")
                    ["2025-01-04"; "Asha"; "Cable"; "2"] shop) in
  count_invoice_number (invoice_number_of now) (conn shop) = 0 /\
  count_invoice_number (invoice_number_of now) (conn st1) = 1 /\
  add_invoice_checked iso_date decimal_int decimal_float now
    "2025-01-04" "Bina" FromStock None "Cable" (Text "1") (Text "0")
    ["2025-01-04"; "Bina"; "Cable"; "1"] st1
  = (Return tt,
     mkapp (conn st1)
           (shown st1 ++ [MessageBox (InvoiceNumberExists (invoice_number_of now))])).
Proof.
  intros now st1. split; [reflexivity|].
  refine (second_invoice_in_same_second iso_date decimal_int decimal_float now
            "2025-01-04" "Asha" "Cable" (Text "2") (Text "0")
            ["2025-01-04"; "Asha"; "Cable"; "2"]
            "2025-01-04" "Bina" "Cable" (Text "1") (Text "0")
            ["2025-01-04"; "Bina"; "Cable"; "1"]
            shop 2 zero cable 1 zero (set_stock 8 "2025-01-04 12:00:00" cable)
            eq_refl invoice_of_two_cables _ two_cables_amount eq_refl
            (unique_id_of_one_product _)
            eq_refl invoice_of_one_more_cable _ eq_refl); discriminate.
Defined.

Lemma delete_invoice_keeps_stock_witness :
  let st := after (add_invoice iso_date decimal_int decimal_float "2025-01-04 12:00:00"
                     (mk_invoice_form "2025-01-04" "Asha" FromStock None "Cable" "2" "0"))
                  shop in
  let st' := after (delete_invoice "2025-01-05 09:00:00" (Some 0%nat) true) st in
  select_stock 1 (conn st) = Some 8 /\
  List.length (invoices (conn st)) = 1%nat /\
  products (conn st') = products (conn st) /\
  stock_history (conn st') = stock_history (conn st) /\
  invoices (conn st') = [].
Proof.
  intros st st'. split; [reflexivity|]. split; [reflexivity|].
  pose proof (fun inv H H' =>
                delete_invoice_keeps_stock "2025-01-05 09:00:00" 0%nat inv st H H')
    as Hdel.
  specialize (Hdel _ eq_refl ltac:(discriminate)).
  destruct Hdel as (H1 & H2 & _ & H4 & _).
  split; [exact H1|]. split; [exact H2|]. exact H4.
Defined.

Lemma invoice_from_stock_then_delete_witness :
  let now := "2025-01-04 12:00:00" in
  let st1 := snd (add_invoice_checked iso_date decimal_int decimal_float now
                    "2025-01-04" "Asha" FromStock None "Cable" (Text "2") (Text "0")
                    ["2025-01-04"; "Asha"; "Cable"; "2"] shop) in
  let st2 := after (delete_invoice "2025-01-05 09:00:00" (Some 0%nat) true) st1 in
  invoices (conn st2) = [] /\
  select_stock 1 (conn st2) = Some (10 - 2) /\
  stock_history (conn st2)
  = stock_history (conn shop)
      ++ [History.mk 1 now (- 2) (InvoiceIssued (invoice_number_of now))].
Proof.
  intros now st1 st2.
  refine (invoice_from_stock_then_delete iso_date decimal_int decimal_float now
            "2025-01-05 09:00:00" "2025-01-04" "Asha" "Cable" (Text "2") (Text "0")
            ["2025-01-04"; "Asha"; "Cable"; "2"] shop 2 zero cable
            eq_refl invoice_of_two_cables _ two_cables_amount eq_refl
            (unique_id_of_one_product _) _);
    discriminate.
Defined.


Lemma input_of_adapter :
  product_input decimal_int decimal_float adapter_form (float_of_Z 200) (float_of_Z 350) 4.
Proof.
  unfold product_input. repeat split; try reflexivity; try discriminate.
Defined.

Lemma add_product_initial_stock_witness :
  let b' := afterx (add_product decimal_int decimal_float sample_already_exists
                      sample_not_negative "2025-01-06 09:00:00" adapter_form)
                   shop_books in
  products (dbx b')
  = products (dbx shop_books)
      ++ [Product.mk 2 "Adapter" "Chargers" (float_of_Z 200) (float_of_Z 350)
                     "2025-01-06 09:00:00" 4] /\
  stock_history (dbx b')
  = stock_history (dbx shop_books)
      ++ [History.mk 2 "2025-01-06 09:00:00" 4 InitialStock].
Proof.
  intros b'.
  pose proof (proj1 (add_product_initial_stock decimal_int decimal_float
                       sample_already_exists sample_not_negative "2025-01-06 09:00:00"
                       adapter_form shop_books)
                (float_of_Z 200) (float_of_Z 350) 4 input_of_adapter
                ltac:(repeat split) eq_refl) as (H1 & H2 & _).
  split; [exact H1 | exact H2].
Defined.

Lemma damage_of_two_cables :
  damage_request iso_date decimal_int two_damaged_cables (dbx shop_books) 2 cable.
Proof.
  unfold damage_request. repeat split; try reflexivity; try discriminate.
Defined.

Lemma add_damage_validated_witness :
  let b' := afterx (add_damage iso_date decimal_int sample_damaged_units
                      "2025-01-05 10:00:00" two_damaged_cables) shop_books in
  select_stock 1 (dbx b') = Some (10 - 2) /\
  stock_history (dbx b')
  = stock_history (dbx shop_books)
      ++ [History.mk 1 "2025-01-05 10:00:00" (- 2) (sample_damaged_units 2)].
Proof.
  intros b'.
  pose proof (proj1 (add_damage_validated iso_date decimal_int sample_damaged_units
                       "2025-01-05 10:00:00" two_damaged_cables shop_books
                       (unique_id_of_one_product _))
                2 cable damage_of_two_cables) as (H1 & H2 & _).
  split; [exact H1 | exact H2].
Defined.


Lemma damage_create_delete_roundtrip_witness :
  let b1 := afterx (add_damage iso_date decimal_int sample_damaged_units
                      "2025-01-05 10:00:00" two_damaged_cables) shop_books in
  let b2 := afterx (delete_damage sample_deleted_damage_entry "2025-01-06 10:00:00"
                      (Some 0%nat) true) b1 in
  select_stock 1 (dbx b1) = Some 8 /\
  (forall q, select_stock q (dbx b2) = select_stock q (dbx shop_books)) /\
  damaged_products b2 = [].
Proof.
  intros b1 b2. split; [reflexivity|].
  pose proof (damage_create_delete_roundtrip iso_date decimal_int sample_damaged_units
                sample_deleted_damage_entry "2025-01-05 10:00:00" "2025-01-06 10:00:00"
                two_damaged_cables shop_books 2 cable (unique_id_of_one_product _)
                damage_of_two_cables) as (H1 & _ & H3).
  split; [exact H1 | exact H3].
Defined.

Lemma damage_replace_then_delete_witness :
  let b1 := afterx (add_damage iso_date decimal_int sample_damaged_units
                      "2025-01-05 10:00:00" two_damaged_cables) shop_books in
  let b2 := afterx (replace_damage sample_replaced_units sample_already_replaced
                      "2025-01-06 10:00:00" (Some 0%nat) true) b1 in
  let b3 := afterx (delete_damage sample_deleted_damage_entry "2025-01-07 10:00:00"
                      (Some 0%nat) true) b2 in
  (forall q, select_stock q (dbx b3) = select_stock q (dbx shop_books)) /\
  stock_history (dbx b3)
  = stock_history (dbx shop_books)
      ++ [History.mk 1 "2025-01-05 10:00:00" (- 2) (sample_damaged_units 2);
          History.mk 1 "2025-01-06 10:00:00" 2 (sample_replaced_units 2)] /\
  damaged_products b3 = [].
Proof.
  intros b1 b2 b3.
  exact (damage_replace_then_delete iso_date decimal_int sample_damaged_units
           sample_replaced_units sample_deleted_damage_entry sample_already_replaced
           "2025-01-05 10:00:00" "2025-01-06 10:00:00" "2025-01-07 10:00:00"
           two_damaged_cables shop_books 2 cable (unique_id_of_one_product _)
           damage_of_two_cables).
Defined.


Lemma apply_filters_overwrites_filters_witness :
  let earlier := snd (apply_filters string literal_compile lower_ascii
                        (no_filters string) chargers_in_stock) in
  apply_filters string literal_compile lower_ascii earlier cleared_search
  = apply_filters string literal_compile lower_ascii (no_filters string) cleared_search /\
  apply_filters string literal_compile lower_ascii earlier
    (mk_criteria "a{99999999999}" "" None None None None None None None)
  = (Raise OverflowError, half_set string lower_ascii earlier "a{99999999999}").
Proof.
  intros earlier. split.
  - refine (proj1 (proj1 (apply_filters_overwrites_filters string literal_compile
                            literal_search lower_ascii earlier (no_filters string)
                            cleared_search) _)).
    left. reflexivity.
  - refine (proj2 (apply_filters_overwrites_filters string literal_compile
                     literal_search lower_ascii earlier (no_filters string)
                     (mk_criteria "a{99999999999}" "" None None None None None None None))
              OverflowError _ eq_refl).
    discriminate.
Defined.

Lemma cleared_search_accepts_every_row_witness :
  let previous := snd (apply_filters string literal_compile lower_ascii
                         (no_filters string) chargers_in_stock) in
  filterAcceptsRow string literal_search lower_ascii previous empty_charger = false /\
  filterAcceptsRow string literal_search lower_ascii
    (snd (apply_filters string literal_compile lower_ascii previous cleared_search))
    empty_charger = true.
Proof.
  intros previous. split; [reflexivity|].
  refine (proj1 (proj2 (cleared_search_accepts_every_row string literal_compile
                          literal_search lower_ascii previous cleared_search
                          empty_charger
                          eq_refl _ eq_refl eq_refl eq_refl eq_refl _ eq_refl eq_refl))).
  - right. reflexivity.
  - right. reflexivity.
Defined.
